(** * Tableau workbook cleanup validator: a shallow embedding

    This development embeds [claude-skill/scripts/validate_cleanup.py] and
    states the properties of its rule sets (captions C1-C5, comments M1-M6,
    folders F1-F11, safety S1-S3) and of its exit status.

    Conventions of the embedding:
    - a Python [str] is a list of Unicode code points ([N]);
    - [None] is [option]'s [None]; Python truthiness of an optional string
      is [truthy];
    - the [ValidationResult] object that every check mutates is threaded
      explicitly: a check is a function [ValidationResult -> ValidationResult];
    - the [re] module, the XML parser and the file system are not part of the
      script: they are Section variables.  The one regular expression that is
      written with explicit character ranges only (the folder marker pattern
      of F10/F11) is translated by hand. *)

From Stdlib Require Import List NArith ZArith Bool Lia String Ascii PeanoNat.
From Stdlib Require Import Numbers.DecimalString.
Import ListNotations.

Local Open Scope N_scope.
Local Open Scope list_scope.

(** ** Python strings *)

Module PyStr.

Definition str := list N.

(** A literal of the script (ASCII only). *)
Definition lit (s : string) : str := map N_of_ascii (list_ascii_of_string s).

Fixpoint str_eqb (a b : str) : bool :=
  match a, b with
  | [], [] => true
  | x :: a', y :: b' => (x =? y) && str_eqb a' b'
  | _, _ => false
  end.

(** [s.startswith(p)] *)
Fixpoint startswith (p s : str) : bool :=
  match p, s with
  | [], _ => true
  | x :: p', y :: s' => (x =? y) && startswith p' s'
  | _ :: _, [] => false
  end.

(** [p in s] *)
Fixpoint contains (p s : str) : bool :=
  startswith p s ||
  match s with
  | [] => false
  | _ :: s' => contains p s'
  end.

(** [x in l] for a list or set of strings *)
Definition mem (x : str) (l : list str) : bool := existsb (str_eqb x) l.

(** The code points for which [str.isspace] holds; [str.split], [str.strip]
    and the [re] module's [\s] all use this set. *)
Definition whitespace : list N :=
  [0x9; 0xA; 0xB; 0xC; 0xD; 0x1C; 0x1D; 0x1E; 0x1F; 0x20; 0x85; 0xA0; 0x1680;
   0x2000; 0x2001; 0x2002; 0x2003; 0x2004; 0x2005; 0x2006; 0x2007; 0x2008;
   0x2009; 0x200A; 0x2028; 0x2029; 0x202F; 0x205F; 0x3000].

Definition isspace (c : N) : bool := existsb (N.eqb c) whitespace.

Fixpoint dropwhile (f : N -> bool) (s : str) : str :=
  match s with
  | [] => []
  | c :: s' => if f c then dropwhile f s' else s
  end.

Definition lstrip_by (f : N -> bool) (s : str) : str := dropwhile f s.
Definition rstrip_by (f : N -> bool) (s : str) : str := rev (dropwhile f (rev s)).

(** [s.strip()] *)
Definition strip (s : str) : str := rstrip_by isspace (lstrip_by isspace s).

(** [s.strip(chars)] *)
Definition strip_chars (chars : str) (s : str) : str :=
  let f c := existsb (N.eqb c) chars in rstrip_by f (lstrip_by f s).

(** [s.split()]: the maximal runs of non-whitespace code points.  A code
    point that is not whitespace starts a word of its own when the next one
    is whitespace (or there is none), and otherwise joins the first word of
    the rest. *)
Fixpoint split_ws (s : str) : list str :=
  match s with
  | [] => []
  | c :: s' =>
      if isspace c then split_ws s'
      else match s' with
           | [] => [[c]]
           | d :: _ =>
               if isspace d then [c] :: split_ws s'
               else match split_ws s' with
                    | w :: ws => (c :: w) :: ws
                    | [] => [[c]]
                    end
           end
  end.

(** [sep.join(ws)] *)
Fixpoint join (sep : str) (ws : list str) : str :=
  match ws with
  | [] => []
  | w :: ws' =>
      match ws' with
      | [] => w
      | _ :: _ => w ++ sep ++ join sep ws'
      end
  end.

(** [s.replace(old, new)] for a non-empty [old] (every call of the script
    has one): occurrences are replaced from left to right and do not overlap;
    [skip] counts the code points of an occurrence still to be dropped. *)
Fixpoint replace_from (old new : str) (skip : nat) (s : str) : str :=
  match s with
  | [] => []
  | c :: s' =>
      match skip with
      | S k => replace_from old new k s'
      | O =>
          if startswith old s
          then new ++ replace_from old new (pred (List.length old)) s'
          else c :: replace_from old new O s'
      end
  end.

Definition replace (old new s : str) : str := replace_from old new O s.

(** [s.split(sep)[0]]: the text before the first occurrence of [sep]. *)
Fixpoint split_first (sep s : str) : str :=
  match s with
  | [] => []
  | c :: s' => if startswith sep s then [] else c :: split_first sep s'
  end.

(** Case mapping.  Python applies the Unicode tables; the embedding has the
    ASCII rows and the row of U+0149 (LATIN SMALL LETTER N PRECEDED BY
    APOSTROPHE, whose upper and title forms are the two code points U+02BC
    U+004E).  Every other code point is left as it is, so statements about
    casing are made for ASCII text. *)
Definition is_ascii_lower (c : N) : bool := (97 <=? c) && (c <=? 122).
Definition is_ascii_upper (c : N) : bool := (65 <=? c) && (c <=? 90).

Definition upper_cp (c : N) : str :=
  if is_ascii_lower c then [c - 32]
  else if c =? 0x149 then [0x2BC; 0x4E]
  else [c].

Definition lower_cp (c : N) : str :=
  if is_ascii_upper c then [c + 32] else [c].

Definition title_cp (c : N) : str := upper_cp c.

(** [s.upper()], [s.lower()] *)
Definition upper (s : str) : str := flat_map upper_cp s.
Definition lower (s : str) : str := flat_map lower_cp s.

(** [s.capitalize()]: the first code point in title case, the rest in lower
    case. *)
Definition capitalize (s : str) : str :=
  match s with
  | [] => []
  | c :: r => title_cp c ++ lower r
  end.

(** [str(n)] for a length *)
Definition str_of_nat (n : nat) : str :=
  lit (NilEmpty.string_of_uint (Nat.to_uint n)).

(** Truthiness of a string and of an optional string. *)
Definition nonempty (s : str) : bool :=
  match s with [] => false | _ :: _ => true end.

Definition truthy (o : option str) : bool :=
  match o with Some s => nonempty s | None => false end.

(** [a or b] on optional strings *)
Definition or_else (a b : option str) : option str :=
  if truthy a then a else b.

(** How an f-string shows an optional string. *)
Definition fmt (o : option str) : str :=
  match o with Some s => s | None => lit "None" end.

End PyStr.
Export PyStr.

(** ** Constants of the script *)

(** Acronyms to preserve.  The script holds them in a set; the list keeps the
    order of the source text. *)
Definition ACRONYMS : list str :=
  map lit ["ID"; "YTD"; "MTD"; "QTD"; "KPI"; "ROI"; "YOY"; "MOM"; "WOW";
           "LOD"; "RLS"; "API"; "URL"; "SQL"; "AVG"; "SUM"; "MIN"; "MAX"]%string.

Definition MAX_FOLDERS : nat := 6.

Definition LAZY_COMMENT_PATTERNS : list str :=
  map lit
    ["^//\s*(calculated\s+field|calculation|formula|field)\s*$";
     "^//\s*(returns?\s+\d|case\s+statement|date\s+calculation|sum\s+of|if\s+statement)";
     "^//\s*\w{1,6}\s*$";
     "^//\s*(this|the|a|an)\s+(field|calc|calculation|formula|value)\s*";
     "^//\s*(boolean|string|number|integer|float|date)\s*(field|value|calc)?\s*$"]%string.

Definition MIN_COMMENT_LENGTH : nat := 15.

(** ** Text normalizer *)

Definition title_word (word : str) : str :=
  let upper_ := upper word in
  if mem upper_ ACRONYMS then upper_ else capitalize word.

Definition to_title_case (text : str) : str :=
  let words := split_ws (replace (lit "_") (lit " ") text) in
  join (lit " ") (map title_word words).

(** ** Result aggregator *)

(** An entry of the report.  The script stores the formatted line
    ([render_error], [render_pass]); the embedding keeps its three parts. *)
Record Entry := mkEntry { rule : str; field : str; message : str }.

Record ValidationResult := mkResult { errors : list Entry; passes : list Entry }.

Definition new_result : ValidationResult := mkResult [] [].

Definition error (rule_ field_ message_ : str) (res : ValidationResult) : ValidationResult :=
  mkResult (errors res ++ [mkEntry rule_ field_ message_]) (passes res).

Definition passed (rule_ field_ message_ : str) (res : ValidationResult) : ValidationResult :=
  mkResult (errors res) (passes res ++ [mkEntry rule_ field_ message_]).

Definition has_errors (res : ValidationResult) : bool :=
  (0 <? List.length (errors res))%nat.

Definition quote : str := [34].

Definition render (kind : str) (e : Entry) : str :=
  lit "[" ++ kind ++ lit "] " ++ rule e ++ lit ": " ++ quote ++ field e ++ quote
  ++ lit " - " ++ message e.

Definition render_error : Entry -> str := render (lit "ERROR").
Definition render_pass : Entry -> str := render (lit "PASS").

(** A [for] loop whose body only touches the result. *)
Definition for_each {A : Type} (body : A -> ValidationResult -> ValidationResult)
    (l : list A) (res : ValidationResult) : ValidationResult :=
  fold_left (fun res x => body x res) l res.

Definition entry_eqb (a b : Entry) : bool :=
  str_eqb (rule a) (rule b) && str_eqb (field a) (field b)
  && str_eqb (message a) (message b).

(** The entries of a rule, in the order they were recorded. *)
Definition of_rule (r : string) (l : list Entry) : list Entry :=
  filter (fun e => str_eqb (rule e) (lit r)) l.

(** ** The [re] module, as far as the script uses it *)

Inductive re_flag := IGNORECASE | DOTALL.

Section Validator.

(** [re.search(pattern, s, flags)]: the text of the leftmost match
    ([match.group()]), if there is one. *)
Variable re_search : str -> list re_flag -> str -> option str.

(** [re.match(pattern, s, flags)]: whether the pattern matches at the start. *)
Variable re_match : str -> list re_flag -> str -> bool.

(** [re.finditer(pattern, s, flags)] for a pattern with two groups: groups 1
    and 2 of every match, in order. *)
Variable re_finditer : str -> list re_flag -> str -> list (str * str).

(** ** Caption rule set (C1-C5) *)

Definition check_C1 (caption : option str) (display_name : str)
    (res : ValidationResult) : ValidationResult :=
  match caption with
  | Some cap =>
      if nonempty cap then
        let expected := to_title_case cap in
        if negb (str_eqb cap expected)
           && negb (str_eqb (lower cap) (lower expected)) then
          if str_eqb (lower (replace (lit " ") [] cap))
                     (lower (replace (lit " ") [] expected)) then
            if negb (str_eqb cap expected) then
              error (lit "C1") display_name
                    (lit "should be " ++ quote ++ expected ++ quote) res
            else res
          else res
        else res
      else res
  | None => res
  end.

Definition check_C2 (caption : option str) (display_name : str)
    (res : ValidationResult) : ValidationResult :=
  match caption with
  | Some cap =>
      if nonempty cap && contains (lit "_") cap
      then error (lit "C2") display_name (lit "contains underscore") res
      else res
  | None => res
  end.

Definition check_C3 (caption : option str) (display_name : str)
    (res : ValidationResult) : ValidationResult :=
  match caption with
  | Some cap =>
      if nonempty cap && startswith (lit "c_") (lower cap)
      then error (lit "C3") display_name (lit "has deprecated c_ prefix") res
      else res
  | None => res
  end.

(** The body of the loop of C4 over the acronym set. *)
Definition check_C4_acronym (cap display_name acronym : str)
    (res : ValidationResult) : ValidationResult :=
  match re_search (lit "\b" ++ acronym ++ lit "\b") [IGNORECASE] cap with
  | Some group =>
      if negb (str_eqb group acronym) then
        error (lit "C4") display_name
              (quote ++ group ++ quote ++ lit " should be "
               ++ quote ++ acronym ++ quote) res
      else res
  | None => res
  end.

Definition check_C4 (caption : option str) (display_name : str)
    (res : ValidationResult) : ValidationResult :=
  match caption with
  | Some cap =>
      if nonempty cap
      then for_each (check_C4_acronym cap display_name) ACRONYMS res
      else res
  | None => res
  end.

Definition check_C5 (caption : option str) (display_name : str)
    (res : ValidationResult) : ValidationResult :=
  match caption with
  | Some cap =>
      if nonempty cap then
        match re_search (lit "\)\s*\(") [] cap with
        | Some _ =>
            error (lit "C5") display_name
                  (lit "has double parentheses " ++ quote ++ lit "()()" ++ quote) res
        | None => res
        end
      else res
  | None => res
  end.

Definition validate_caption (caption name : option str)
    (res : ValidationResult) : ValidationResult :=
  let display_name := fmt (or_else caption name) in
  let res := check_C1 caption display_name res in
  let res := check_C2 caption display_name res in
  let res := check_C3 caption display_name res in
  let res := check_C4 caption display_name res in
  check_C5 caption display_name res.

(** ** Comment rule set (M1-M6) *)

Definition is_bin_class (calc_class : option str) : bool :=
  match calc_class with
  | Some c => mem c [lit "categorical-bin"; lit "quantitative-bin"]
  | None => false
  end.

(** The loop of M3b over the lazy patterns; it stops at the first match and
    returns [is_lazy] with the result. *)
Fixpoint check_M3_lazy (patterns : list str) (comment_line comment_text display_name : str)
    (res : ValidationResult) : ValidationResult * bool :=
  match patterns with
  | [] => (res, false)
  | pattern :: rest =>
      if re_match pattern [IGNORECASE] comment_line then
        (error (lit "M3") display_name
               (lit "lazy/generic comment - explain PURPOSE, not just "
                ++ quote ++ firstn 30 comment_text ++ quote) res, true)
      else check_M3_lazy rest comment_line comment_text display_name res
  end.

Definition check_M3 (formula_stripped : str) (caption : option str)
    (display_name : str) (res : ValidationResult) : ValidationResult :=
  let comment_line :=
    if contains [10] formula_stripped
    then split_first [10] formula_stripped
    else split_first (lit "&#13;") formula_stripped in
  let comment_text := strip (replace (lit "//") [] comment_line) in
  if (List.length comment_text <? MIN_COMMENT_LENGTH)%nat then
    error (lit "M3") display_name
          (lit "comment too short (" ++ str_of_nat (List.length comment_text)
           ++ lit " chars, need " ++ str_of_nat MIN_COMMENT_LENGTH ++ lit "+)") res
  else
    let '(res, is_lazy) :=
      check_M3_lazy LAZY_COMMENT_PATTERNS comment_line comment_text display_name res in
    match caption with
    | Some cap =>
        if negb is_lazy && nonempty cap then
          let caption_normalized :=
            strip (replace (lit "-") (lit " ") (replace (lit "_") (lit " ") (lower cap))) in
          let comment_normalized := strip (lower comment_text) in
          if str_eqb caption_normalized comment_normalized then
            error (lit "M3") display_name
                  (lit "comment just restates caption - explain PURPOSE instead") res
          else res
        else res
    | None => res
    end.

Definition check_M4 (raw_formula : option str) (display_name : str)
    (res : ValidationResult) : ValidationResult :=
  match raw_formula with
  | Some raw =>
      if nonempty raw then
        if contains [10] raw && negb (contains (lit "&#13;") raw) then
          error (lit "M4") display_name
                (lit "newline not XML-encoded (use &#13;&#10;)") res
        else res
      else res
  | None => res
  end.

Definition check_M5 (raw_formula : option str) (display_name : str)
    (res : ValidationResult) : ValidationResult :=
  match raw_formula with
  | Some raw =>
      if nonempty raw then
        match re_search (lit "&(?!(amp|apos|quot|lt|gt|#\d+|#x[0-9A-Fa-f]+);)") [] raw with
        | Some _ =>
            error (lit "M5") display_name (lit "unescaped & in formula/comment") res
        | None => res
        end
      else res
  | None => res
  end.

(** M6 only inspects the comment and records nothing, so it has no
    counterpart here. *)
Definition validate_comment (formula caption name : option str)
    (res : ValidationResult) (raw_formula calc_class : option str)
    : ValidationResult :=
  let display_name := fmt (or_else caption name) in
  if is_bin_class calc_class then
    passed (lit "M1") display_name (lit "bin/group calc - no formula to comment") res
  else
    match formula with
    | None =>
        passed (lit "M1") display_name (lit "no formula attribute - skipping") res
    | Some f =>
        let formula_stripped := if nonempty f then strip f else [] in
        if negb (nonempty formula_stripped) then
          passed (lit "M1") display_name (lit "empty formula - skipping") res
        else if negb (startswith (lit "//") formula_stripped) then
          error (lit "M1") display_name (lit "missing comment") res
        else
          let res := passed (lit "M1") display_name (lit "has comment") res in
          let res := passed (lit "M2") display_name (lit "starts with //") res in
          let res := check_M3 formula_stripped caption display_name res in
          let res := check_M4 raw_formula display_name res in
          check_M5 raw_formula display_name res
    end.

End Validator.

(** ** The parsed document *)

(** An [xml.etree.ElementTree.Element]: tag, attributes, children (text and
    tail are never read by the script). *)
#[warnings="-register-all"]
Inductive Element :=
  Elem (tag : str) (attrib : list (str * str)) (children : list Element).

Definition tag_of (e : Element) : str := let 'Elem t _ _ := e in t.
Definition attrib_of (e : Element) : list (str * str) := let 'Elem _ a _ := e in a.
Definition children_of (e : Element) : list Element := let 'Elem _ _ c := e in c.

(** [d.get(key)] on a dictionary with string keys *)
Fixpoint dict_get (key : str) (d : list (str * str)) : option str :=
  match d with
  | [] => None
  | (k, v) :: d' => if str_eqb key k then Some v else dict_get key d'
  end.

(** [elem.get(key)] and [elem.get(key, default)] *)
Definition get (e : Element) (key : string) : option str :=
  dict_get (lit key) (attrib_of e).

Definition get_default (e : Element) (key : string) (default : str) : str :=
  match get e key with Some v => v | None => default end.

(** The script compares elements by identity ([in], [list.index] on lists of
    elements).  An element of a parsed tree is identified by its position:
    the child indices on the way down from the root. *)
Definition path := list nat.
Definition node : Type := path * Element.

Definition path_eqb (p q : path) : bool :=
  if list_eq_dec Nat.eq_dec p q then true else false.

(** [a is b] *)
Definition same_node (a b : node) : bool := path_eqb (fst a) (fst b).

(** [x in l] for elements *)
Definition node_in (x : node) (l : list node) : bool := existsb (same_node x) l.

(** [l.index(x)] for an element known to be in [l] *)
Fixpoint node_index (x : node) (l : list node) : nat :=
  match l with
  | [] => O
  | y :: l' => if same_node x y then O else S (node_index x l')
  end.

Fixpoint number_from (p : path) (i : nat) (cs : list Element) : list node :=
  match cs with
  | [] => []
  | c :: cs' => (p ++ [i], c) :: number_from p (S i) cs'
  end.

(** [list(elem)] *)
Definition kids (n : node) : list node :=
  number_from (fst n) O (children_of (snd n)).

(** [elem.iter()]: the element and its descendants in document order. *)
Fixpoint iter_at (p : path) (e : Element) : list node :=
  match e with
  | Elem _ _ cs =>
      (p, e) ::
      (fix go (i : nat) (cs : list Element) : list node :=
         match cs with
         | [] => []
         | c :: cs' => iter_at (p ++ [i]) c ++ go (S i) cs'
         end) O cs
  end.

Definition iter (n : node) : list node := iter_at (fst n) (snd n).

Definition has_tag (t : string) (n : node) : bool := str_eqb (tag_of (snd n)) (lit t).

(** [elem.iter(tag)] *)
Definition iter_tag (n : node) (t : string) : list node := filter (has_tag t) (iter n).

(** [elem.findall('.//tag')]: the descendants with that tag (the element
    itself is not one of them) *)
Definition findall_desc (n : node) (t : string) : list node :=
  filter (has_tag t) (tl (iter n)).

(** [elem.find('.//tag')] *)
Definition find_desc (n : node) (t : string) : option node :=
  hd_error (findall_desc n t).

(** [elem.findall(tag)] and [elem.find(tag)]: direct children *)
Definition findall (n : node) (t : string) : list node := filter (has_tag t) (kids n).
Definition find (n : node) (t : string) : option node := hd_error (findall n t).

(** ** Folder rule set (F1-F11) *)

Definition is_hex (c : N) : bool :=
  ((48 <=? c) && (c <=? 57)) || ((65 <=? c) && (c <=? 70))
  || ((97 <=? c) && (c <=? 102)).

Fixpoint takewhile (f : N -> bool) (s : str) : str :=
  match s with
  | [] => []
  | c :: s' => if f c then c :: takewhile f s' else []
  end.

(** [emoji_pattern.match(s)] for the pattern
    [^([\U0001F300-\U0001F9FF]|&#x[0-9A-Fa-f]+;)]: the matched text
    ([match.group()]), if the pattern matches.  The second alternative is
    [&#x], the longest run of hexadecimal digits (at least one; a shorter run
    would be followed by a digit, not by the semicolon), and [;]. *)
Definition emoji_pattern_match (s : str) : option str :=
  match s with
  | [] => None
  | c :: rest =>
      if (0x1F300 <=? c) && (c <=? 0x1F9FF) then Some [c]
      else if startswith (lit "&#x") s then
        let body := skipn 3 s in
        let digits := takewhile is_hex body in
        match digits, dropwhile is_hex body with
        | _ :: _, 59 :: _ => Some (lit "&#x" ++ digits ++ lit ";")
        | _, _ => None
        end
      else None
  end.

(** F3: position of the containment element and of the layout element among
    the children of the first element that holds both. *)
Definition check_F3 (root folders_common : node) (layout : option node)
    (res : ValidationResult) : ValidationResult :=
  match layout with
  | Some layout =>
      let parent :=
        List.find (fun elem => node_in folders_common (kids elem)
                               && node_in layout (kids elem)) (iter root) in
      match parent with
      | Some parent =>
          let children := kids parent in
          let fc_idx :=
            if node_in folders_common children
            then Z.of_nat (node_index folders_common children) else (-1)%Z in
          let layout_idx :=
            if node_in layout children
            then Z.of_nat (node_index layout children) else (-1)%Z in
          if (layout_idx <? fc_idx)%Z && negb (layout_idx =? -1)%Z then
            error (lit "F3") (lit "XML") (lit "<folders-common> must appear before <layout>") res
          else
            passed (lit "F3") (lit "XML") (lit "<folders-common> is before <layout>") res
      | None => res
      end
  | None => res
  end.

Definition check_F4 (all_folders folders_in_common : list node)
    (res : ValidationResult) : ValidationResult :=
  let folders_outside :=
    filter (fun f => negb (node_in f folders_in_common)) all_folders in
  match folders_outside with
  | _ :: _ =>
      error (lit "F4") (lit "XML")
            (str_of_nat (List.length folders_outside)
             ++ lit " <folder> elements outside <folders-common>") res
  | [] =>
      passed (lit "F4") (lit "XML") (lit "all <folder> elements inside <folders-common>") res
  end.

Definition check_F5_folder (folder : node) (res : ValidationResult) : ValidationResult :=
  if truthy (get (snd folder) "role") then
    error (lit "F5") (get_default (snd folder) "name" (lit "unnamed"))
          (lit "has invalid role attribute") res
  else res.

Definition check_F5 (folders_in_common : list node)
    (res : ValidationResult) : ValidationResult :=
  for_each check_F5_folder folders_in_common res.

(** The names of the folder items of a folder that have one ([item.get('name')]
    is truthy), in order. *)
Definition item_names (folder : node) : list str :=
  flat_map (fun item =>
              match get (snd item) "name" with
              | Some field_name => if nonempty field_name then [field_name] else []
              | None => []
              end)
           (findall folder "folder-item").

(** The set [fields_in_folders], as the list of its insertions. *)
Definition fields_in_folders_of (folders_in_common : list node) : list str :=
  flat_map item_names folders_in_common.

Definition bracket (s : str) : str := lit "[" ++ s ++ lit "]".

Definition check_F1_calc (fields_in_folders : list str) (calc : node)
    (res : ValidationResult) : ValidationResult :=
  let calc_name := get (snd calc) "name" in
  let display_name := fmt (or_else (get (snd calc) "caption") calc_name) in
  match calc_name with
  | Some cn =>
      if nonempty cn && negb (mem cn fields_in_folders)
         && negb (mem (bracket cn) fields_in_folders) then
        let bracketed :=
          if negb (startswith (lit "[") cn) then bracket cn else cn in
        if negb (mem bracketed fields_in_folders)
           && negb (mem cn fields_in_folders) then
          error (lit "F1") display_name (lit "not in any folder") res
        else res
      else res
  | None => res
  end.

Definition check_F1 (calculations : list node) (fields_in_folders : list str)
    (res : ValidationResult) : ValidationResult :=
  for_each (check_F1_calc fields_in_folders) calculations res.

(** [x in calc_names], where [calc_names] is the set of the [name]
    attributes of the calculations ([None] for a column without one). *)
Definition in_calc_names (x : str) (calc_names : list (option str)) : bool :=
  existsb (fun o => match o with Some y => str_eqb x y | None => false end) calc_names.

Definition check_F6_item (calc_names : list (option str)) (item : node)
    (res : ValidationResult) : ValidationResult :=
  let field_name := get_default (snd item) "name" [] in
  let clean_name := strip_chars (lit "[]") field_name in
  if negb (in_calc_names clean_name calc_names)
     && negb (in_calc_names field_name calc_names) then
    error (lit "F6") field_name (lit "not found in workbook") res
  else res.

Definition check_F6 (folders_in_common : list node) (calc_names : list (option str))
    (res : ValidationResult) : ValidationResult :=
  for_each (fun folder =>
              for_each (check_F6_item calc_names) (findall folder "folder-item"))
           folders_in_common res.

Definition check_F7 (layout : option node) (res : ValidationResult) : ValidationResult :=
  match layout with
  | Some layout =>
      match get (snd layout) "show-structure" with
      | Some v =>
          if str_eqb v (lit "true") then
            passed (lit "F7") (lit "XML") (lit "<layout> has show-structure='true'") res
          else
            error (lit "F7") (lit "XML") (lit "<layout> missing show-structure='true'") res
      | None =>
          error (lit "F7") (lit "XML") (lit "<layout> missing show-structure='true'") res
      end
  | None => res
  end.

Definition check_F8_folder (folder : node) (res : ValidationResult) : ValidationResult :=
  let folder_name := get_default (snd folder) "name" [] in
  if contains (lit "&") folder_name && negb (contains (lit "&amp;") folder_name)
  then error (lit "F8") folder_name (lit "has unescaped &") res
  else res.

Definition check_F8 (folders_in_common : list node)
    (res : ValidationResult) : ValidationResult :=
  for_each check_F8_folder folders_in_common res.

Definition check_F9 (folders_in_common : list node)
    (res : ValidationResult) : ValidationResult :=
  if (MAX_FOLDERS <? List.length folders_in_common)%nat then
    error (lit "F9") (lit "XML")
          (lit "Too many folders (" ++ str_of_nat (List.length folders_in_common)
           ++ lit ") - maximum is " ++ str_of_nat MAX_FOLDERS) res
  else
    passed (lit "F9") (lit "XML")
           (str_of_nat (List.length folders_in_common) ++ lit " folders (max "
            ++ str_of_nat MAX_FOLDERS ++ lit ")") res.

Definition check_F10_folder (folder : node) (res : ValidationResult) : ValidationResult :=
  let folder_name := get_default (snd folder) "name" [] in
  match emoji_pattern_match folder_name with
  | None =>
      error (lit "F10") folder_name
            (lit "missing emoji prefix (use &#x1F4CA; format)") res
  | Some _ => res
  end.

Definition check_F10 (folders_in_common : list node)
    (res : ValidationResult) : ValidationResult :=
  for_each check_F10_folder folders_in_common res.

(** The lists [folder_names] and [folder_emojis] that F11 collects. *)
Definition folder_names_of (folders_in_common : list node) : list str :=
  map (fun folder => get_default (snd folder) "name" []) folders_in_common.

Definition folder_emojis_of (folders_in_common : list node) : list str :=
  flat_map (fun folder =>
              match emoji_pattern_match (get_default (snd folder) "name" []) with
              | Some group => [group]
              | None => []
              end) folders_in_common.

(** The two loops of F11: an entry for every item already in the set of the
    items seen so far. *)
Fixpoint check_duplicates (msg : str) (items seen : list str)
    (res : ValidationResult) : ValidationResult :=
  match items with
  | [] => res
  | x :: rest =>
      let res' := if mem x seen then error (lit "F11") x msg res else res in
      check_duplicates msg rest (x :: seen) res'
  end.

Definition check_F11 (folders_in_common : list node)
    (res : ValidationResult) : ValidationResult :=
  let folder_names := folder_names_of folders_in_common in
  let folder_emojis := folder_emojis_of folders_in_common in
  let res := check_duplicates (lit "duplicate folder name") folder_names [] res in
  check_duplicates (lit "duplicate emoji used in multiple folders") folder_emojis [] res.

Definition validate_folders (root : node) (calculations : list node)
    (res : ValidationResult) : ValidationResult :=
  let folders_common := find_desc root "folders-common" in
  let layout := find_desc root "layout" in
  let all_folders := findall_desc root "folder" in
  match folders_common with
  | None => error (lit "F2") (lit "XML") (lit "Missing <folders-common> element") res
  | Some folders_common =>
      let res := passed (lit "F2") (lit "XML") (lit "<folders-common> exists") res in
      let res := check_F3 root folders_common layout res in
      let folders_in_common := findall folders_common "folder" in
      let res := check_F4 all_folders folders_in_common res in
      let res := check_F5 folders_in_common res in
      let fields_in_folders := fields_in_folders_of folders_in_common in
      let calc_names := map (fun c => get (snd c) "name") calculations in
      let res := check_F1 calculations fields_in_folders res in
      let res := check_F6 folders_in_common calc_names res in
      let res := check_F7 layout res in
      let res := check_F8 folders_in_common res in
      let res := check_F9 folders_in_common res in
      let res := check_F10 folders_in_common res in
      check_F11 folders_in_common res
  end.

(** ** Loading, safety rules and the run *)

(** What a call that can raise gives back. *)
Inductive outcome (A : Type) :=
| Returned (a : A)
| Raised (e : str).
Arguments Returned {A} a.
Arguments Raised {A} e.

(** The exceptions of [ET.fromstring]: [ET.ParseError], or any other. *)
Inductive parse_failure :=
| ParseError (e : str)
| OtherError (e : str).

(** [d[k] = v] and [d.get(k)] on the index of raw formulas; the newest
    binding of a key is the one found. *)
Definition dict_set (k v : str) (d : list (str * str)) : list (str * str) :=
  (k, v) :: d.

Section Workbook.

Variable re_search : str -> list re_flag -> str -> option str.
Variable re_match : str -> list re_flag -> str -> bool.
Variable re_finditer : str -> list re_flag -> str -> list (str * str).

(** [Path(p).exists()] *)
Variable path_exists : str -> bool.

(** [open(p, 'r', encoding='utf-8', errors='replace').read()]: the text, or
    the text of the exception raised. *)
Variable read_text : str -> str + str.

(** [ET.fromstring(content)] *)
Variable fromstring : str -> Element + parse_failure.

(** X1: the root of the parsed tree, if the file parses. *)
Definition validate_xml (twb_path : str) (res : ValidationResult)
    : option node * ValidationResult :=
  match read_text twb_path with
  | inl content =>
      match fromstring content with
      | inl root => (Some ([], root), passed (lit "X1") (lit "XML") (lit "valid XML") res)
      | inr (ParseError e) =>
          (None, error (lit "X1") (lit "XML") (lit "parse error: " ++ e) res)
      | inr (OtherError e) =>
          (None, error (lit "X1") (lit "XML") (lit "error reading file: " ++ e) res)
      end
  | inr e => (None, error (lit "X1") (lit "XML") (lit "error reading file: " ++ e) res)
  end.

(** S2 and S3 (S1 has no check). *)
Definition validate_safety (twb_path : str) (backup_path original_path : option str)
    (res : ValidationResult) : ValidationResult :=
  let res :=
    match backup_path with
    | Some bp =>
        if nonempty bp then
          if path_exists bp
          then passed (lit "S2") (lit "backup") (lit "exists at " ++ bp) res
          else error (lit "S2") (lit "backup") (lit "not found at " ++ bp) res
        else res
    | None => res
    end in
  if contains (lit "_cleaned") twb_path then
    passed (lit "S3") (lit "output") (lit "is _cleaned copy") res
  else
    match original_path with
    | Some op =>
        if nonempty op && str_eqb twb_path op then
          error (lit "S3") (lit "output")
                (lit "original file was modified instead of _cleaned copy") res
        else res
    | None => res
    end.

(** The index of raw formulas: two scans of the file text, for attributes in
    single and in double quotes. *)
Definition raw_pattern (q : str) : str :=
  lit "<column[^>]*name=" ++ q ++ lit "([^" ++ q ++ lit "]+)" ++ q
  ++ lit "[^>]*>.*?<calculation[^>]*formula=" ++ q ++ lit "([^" ++ q ++ lit "]*)" ++ q.

Definition raw_formulas_of (raw_content : str) : list (str * str) :=
  let record d (m : str * str) := dict_set (fst m) (snd m) d in
  let d := fold_left record (re_finditer (raw_pattern (lit "'")) [DOTALL] raw_content) [] in
  fold_left record (re_finditer (raw_pattern quote) [DOTALL] raw_content) d.

Definition raw_formula_of (raw_formulas : list (str * str)) (name : option str)
    : option str :=
  match name with
  | Some n => dict_get n raw_formulas
  | None => None
  end.

Definition caption_loop (calculations : list node) (res : ValidationResult)
    : ValidationResult :=
  for_each (fun col => validate_caption re_search (get (snd col) "caption")
                                        (get (snd col) "name"))
           calculations res.

Definition comment_of (raw_formulas : list (str * str)) (col : node)
    (res : ValidationResult) : ValidationResult :=
  let calc := find col "calculation" in
  let calc_class := match calc with Some c => get (snd c) "class" | None => None end in
  let formula := match calc with Some c => get (snd c) "formula" | None => None end in
  let caption := get (snd col) "caption" in
  let name := get (snd col) "name" in
  let raw_formula := raw_formula_of raw_formulas name in
  validate_comment re_search re_match formula caption name res raw_formula calc_class.

Definition comment_loop (raw_formulas : list (str * str)) (calculations : list node)
    (res : ValidationResult) : ValidationResult :=
  for_each (comment_of raw_formulas) calculations res.

(** The calculated fields: the columns with a calculation child. *)
Definition calculations_of (root : node) : list node :=
  filter (fun c => match find c "calculation" with Some _ => true | None => false end)
         (iter_tag root "column").

(** The run.  The report printed on standard output is not part of the
    embedding.  The first read of the file is outside any handler: when it
    raises, so does the run. *)
Definition validate_workbook (twb_path : str) (backup_path original_path : option str)
    : outcome ValidationResult :=
  let result := new_result in
  match read_text twb_path with
  | inr e => Raised e
  | inl raw_content =>
      let raw_formulas := raw_formulas_of raw_content in
      match validate_xml twb_path result with
      | (None, result) => Returned result
      | (Some root, result) =>
          let calculations := calculations_of root in
          let result := caption_loop calculations result in
          let result := comment_loop raw_formulas calculations result in
          let result := validate_folders root calculations result in
          let result :=
            if truthy backup_path || truthy original_path
            then validate_safety twb_path backup_path original_path result
            else result in
          Returned result
      end
  end.

(** The loop over the optional arguments. *)
Fixpoint parse_args (args : list str) (backup_path original_path : option str)
    : option str * option str :=
  match args with
  | [] => (backup_path, original_path)
  | a :: rest =>
      match rest with
      | v :: rest' =>
          if str_eqb a (lit "--backup") then parse_args rest' (Some v) original_path
          else if str_eqb a (lit "--original") then parse_args rest' backup_path (Some v)
          else parse_args rest backup_path original_path
      | [] => (backup_path, original_path)
      end
  end.

(** The script run as a program: the exit status.  An exception that is not
    caught ends the process with status 1. *)
Definition main (argv : list str) : N :=
  match argv with
  | _ :: twb_path :: args =>
      let '(backup_path, original_path) := parse_args args None None in
      match validate_workbook twb_path backup_path original_path with
      | Returned result => if has_errors result then 1 else 0
      | Raised _ => 1
      end
  | _ => 1
  end.

End Workbook.

(** * Vocabulary of the statements *)

(** The predicates, the entries and the sample documents that the
    statements below are written with. *)

(** A word of [str.split]: not empty, no whitespace in it. *)
Definition wordy (w : str) : Prop :=
  w <> [] /\ Forall (fun c => isspace c = false) w.

Definition underscore_to_space (c : N) : N := if c =? 95 then 32 else c.

Definition is_ascii (s : str) : Prop := Forall (fun c => c < 128) s.

Definition up (c : N) : N := if is_ascii_lower c then c - 32 else c.
Definition lo (c : N) : N := if is_ascii_upper c then c + 32 else c.

(** The code points of a word of an ASCII caption once underscores are
    gone: ASCII, not an underscore, not whitespace. *)
Definition plain (c : N) : Prop := c < 128 /\ c <> 95 /\ isspace c = false.

(** Every check receives the result object and appends entries to it; what
    it appends does not depend on what is already there. *)
Definition app_res (a b : ValidationResult) : ValidationResult :=
  mkResult (errors a ++ errors b) (passes a ++ passes b).

Definition appends (f : ValidationResult -> ValidationResult) : Prop :=
  forall res, f res = app_res res (f new_result).

(** The entries of a list all carry one rule. *)
Definition only_rule (r : string) (l : list Entry) : Prop :=
  Forall (fun e => rule e = lit r) l.

(** The M4 entry of a field. *)
Definition M4_entry (display_name : str) : Entry :=
  mkEntry (lit "M4") display_name (lit "newline not XML-encoded (use &#13;&#10;)").

(** Stand-ins for the [re] functions at inputs where the script does not
    reach a regular expression. *)
Definition never_search : str -> list re_flag -> str -> option str := fun _ _ _ => None.
Definition never_match : str -> list re_flag -> str -> bool := fun _ _ _ => false.

(** Whether [validate_comment] gets past M1: the class is not a bin class and
    the trimmed formula starts with the comment marker. *)
Definition M1_passes (formula calc_class : option str) : bool :=
  negb (is_bin_class calc_class)
  && match formula with
     | Some f => startswith (lit "//") (strip f)
     | None => false
     end.

(** A check whose entries, failures and passes, all carry one rule. *)
Definition check_of (r : string) (f : ValidationResult -> ValidationResult) : Prop :=
  appends f
  /\ only_rule r (errors (f new_result))
  /\ only_rule r (passes (f new_result)).

(** The folder rules behind the F2 gate, in the order the script runs them,
    and the check of each. *)
Inductive folder_rule := F3 | F4 | F5 | F1 | F6 | F7 | F8 | F9 | F10 | F11.

Definition rule_name (k : folder_rule) : string :=
  match k with
  | F3 => "F3" | F4 => "F4" | F5 => "F5" | F1 => "F1" | F6 => "F6"
  | F7 => "F7" | F8 => "F8" | F9 => "F9" | F10 => "F10" | F11 => "F11"
  end.

Definition evaluation_order : list folder_rule :=
  [F3; F4; F5; F1; F6; F7; F8; F9; F10; F11].

Definition folder_check (root : node) (calculations : list node)
    (folders_common : node) (k : folder_rule)
    : ValidationResult -> ValidationResult :=
  let layout := find_desc root "layout" in
  let all_folders := findall_desc root "folder" in
  let folders_in_common := findall folders_common "folder" in
  match k with
  | F3 => check_F3 root folders_common layout
  | F4 => check_F4 all_folders folders_in_common
  | F5 => check_F5 folders_in_common
  | F1 => check_F1 calculations (fields_in_folders_of folders_in_common)
  | F6 => check_F6 folders_in_common (map (fun c => get (snd c) "name") calculations)
  | F7 => check_F7 layout
  | F8 => check_F8 folders_in_common
  | F9 => check_F9 folders_in_common
  | F10 => check_F10 folders_in_common
  | F11 => check_F11 folders_in_common
  end.

Definition F2_pass : Entry :=
  mkEntry (lit "F2") (lit "XML") (lit "<folders-common> exists").

Definition F2_failure : Entry :=
  mkEntry (lit "F2") (lit "XML") (lit "Missing <folders-common> element").

Definition duplicate_name (n : str) : Entry :=
  mkEntry (lit "F11") n (lit "duplicate folder name").

Definition duplicate_marker (m : str) : Entry :=
  mkEntry (lit "F11") m (lit "duplicate emoji used in multiple folders").

(** ** Sample documents *)

Definition attr (key : string) (value : str) : str * str := (lit key, value).

Definition el (t : string) (attrs : list (str * str)) (cs : list Element) : Element :=
  Elem (lit t) attrs cs.

Definition doc (e : Element) : node := ([], e).

Definition sample_name (i : nat) : str := lit "[Calculation_" ++ str_of_nat i ++ lit "]".

Definition sample_column (i : nat) : Element :=
  el "column"
     [attr "caption" (lit "Measure " ++ str_of_nat i); attr "name" (sample_name i)]
     [el "calculation"
         [attr "class" (lit "tableau");
          attr "formula" (lit "// Share of the yearly target reached by region " ++ str_of_nat i)]
         []].

(** A folder whose name starts with the [i]-th emoji after U+1F4CA and which
    holds the [i]-th calculation. *)
Definition sample_folder (i : nat) : Element :=
  el "folder"
     [attr "name" ([0x1F4CA + N.of_nat i; 32] ++ lit "Group " ++ str_of_nat i)]
     [el "folder-item" [attr "name" (sample_name i); attr "type" (lit "field")] []].

Definition sample_folders_common (n : nat) : Element :=
  el "folders-common" [] (map sample_folder (seq 1 n)).

Definition sample_layout : Element :=
  el "layout" [attr "dim-ordering" (lit "alphabetic"); attr "show-structure" (lit "true")] [].

(** A tidy workbook with [n] calculations in [n] folders. *)
Definition sample_workbook (n : nat) : Element :=
  el "workbook" []
     [el "datasources" []
         [el "datasource" [attr "name" (lit "Sales")]
             (map sample_column (seq 1 n)
              ++ [sample_folders_common n; sample_layout])]].

(** A workbook without the containment element. *)
Definition sample_without_folders : Element :=
  el "workbook" []
     [el "datasources" []
         [el "datasource" [attr "name" (lit "Sales")] [sample_column 1; sample_layout]]].

(** A workbook that breaks every folder rule behind the F2 gate. *)
Definition untidy_folders_common : Element :=
  el "folders-common" []
     ([el "folder" [attr "name" (lit "Metrics & more"); attr "role" (lit "measures")]
          [el "folder-item" [attr "name" (lit "[Gone]")] []];
       el "folder" [attr "name" (lit "Metrics & more")] []]
      ++ map sample_folder (seq 2 5)).

Definition untidy_workbook : Element :=
  el "workbook" []
     [el "datasources" []
         [el "datasource" [attr "name" (lit "Sales")]
             (map sample_column (seq 1 6)
              ++ [el "layout" [attr "show-structure" (lit "false")] [];
                  untidy_folders_common;
                  el "folder" [attr "name" (lit "Stray")] []])]].

(** Two folders named alike, with the same marker, and a third one. *)
Definition metrics_name : str := [0x1F4CA; 32] ++ lit "Metrics".
Definition dates_name : str := [0x1F4C5; 32] ++ lit "Dates".

Definition twin_folders_common : Element :=
  el "folders-common" []
     [el "folder" [attr "name" metrics_name] [el "folder-item" [attr "name" (sample_name 1)] []];
      el "folder" [attr "name" metrics_name] [el "folder-item" [attr "name" (sample_name 2)] []];
      el "folder" [attr "name" dates_name] [el "folder-item" [attr "name" (sample_name 3)] []]].

Definition twin_workbook : Element :=
  el "workbook" []
     [el "datasources" []
         [el "datasource" [attr "name" (lit "Sales")]
             (map sample_column (seq 1 3) ++ [twin_folders_common; sample_layout])]].

Definition F8_failure (folder_name : str) : Entry :=
  mkEntry (lit "F8") folder_name (lit "has unescaped &").

Definition entity_name : str := lit "&#x1F4CA; Metrics".

Definition entity_folders_common : Element :=
  el "folders-common" []
     [el "folder" [attr "name" entity_name]
         [el "folder-item" [attr "name" (sample_name 1)] []]].

Definition entity_workbook : Element :=
  el "workbook" []
     [el "datasources" []
         [el "datasource" [attr "name" (lit "Sales")]
             [sample_column 1; entity_folders_common; sample_layout]]].

Definition S3_pass : Entry :=
  mkEntry (lit "S3") (lit "output") (lit "is _cleaned copy").

Definition S3_failure : Entry :=
  mkEntry (lit "S3") (lit "output")
          (lit "original file was modified instead of _cleaned copy").

(** Stand-ins for the file system and the parser of a run on a tidy file. *)
Definition no_matches : str -> list re_flag -> str -> list (str * str) := fun _ _ _ => [].
Definition any_path_exists : str -> bool := fun _ => true.
Definition reads (content : str) : str -> str + str := fun _ => inl content.
Definition parses_to (root : Element) : str -> Element + parse_failure := fun _ => inl root.
Definition does_not_parse (e : str) : str -> Element + parse_failure :=
  fun _ => inr (ParseError e).

(** Two children of one element, the first before the second. *)
Definition sibling_before (a b : node) : Prop :=
  exists p i j, fst a = p ++ [i] /\ fst b = p ++ [j] /\ (i < j)%nat.

(** A calculation whose name, as it is or in brackets, is among the folder
    items. *)
Definition covered (fields_in_folders : list str) (calc : node) : Prop :=
  match get (snd calc) "name" with
  | Some n => In n fields_in_folders \/ In (bracket n) fields_in_folders
  | None => True
  end.

(** A folder item whose name, as it is or without its brackets, is the name
    of a calculation. *)
Definition resolves (calc_names : list (option str)) (item : node) : Prop :=
  let field_name := get_default (snd item) "name" [] in
  In (Some (strip_chars (lit "[]") field_name)) calc_names
  \/ In (Some field_name) calc_names.

Definition folder_name_of (folder : node) : str := get_default (snd folder) "name" [].

Definition F9_failure (n : nat) : Entry :=
  mkEntry (lit "F9") (lit "XML")
          (lit "Too many folders (" ++ str_of_nat n ++ lit ") - maximum is "
           ++ str_of_nat MAX_FOLDERS).

Definition F9_pass (n : nat) : Entry :=
  mkEntry (lit "F9") (lit "XML")
          (str_of_nat n ++ lit " folders (max " ++ str_of_nat MAX_FOLDERS ++ lit ")").

Definition F3_failure : Entry :=
  mkEntry (lit "F3") (lit "XML") (lit "<folders-common> must appear before <layout>").

Definition F3_pass : Entry :=
  mkEntry (lit "F3") (lit "XML") (lit "<folders-common> is before <layout>").

(** [elem_at e rel]: the element reached from [e] by the child indices
    [rel]. *)
Fixpoint elem_at (e : Element) (rel : path) : option Element :=
  match rel with
  | [] => Some e
  | i :: rel' =>
      match nth_error (children_of e) i with
      | Some c => elem_at c rel'
      | None => None
      end
  end.

(** A workbook with the containment element and no layout element. *)
Definition sample_without_layout : Element :=
  el "workbook" []
     [el "datasources" []
         [el "datasource" [attr "name" (lit "Sales")]
             [sample_column 1; sample_folders_common 1]]].

(** A workbook whose layout element sits under another parent than the
    containment element. *)
Definition sample_layout_elsewhere : Element :=
  el "workbook" []
     [el "datasources" []
         [el "datasource" [attr "name" (lit "Sales")]
             [sample_column 1; sample_folders_common 1]];
      el "windows" [] [sample_layout]].

(** A check whose failures carry rules of [es] and whose passes carry rules
    of [ps]. *)
Definition within (es ps : list string) (f : ValidationResult -> ValidationResult) : Prop :=
  appends f
  /\ Forall (fun e => In (rule e) (map lit es)) (errors (f new_result))
  /\ Forall (fun e => In (rule e) (map lit ps)) (passes (f new_result)).

(** The rules that can fail in a run, and the rules that can pass. *)
Definition failing_rules : list string :=
  ["X1"; "C1"; "C2"; "C3"; "C4"; "C5"; "M1"; "M3"; "M4"; "M5";
   "F1"; "F2"; "F3"; "F4"; "F5"; "F6"; "F7"; "F8"; "F9"; "F10"; "F11";
   "S2"; "S3"]%string.

Definition passing_rules : list string :=
  ["X1"; "M1"; "M2"; "F2"; "F3"; "F4"; "F7"; "F9"; "S2"; "S3"]%string.

(** The number of entries of a rule, failures and passes together. *)
Definition verdicts (k : string) (res : ValidationResult) : nat :=
  (List.length (of_rule k (errors res)) + List.length (of_rule k (passes res)))%nat.

(** The rules of each rule set that can fail, and those that can pass. *)
Definition caption_rules : list string := ["C1"; "C2"; "C3"; "C4"; "C5"]%string.
Definition comment_failing : list string := ["M1"; "M3"; "M4"; "M5"]%string.
Definition comment_passing : list string := ["M1"; "M2"]%string.
Definition folder_failing : list string :=
  ["F1"; "F2"; "F3"; "F4"; "F5"; "F6"; "F7"; "F8"; "F9"; "F10"; "F11"]%string.
Definition folder_passing : list string := ["F2"; "F3"; "F4"; "F7"; "F9"]%string.
Definition safety_rules : list string := ["S2"; "S3"]%string.

(** The run after a successful parse, as one function of the result. *)
Definition checks_after_parse
    (re_search : str -> list re_flag -> str -> option str)
    (re_match : str -> list re_flag -> str -> bool)
    (path_exists : str -> bool)
    (raw_formulas : list (str * str)) (root : node)
    (twb_path : str) (backup_path original_path : option str)
    (res : ValidationResult) : ValidationResult :=
  let calculations := calculations_of root in
  let res := caption_loop re_search calculations res in
  let res := comment_loop re_search re_match raw_formulas calculations res in
  let res := validate_folders root calculations res in
  if truthy backup_path || truthy original_path
  then validate_safety path_exists twb_path backup_path original_path res
  else res.

Definition X1_pass : Entry := mkEntry (lit "X1") (lit "XML") (lit "valid XML").

(** A stand-in for a file that cannot be read. *)
Definition cannot_read (e : str) : str -> str + str := fun _ => inr e.

Definition S2_pass (backup_path : str) : Entry :=
  mkEntry (lit "S2") (lit "backup") (lit "exists at " ++ backup_path).

Definition S2_failure (backup_path : str) : Entry :=
  mkEntry (lit "S2") (lit "backup") (lit "not found at " ++ backup_path).

(** * Properties *)

(** ** Strings *)

Lemma str_eqb_eq (a b : str) : str_eqb a b = true <-> a = b.
Proof.
  revert b; induction a as [|x a IH]; intros [|y b]; simpl; split;
    try discriminate; try reflexivity.
  - rewrite andb_true_iff, N.eqb_eq, IH. intros [-> ->]; reflexivity.
  - intros [= -> ->]. now rewrite N.eqb_refl, (proj2 (IH b) eq_refl).
Qed.

Lemma str_eqb_refl (a : str) : str_eqb a a = true.
Proof. now apply str_eqb_eq. Qed.

Lemma isspace_In (c : N) : isspace c = true <-> In c whitespace.
Proof.
  unfold isspace. rewrite existsb_exists. split.
  - intros (x & Hx & E). apply N.eqb_eq in E. now subst.
  - intros H. exists c. split; [assumption | apply N.eqb_refl].
Qed.

Lemma split_ws_wordy (s : str) : Forall wordy (split_ws s).
Proof.
  induction s as [|c s IH]; simpl; [constructor|].
  destruct (isspace c) eqn:Ec; [assumption|].
  destruct s as [|d s']; [repeat constructor; [discriminate|assumption]|].
  destruct (isspace d) eqn:Ed.
  - constructor; [|assumption]. split; [discriminate|]. now repeat constructor.
  - destruct (split_ws (d :: s')) as [|w ws].
    + repeat constructor; [discriminate|assumption].
    + inversion IH as [|? ? [Hne Hw] Hws]; subst.
      constructor; [|assumption]. split; [discriminate|]. now constructor.
Qed.

Lemma split_ws_chars (s w : str) (c : N) :
  In w (split_ws s) -> In c w -> In c s.
Proof.
  revert w; induction s as [|a s IH]; simpl; intros w Hw Hc; [contradiction|].
  destruct (isspace a) eqn:Ea; [right; eauto|].
  destruct s as [|d s'].
  - destruct Hw as [<-|[]]. destruct Hc as [<-|[]]. now left.
  - destruct (isspace d) eqn:Ed.
    + destruct Hw as [<-|Hw]; [destruct Hc as [<-|[]]; now left|right; eauto].
    + destruct (split_ws (d :: s')) as [|w0 ws].
      * destruct Hw as [<-|[]]. destruct Hc as [<-|[]]. now left.
      * destruct Hw as [<-|Hw].
        -- destruct Hc as [<-|Hc]; [now left|right].
           apply (IH w0); [now left|assumption].
        -- right. apply (IH w); [now right|assumption].
Qed.

Lemma split_ws_word (w : str) : wordy w -> split_ws w = [w].
Proof.
  intros [Hne Hw]. induction w as [|c w IH]; [contradiction|].
  inversion Hw as [|? ? Hc Hw']; subst. simpl. rewrite Hc.
  destruct w as [|d w']; [reflexivity|].
  inversion Hw' as [|? ? Hd _]; subst. rewrite Hd.
  rewrite IH; [reflexivity|discriminate|assumption].
Qed.

Lemma split_ws_word_space (w t : str) :
  wordy w -> split_ws (w ++ 32 :: t) = w :: split_ws t.
Proof.
  intros [Hne Hw]. induction w as [|c w IH]; [contradiction|].
  inversion Hw as [|? ? Hc Hw']; subst.
  change ((c :: w) ++ 32 :: t) with (c :: (w ++ 32 :: t)).
  destruct w as [|d w'].
  - simpl. rewrite Hc. reflexivity.
  - inversion Hw' as [|? ? Hd _]; subst.
    change (split_ws (c :: (d :: w') ++ 32 :: t))
      with (if isspace c then split_ws ((d :: w') ++ 32 :: t)
            else if isspace d then [c] :: split_ws ((d :: w') ++ 32 :: t)
            else match split_ws ((d :: w') ++ 32 :: t) with
                 | w :: ws => (c :: w) :: ws
                 | [] => [[c]]
                 end).
    rewrite Hc, Hd, IH; [reflexivity|discriminate|assumption].
Qed.

Lemma split_ws_join (ws : list str) :
  Forall wordy ws -> split_ws (join (lit " ") ws) = ws.
Proof.
  induction 1 as [|w ws Hw Hws IH]; [reflexivity|].
  destruct ws as [|w2 ws'].
  - simpl. now apply split_ws_word.
  - change (join (lit " ") (w :: w2 :: ws'))
      with (w ++ 32 :: join (lit " ") (w2 :: ws')).
    rewrite split_ws_word_space by assumption. now rewrite IH.
Qed.

Lemma join_chars (ws : list str) (c : N) :
  In c (join (lit " ") ws) -> c = 32 \/ exists w, In w ws /\ In c w.
Proof.
  induction ws as [|w ws IH]; simpl; [contradiction|].
  destruct ws as [|w2 ws'].
  - intros H. right. exists w. split; [now left|assumption].
  - rewrite in_app_iff. intros [H|H].
    + right. exists w. split; [now left|assumption].
    + change (lit " " ++ join (lit " ") (w2 :: ws'))
        with (32 :: join (lit " ") (w2 :: ws')) in H.
      destruct H as [<-|H]; [now left|].
      destruct (IH H) as [->|(w' & Hw' & Hc)]; [now left|].
      right. exists w'. split; [now right|assumption].
Qed.

Lemma replace_underscore (s : str) :
  replace (lit "_") (lit " ") s = map underscore_to_space s.
Proof.
  unfold replace. induction s as [|c s IH]; [reflexivity|].
  change (replace_from (lit "_") (lit " ") 0 (c :: s))
    with (if (95 =? c) && true
          then 32 :: replace_from (lit "_") (lit " ") 0 s
          else c :: replace_from (lit "_") (lit " ") 0 s).
  rewrite IH, andb_true_r, N.eqb_sym. cbn [map]. unfold underscore_to_space at 3.
  now destruct (c =? 95).
Qed.

Lemma replace_underscore_id (s : str) :
  ~ In 95 s -> replace (lit "_") (lit " ") s = s.
Proof.
  intros H. rewrite replace_underscore. rewrite <- (map_id s) at 2.
  apply map_ext_in. intros c Hc. unfold underscore_to_space.
  destruct (N.eqb_spec c 95); [subst; contradiction|reflexivity].
Qed.

(** ** Casing of ASCII text *)

Ltac casing :=
  unfold up, lo, upper_cp, lower_cp, is_ascii_lower, is_ascii_upper in *;
  repeat (match goal with
          | |- context [?a <=? ?b] => destruct (N.leb_spec a b)
          | |- context [?a =? ?b] => destruct (N.eqb_spec a b)
          end; cbn [andb orb negb] in *);
  try reflexivity; try lia.

Lemma upper_cp_ascii (c : N) : c < 128 -> upper_cp c = [up c].
Proof. intros H. casing. Qed.

Lemma lower_cp_lo (c : N) : lower_cp c = [lo c].
Proof. casing. Qed.

Lemma upper_ascii (s : str) : is_ascii s -> upper s = map up s.
Proof.
  induction 1 as [|c s Hc Hs IH]; [reflexivity|].
  unfold upper in *. cbn [flat_map map]. now rewrite IH, upper_cp_ascii.
Qed.

Lemma lower_lo (s : str) : lower s = map lo s.
Proof.
  induction s as [|c s IH]; [reflexivity|].
  unfold lower in *. cbn [flat_map map]. now rewrite IH, lower_cp_lo.
Qed.

Lemma capitalize_ascii (c : N) (r : str) :
  c < 128 -> capitalize (c :: r) = up c :: map lo r.
Proof.
  intros H. unfold capitalize, title_cp. now rewrite upper_cp_ascii, lower_lo.
Qed.

Lemma up_up (c : N) : up (up c) = up c.
Proof. casing. Qed.

Lemma lo_lo (c : N) : lo (lo c) = lo c.
Proof. casing. Qed.

Lemma up_lo (c : N) : up (lo c) = up c.
Proof. casing. Qed.

Lemma not_space (c : N) : ~ In c whitespace -> isspace c = false.
Proof.
  intros H. destruct (isspace c) eqn:E; [|reflexivity].
  now apply isspace_In in E.
Qed.

Lemma letters_not_space (c : N) : 65 <= c <= 122 -> isspace c = false.
Proof.
  intros H. apply not_space. unfold whitespace. cbn [In].
  intros K. repeat (destruct K as [K|K]; [lia|]). assumption.
Qed.

Lemma plain_up (c : N) : plain c -> plain (up c).
Proof.
  intros (H1 & H2 & H3). unfold up, is_ascii_lower.
  destruct (N.leb_spec 97 c); destruct (N.leb_spec c 122); cbn [andb];
    try (repeat split; assumption).
  repeat split; try lia. apply letters_not_space. lia.
Qed.

Lemma plain_lo (c : N) : plain c -> plain (lo c).
Proof.
  intros (H1 & H2 & H3). unfold lo, is_ascii_upper.
  destruct (N.leb_spec 65 c); destruct (N.leb_spec c 90); cbn [andb];
    try (repeat split; assumption).
  repeat split; try lia. apply letters_not_space. lia.
Qed.

Lemma plain_ascii (w : str) : Forall plain w -> is_ascii w.
Proof. apply Forall_impl. now intros c (H & _). Qed.

(** What [title_word] gives on an ASCII word. *)
Lemma title_word_ascii (w : str) :
  is_ascii w ->
  title_word w =
    if mem (map up w) ACRONYMS then map up w
    else match w with [] => [] | c :: r => up c :: map lo r end.
Proof.
  intros H. unfold title_word. rewrite (upper_ascii w H).
  destruct (mem (map up w) ACRONYMS); [reflexivity|].
  destruct w as [|c r]; [reflexivity|].
  inversion H; subst. now apply capitalize_ascii.
Qed.

Lemma title_word_plain (w : str) :
  Forall plain w -> Forall plain (title_word w).
Proof.
  intros H. rewrite title_word_ascii by now apply plain_ascii.
  destruct (mem (map up w) ACRONYMS).
  - apply Forall_map. revert H. apply Forall_impl. exact plain_up.
  - destruct w as [|c r]; [constructor|]. inversion H; subst.
    constructor; [now apply plain_up|].
    apply Forall_map. eapply Forall_impl; [exact plain_lo|assumption].
Qed.

Lemma title_word_nonempty (w : str) :
  is_ascii w -> w <> [] -> title_word w <> [].
Proof.
  intros H Hne. rewrite title_word_ascii by assumption.
  destruct w as [|c r]; [contradiction|].
  destruct (mem _ _); discriminate.
Qed.

Lemma title_word_idempotent (w : str) :
  Forall plain w -> title_word (title_word w) = title_word w.
Proof.
  intros H.
  rewrite (title_word_ascii (title_word w))
    by (apply plain_ascii; now apply title_word_plain).
  rewrite (title_word_ascii w) by now apply plain_ascii.
  destruct (mem (map up w) ACRONYMS) eqn:E.
  - rewrite map_map, (map_ext _ up up_up), E. reflexivity.
  - destruct w as [|c r]; [reflexivity|].
    cbn [map]. rewrite map_map, up_up, (map_ext _ up up_lo).
    change (up c :: map up r) with (map up (c :: r)). rewrite E.
    now rewrite map_map, (map_ext _ lo lo_lo).
Qed.

(** ** The text normalizer *)

Lemma split_words_plain (x : str) :
  is_ascii x ->
  Forall (fun w => wordy w /\ Forall plain w)
         (split_ws (replace (lit "_") (lit " ") x)).
Proof.
  intros Hx. apply Forall_forall. intros w Hw.
  pose proof (split_ws_wordy (replace (lit "_") (lit " ") x)) as HW.
  rewrite Forall_forall in HW. specialize (HW w Hw).
  split; [assumption|]. destruct HW as [_ Hsp].
  rewrite Forall_forall in Hsp. apply Forall_forall. intros c Hc.
  pose proof (split_ws_chars _ _ _ Hw Hc) as Hin.
  rewrite replace_underscore in Hin. apply in_map_iff in Hin.
  destruct Hin as (c0 & <- & Hc0).
  unfold is_ascii in Hx. rewrite Forall_forall in Hx. specialize (Hx c0 Hc0).
  repeat split.
  - unfold underscore_to_space. destruct (c0 =? 95); lia.
  - unfold underscore_to_space. destruct (N.eqb_spec c0 95); lia.
  - now apply Hsp.
Qed.

Lemma title_words_plain (ws : list str) :
  Forall (fun w => wordy w /\ Forall plain w) ws ->
  Forall (fun w => wordy w /\ Forall plain w) (map title_word ws).
Proof.
  intros H. apply Forall_map. revert H. apply Forall_impl.
  intros w [[Hne _] Hp]. pose proof (title_word_plain w Hp) as Hp'.
  repeat split.
  - apply title_word_nonempty; [now apply plain_ascii|assumption].
  - revert Hp'. apply Forall_impl. now intros c (_ & _ & H).
  - assumption.
Qed.

(** C6 (as amended): for every input made of ASCII characters, applying
    [to_title_case] twice gives the same text as applying it once. *)
Theorem to_title_case_idempotent_ascii (x : str) :
  is_ascii x -> to_title_case (to_title_case x) = to_title_case x.
Proof.
  intros Hx. unfold to_title_case.
  pose proof (title_words_plain _ (split_words_plain x Hx)) as HW.
  set (W := map title_word (split_ws (replace (lit "_") (lit " ") x))) in *.
  assert (Hno : ~ In 95 (join (lit " ") W)).
  { intros Hin. apply join_chars in Hin. destruct Hin as [Hin|(w & Hw & Hc)];
      [discriminate|].
    rewrite Forall_forall in HW. destruct (HW w Hw) as [_ Hp].
    rewrite Forall_forall in Hp. destruct (Hp 95 Hc) as (_ & Hneq & _).
    now apply Hneq. }
  rewrite (replace_underscore_id _ Hno), split_ws_join.
  - f_equal. subst W. rewrite map_map. apply map_ext_in. intros w Hw.
    apply title_word_idempotent.
    pose proof (split_words_plain x Hx) as HS. rewrite Forall_forall in HS.
    now destruct (HS w Hw).
  - revert HW. apply Forall_impl. now intros w [H _].
Qed.

Lemma to_title_case_idempotent_ascii_witness :
  is_ascii (lit "total_sales ytd") /\
  to_title_case (to_title_case (lit "total_sales ytd"))
  = to_title_case (lit "total_sales ytd").
Proof.
  assert (H : is_ascii (lit "total_sales ytd"))
    by (repeat constructor).
  split; [exact H | exact (to_title_case_idempotent_ascii _ H)].
Defined.

(** C6 as stated fails outside ASCII: U+0149 becomes the two code points
    U+02BC U+004E, and a second pass lowers the second of them. *)
Lemma to_title_case_not_idempotent :
  to_title_case [0x149] = [0x2BC; 0x4E] /\
  to_title_case (to_title_case [0x149]) = [0x2BC; 0x6E] /\
  to_title_case (to_title_case [0x149]) <> to_title_case [0x149].
Proof. repeat split; vm_compute; congruence. Qed.

(** ** Checks only append to the result *)

Lemma app_res_new_r (a : ValidationResult) : app_res a new_result = a.
Proof. destruct a. unfold app_res. cbn. now rewrite !app_nil_r. Qed.

Lemma app_res_new_l (a : ValidationResult) : app_res new_result a = a.
Proof. now destruct a. Qed.

Lemma app_res_assoc (a b c : ValidationResult) :
  app_res (app_res a b) c = app_res a (app_res b c).
Proof. unfold app_res. cbn. now rewrite !app_assoc. Qed.

Lemma appends_id : appends (fun res => res).
Proof. intros res. now rewrite app_res_new_r. Qed.

Lemma appends_error (r f m : str) : appends (error r f m).
Proof. intros res. unfold error, app_res. cbn. now rewrite app_nil_r. Qed.

Lemma appends_passed (r f m : str) : appends (passed r f m).
Proof. intros res. unfold passed, app_res. cbn. now rewrite app_nil_r. Qed.

Lemma appends_compose (f g : ValidationResult -> ValidationResult) :
  appends f -> appends g -> appends (fun res => g (f res)).
Proof.
  intros Hf Hg res.
  rewrite (Hg (f res)), (Hf res), (Hg (f new_result)).
  apply app_res_assoc.
Qed.

Lemma appends_if (b : bool) (f g : ValidationResult -> ValidationResult) :
  appends f -> appends g -> appends (fun res => if b then f res else g res).
Proof. now destruct b. Qed.

Lemma appends_ext (f g : ValidationResult -> ValidationResult) :
  (forall res, f res = g res) -> appends f -> appends g.
Proof. intros E Hf res. rewrite <- !E. apply Hf. Qed.

Create HintDb appends.
#[local] Hint Resolve appends_id appends_error appends_passed : appends.

Ltac appends_cases :=
  repeat match goal with
         | |- appends (fun res => match ?x with _ => _ end) => destruct x
         | |- appends (fun res => res) => exact appends_id
         | |- appends (fun res => error _ _ _ res) => apply appends_error
         | |- appends (fun res => passed _ _ _ res) => apply appends_passed
         | |- appends (error _ _ _) => apply appends_error
         | |- appends (passed _ _ _) => apply appends_passed
         end.

Lemma of_rule_app (r : string) (l1 l2 : list Entry) :
  of_rule r (l1 ++ l2) = of_rule r l1 ++ of_rule r l2.
Proof. apply filter_app. Qed.

Lemma of_rule_same (r : string) (l : list Entry) :
  only_rule r l -> of_rule r l = l.
Proof.
  induction 1 as [|e l He Hl IH]; [reflexivity|].
  unfold of_rule in *. cbn [filter]. now rewrite He, str_eqb_refl, IH.
Qed.

Lemma of_rule_other (r r' : string) (l : list Entry) :
  only_rule r l -> str_eqb (lit r) (lit r') = false -> of_rule r' l = [].
Proof.
  intros H E. induction H as [|e l He Hl IH]; [reflexivity|].
  unfold of_rule in *. cbn [filter]. now rewrite He, E, IH.
Qed.

Lemma only_rule_app (r : string) (l1 l2 : list Entry) :
  only_rule r l1 -> only_rule r l2 -> only_rule r (l1 ++ l2).
Proof. intros H1 H2. apply Forall_app. now split. Qed.

Lemma only_rule_nil (r : string) : only_rule r [].
Proof. constructor. Qed.

Lemma only_rule_one (r : string) (f m : str) : only_rule r [mkEntry (lit r) f m].
Proof. now repeat constructor. Qed.

#[local] Hint Resolve only_rule_nil only_rule_one only_rule_app : appends.

Section CommentProperties.

Variable re_search : str -> list re_flag -> str -> option str.
Variable re_match : str -> list re_flag -> str -> bool.

Lemma check_M3_lazy_appends (ps : list str) (cl ct d : str) (res : ValidationResult) :
  check_M3_lazy re_match ps cl ct d res
  = (app_res res (fst (check_M3_lazy re_match ps cl ct d new_result)),
     snd (check_M3_lazy re_match ps cl ct d new_result)).
Proof.
  induction ps as [|p ps IH]; cbn [check_M3_lazy].
  - cbn. now rewrite app_res_new_r.
  - destruct (re_match p [IGNORECASE] cl); [|apply IH].
    cbn [fst snd]. now rewrite <- appends_error.
Qed.

Lemma check_M3_lazy_errors (ps : list str) (cl ct d : str) :
  only_rule "M3" (errors (fst (check_M3_lazy re_match ps cl ct d new_result))).
Proof.
  induction ps as [|p ps IH]; cbn [check_M3_lazy]; [constructor|].
  destruct (re_match p [IGNORECASE] cl); [apply only_rule_one|apply IH].
Qed.

Lemma check_M3_appends (fs : str) (caption : option str) (d : str) :
  appends (check_M3 re_match fs caption d).
Proof.
  intros res. unfold check_M3.
  destruct (_ <? _)%nat; [apply appends_error|].
  rewrite check_M3_lazy_appends.
  destruct (check_M3_lazy re_match _ _ _ _ new_result) as [r0 lazy].
  cbn [fst snd].
  destruct caption as [cap|]; [|reflexivity].
  destruct (negb lazy && nonempty cap); [|reflexivity].
  destruct (str_eqb _ _); [|reflexivity].
  unfold error, app_res. cbn. now rewrite !app_assoc.
Qed.

Lemma check_M3_errors (fs : str) (caption : option str) (d : str) :
  only_rule "M3" (errors (check_M3 re_match fs caption d new_result)).
Proof.
  unfold check_M3.
  destruct (_ <? _)%nat; [apply only_rule_one|].
  pose proof (check_M3_lazy_errors LAZY_COMMENT_PATTERNS
    (if contains [10] fs then split_first [10] fs else split_first (lit "&#13;") fs)
    (strip (replace (lit "//") []
       (if contains [10] fs then split_first [10] fs else split_first (lit "&#13;") fs)))
    d) as H.
  destruct (check_M3_lazy re_match _ _ _ _ new_result) as [r0 lazy].
  cbn [fst] in H.
  destruct caption as [cap|]; [|assumption].
  destruct (negb lazy && nonempty cap); [|assumption].
  destruct (str_eqb _ _); [|assumption].
  cbn. apply only_rule_app; [assumption|apply only_rule_one].
Qed.

Lemma check_M4_appends (raw : option str) (d : str) : appends (check_M4 raw d).
Proof. unfold check_M4. appends_cases. Qed.

Lemma check_M5_appends (raw : option str) (d : str) :
  appends (check_M5 re_search raw d).
Proof. unfold check_M5. appends_cases. Qed.

Lemma check_M5_errors (raw : option str) (d : str) :
  only_rule "M5" (errors (check_M5 re_search raw d new_result)).
Proof.
  unfold check_M5. destruct raw as [raw|]; [|constructor].
  destruct (nonempty raw); [|constructor].
  destruct (re_search _ _ _); [apply only_rule_one|constructor].
Qed.

Lemma check_M4_errors (raw : option str) (d : str) :
  errors (check_M4 raw d new_result)
  = match raw with
    | Some r =>
        if contains [10] r && negb (contains (lit "&#13;") r) then [M4_entry d] else []
    | None => []
    end.
Proof.
  unfold check_M4. destruct raw as [r|]; [|reflexivity].
  destruct r as [|c r]; [reflexivity|]. cbn [nonempty].
  now destruct (contains [10] (c :: r) && negb (contains (lit "&#13;") (c :: r))).
Qed.

(** The errors of [validate_comment] once M1 has passed. *)
Lemma validate_comment_reached (formula caption name raw_formula calc_class : option str)
    (f : str) (res : ValidationResult) :
  is_bin_class calc_class = false ->
  formula = Some f ->
  startswith (lit "//") (strip f) = true ->
  errors (validate_comment re_search re_match formula caption name res raw_formula calc_class)
  = errors res
    ++ errors (check_M3 re_match (strip f) caption (fmt (or_else caption name)) new_result)
    ++ errors (check_M4 raw_formula (fmt (or_else caption name)) new_result)
    ++ errors (check_M5 re_search raw_formula (fmt (or_else caption name)) new_result).
Proof.
  intros Hb -> Hs. unfold validate_comment. rewrite Hb.
  destruct f as [|c f]; [discriminate|]. cbn [nonempty].
  destruct (strip (c :: f)) as [|c' f'] eqn:E; [discriminate|].
  cbn [nonempty negb]. rewrite Hs. cbn [negb].
  rewrite check_M5_appends, check_M4_appends, check_M3_appends.
  cbn. now rewrite <- !app_assoc.
Qed.

End CommentProperties.

(** ** Comment rules *)

(** The M4 entries of [validate_comment], as the test of line 186 gives
    them: the parsed formula plays a part only through M1. *)
Lemma validate_comment_M4_errors
    (re_search : str -> list re_flag -> str -> option str)
    (re_match : str -> list re_flag -> str -> bool)
    (formula caption name raw_formula calc_class : option str)
    (res : ValidationResult) :
  of_rule "M4"
    (errors (validate_comment re_search re_match formula caption name res
                              raw_formula calc_class))
  = of_rule "M4" (errors res)
    ++ (if M1_passes formula calc_class then
          match raw_formula with
          | Some raw =>
              if contains [10] raw && negb (contains (lit "&#13;") raw)
              then [M4_entry (fmt (or_else caption name))] else []
          | None => []
          end
        else []).
Proof.
  unfold M1_passes.
  destruct (is_bin_class calc_class) eqn:Hb.
  { unfold validate_comment. rewrite Hb. cbn. now rewrite app_nil_r. }
  destruct formula as [f|].
  2:{ unfold validate_comment. rewrite Hb. cbn. now rewrite app_nil_r. }
  cbn [negb andb].
  destruct (startswith (lit "//") (strip f)) eqn:Hs.
  - rewrite (validate_comment_reached re_search re_match _ caption name
               raw_formula calc_class f res Hb eq_refl Hs).
    rewrite !of_rule_app.
    rewrite (of_rule_other "M3" "M4" _ (check_M3_errors re_match _ _ _) eq_refl).
    rewrite (of_rule_other "M5" "M4" _ (check_M5_errors re_search _ _) eq_refl).
    rewrite check_M4_errors, app_nil_r. cbn [app]. f_equal.
    destruct raw_formula as [raw|]; [|reflexivity].
    destruct (contains [10] raw && negb (contains (lit "&#13;") raw));
      [|reflexivity].
    unfold of_rule, M4_entry. cbn [filter rule]. now rewrite str_eqb_refl.
  - unfold validate_comment. rewrite Hb.
    destruct f as [|c f]; [cbn; now rewrite app_nil_r|]. cbn [nonempty].
    destruct (strip (c :: f)) as [|c' f'] eqn:E; [cbn; now rewrite app_nil_r|].
    cbn [nonempty negb]. rewrite Hs. cbn [negb].
    unfold error. cbn [errors]. rewrite of_rule_app. reflexivity.
Qed.

(** C1 (as amended): for a field that gets past M1 and whose raw formula text
    is in the index, M4 records an error when the raw text contains a line
    break and no [&#13;] at all, and records nothing when the raw text
    contains no line break; for a field that does not get past M1, or whose
    raw text is absent, M4 records nothing, whatever the parsed formula
    contains.  (A raw text with both a line break and [&#13;] is left
    open.) *)
Theorem M4_from_raw_text
    (re_search : str -> list re_flag -> str -> option str)
    (re_match : str -> list re_flag -> str -> bool)
    (formula caption name raw_formula calc_class : option str)
    (res : ValidationResult) :
  let r := validate_comment re_search re_match formula caption name res
                            raw_formula calc_class in
  (forall raw,
     M1_passes formula calc_class = true -> raw_formula = Some raw ->
     contains [10] raw = true -> contains (lit "&#13;") raw = false ->
     of_rule "M4" (errors r)
     = of_rule "M4" (errors res) ++ [M4_entry (fmt (or_else caption name))])
  /\
  (forall raw,
     raw_formula = Some raw -> contains [10] raw = false ->
     of_rule "M4" (errors r) = of_rule "M4" (errors res))
  /\
  (M1_passes formula calc_class = false ->
   of_rule "M4" (errors r) = of_rule "M4" (errors res))
  /\
  (raw_formula = None ->
   of_rule "M4" (errors r) = of_rule "M4" (errors res)).
Proof.
  intros r. subst r.
  rewrite (validate_comment_M4_errors re_search re_match formula caption name
             raw_formula calc_class res).
  repeat split.
  - intros raw -> -> -> ->. reflexivity.
  - intros raw -> ->. destruct (M1_passes formula calc_class); cbn;
      now rewrite app_nil_r.
  - intros ->. now rewrite app_nil_r.
  - intros ->. destruct (M1_passes formula calc_class); now rewrite app_nil_r.
Qed.

Lemma M4_from_raw_text_witness :
  (of_rule "M4"
     (errors (validate_comment never_search never_match
                (Some (lit "// Margin kept after returns and refunds SUM([Sales])"))
                (Some (lit "Net Margin")) (Some (lit "[Calculation_1]")) new_result
                (Some (lit "// Margin kept after returns and refunds" ++ [10]
                       ++ lit "SUM([Sales])"))
                None))
   = [M4_entry (lit "Net Margin")])
  /\
  (of_rule "M4"
     (errors (validate_comment never_search never_match
                (Some (lit "// Margin kept after returns and refunds" ++ [13; 10]
                       ++ lit "SUM([Sales])"))
                (Some (lit "Net Margin")) (Some (lit "[Calculation_1]")) new_result
                (Some (lit "// Margin kept after returns and refunds&#13;&#10;SUM([Sales])"))
                None))
   = []).
Proof.
  split.
  - exact (proj1 (M4_from_raw_text never_search never_match
                    (Some (lit "// Margin kept after returns and refunds SUM([Sales])"))
                    (Some (lit "Net Margin")) (Some (lit "[Calculation_1]"))
                    (Some (lit "// Margin kept after returns and refunds" ++ [10]
                           ++ lit "SUM([Sales])"))
                    None new_result)
                 _ eq_refl eq_refl eq_refl eq_refl).
  - exact (proj1 (proj2 (M4_from_raw_text never_search never_match
                    (Some (lit "// Margin kept after returns and refunds" ++ [13; 10]
                           ++ lit "SUM([Sales])"))
                    (Some (lit "Net Margin")) (Some (lit "[Calculation_1]"))
                    (Some (lit "// Margin kept after returns and refunds&#13;&#10;SUM([Sales])"))
                    None new_result))
                 _ eq_refl eq_refl).
Defined.

(** The test of line 186 looks for [&#13;] anywhere in the raw text: a raw
    text with one encoded line break and one bare line break gets no M4
    entry, although the comment of line 185 asks for every line break to be
    encoded.  The amended C1 says nothing about such a text. *)
Example M4_misses_bare_line_break_beside_reference :
  let raw := lit "// Margin kept after returns and refunds&#13;&#10;SUM([Sales])"
             ++ [10] ++ lit "+ 1" in
  let r := validate_comment never_search never_match
             (Some (lit "// Margin kept after returns and refunds" ++ [13; 10]
                    ++ lit "SUM([Sales]) + 1"))
             (Some (lit "Net Margin")) (Some (lit "[Calculation_1]")) new_result
             (Some raw) None in
  contains [10] raw = true /\ of_rule "M4" (errors r) = [].
Proof. split; reflexivity. Qed.

(** C1 as stated fails for a field without a leading comment: its raw text
    has a line break and no [&#13;], and M4 records nothing (M1 fails and
    ends the checks of the field). *)
Lemma M4_not_checked_without_comment :
  let raw := lit "SUM([Sales])" ++ [10] ++ lit "+ 1" in
  let r := validate_comment never_search never_match
             (Some (lit "SUM([Sales]) + 1")) (Some (lit "Sales Plus One"))
             (Some (lit "[Calculation_1]")) new_result (Some raw) None in
  contains [10] raw = true /\ contains (lit "&#13;") raw = false /\
  of_rule "M4" (errors r) = [] /\
  errors r = [mkEntry (lit "M1") (lit "Sales Plus One") (lit "missing comment")].
Proof. repeat split. Qed.

(** C4 (as amended): for a field whose calculation class is not a bin class
    and whose formula is present, non-blank after trimming and does not start
    with [//], the only entry recorded is one M1 failure; M3, M4 and M5
    record nothing for it, pass or failure. *)
Theorem M1_failure_ends_comment_checks
    (re_search : str -> list re_flag -> str -> option str)
    (re_match : str -> list re_flag -> str -> bool)
    (formula caption name raw_formula calc_class : option str)
    (f : str) (res : ValidationResult) :
  is_bin_class calc_class = false ->
  formula = Some f ->
  strip f <> [] ->
  startswith (lit "//") (strip f) = false ->
  let r := validate_comment re_search re_match formula caption name res
                            raw_formula calc_class in
  errors r = errors res
             ++ [mkEntry (lit "M1") (fmt (or_else caption name)) (lit "missing comment")]
  /\ passes r = passes res
  /\ forall m, In m ["M3"; "M4"; "M5"]%string ->
       of_rule m (errors r) = of_rule m (errors res)
       /\ of_rule m (passes r) = of_rule m (passes res).
Proof.
  intros Hb -> Hne Hs r.
  assert (E : r = error (lit "M1") (fmt (or_else caption name)) (lit "missing comment") res).
  { subst r. unfold validate_comment. rewrite Hb.
    destruct f as [|c f]; [now contradiction Hne|]. cbn [nonempty].
    destruct (strip (c :: f)) as [|c' f'] eqn:E; [now contradiction Hne|].
    cbn [nonempty negb]. now rewrite Hs. }
  rewrite E. cbn [error errors passes]. repeat split.
  rewrite of_rule_app.
  destruct H as [<-|[<-|[<-|[]]]]; cbn; now rewrite app_nil_r.
Qed.

Lemma M1_failure_ends_comment_checks_witness :
  let r := validate_comment never_search never_match
             (Some (lit "  SUM([Sales])")) (Some (lit "Total Sales"))
             (Some (lit "[Calculation_1]")) new_result
             (Some (lit "SUM([Sales]) & x")) None in
  errors r = [mkEntry (lit "M1") (lit "Total Sales") (lit "missing comment")]
  /\ passes r = []
  /\ forall m, In m ["M3"; "M4"; "M5"]%string ->
       of_rule m (errors r) = [] /\ of_rule m (passes r) = [].
Proof.
  refine (M1_failure_ends_comment_checks never_search never_match
            (Some (lit "  SUM([Sales])")) (Some (lit "Total Sales"))
            (Some (lit "[Calculation_1]")) (Some (lit "SUM([Sales]) & x")) None
            (lit "  SUM([Sales])") new_result _ _ _ _).
  - reflexivity.
  - reflexivity.
  - vm_compute. discriminate.
  - reflexivity.
Defined.

(** C4 as stated fails for a bin calculation that carries a formula: the
    formula is present, non-blank and has no comment marker, and M1 passes
    instead of failing. *)
Lemma bin_class_formula_passes_M1 :
  let f := lit "SUM([Sales])" in
  let r := validate_comment never_search never_match
             (Some f) (Some (lit "Sales (bin)")) (Some (lit "[Sales (bin)]"))
             new_result None (Some (lit "categorical-bin")) in
  strip f <> [] /\ startswith (lit "//") (strip f) = false /\
  errors r = [] /\
  passes r = [mkEntry (lit "M1") (lit "Sales (bin)")
                      (lit "bin/group calc - no formula to comment")].
Proof. repeat split. vm_compute. discriminate. Qed.

(** ** Folder rules: every check appends its own entries *)

Lemma for_each_appends {A : Type} (body : A -> ValidationResult -> ValidationResult)
    (l : list A) :
  (forall x, appends (body x)) -> appends (for_each body l).
Proof.
  intros H. induction l as [|x l IH]; [exact appends_id|].
  exact (appends_compose (body x) (for_each body l) (H x) IH).
Qed.

Lemma for_each_cons {A : Type} (body : A -> ValidationResult -> ValidationResult)
    (x : A) (l : list A) (res : ValidationResult) :
  for_each body (x :: l) res = for_each body l (body x res).
Proof. reflexivity. Qed.

Lemma for_each_errors {A : Type} (body : A -> ValidationResult -> ValidationResult)
    (l : list A) :
  (forall x, appends (body x)) ->
  errors (for_each body l new_result)
  = flat_map (fun x => errors (body x new_result)) l.
Proof.
  intros H. induction l as [|x l IH]; [reflexivity|].
  rewrite for_each_cons, (for_each_appends body l H (body x new_result)).
  cbn [app_res errors flat_map]. now rewrite IH.
Qed.

Lemma for_each_passes {A : Type} (body : A -> ValidationResult -> ValidationResult)
    (l : list A) :
  (forall x, appends (body x)) ->
  passes (for_each body l new_result)
  = flat_map (fun x => passes (body x new_result)) l.
Proof.
  intros H. induction l as [|x l IH]; [reflexivity|].
  rewrite for_each_cons, (for_each_appends body l H (body x new_result)).
  cbn [app_res passes flat_map]. now rewrite IH.
Qed.

Lemma only_rule_flat_map {A : Type} (r : string) (f : A -> list Entry) (l : list A) :
  (forall x, only_rule r (f x)) -> only_rule r (flat_map f l).
Proof.
  intros H. induction l as [|x l IH]; [constructor|].
  cbn [flat_map]. now apply only_rule_app.
Qed.

Lemma check_of_id (r : string) : check_of r (fun res => res).
Proof. repeat split; [exact appends_id|constructor|constructor]. Qed.

Lemma check_of_error (r : string) (f m : str) : check_of r (error (lit r) f m).
Proof. repeat split; [apply appends_error|apply only_rule_one|constructor]. Qed.

Lemma check_of_passed (r : string) (f m : str) : check_of r (passed (lit r) f m).
Proof. repeat split; [apply appends_passed|constructor|apply only_rule_one]. Qed.

Lemma check_of_for_each {A : Type} (r : string)
    (body : A -> ValidationResult -> ValidationResult) (l : list A) :
  (forall x, check_of r (body x)) -> check_of r (for_each body l).
Proof.
  intros H.
  assert (Ha : forall x, appends (body x)) by (intros x; apply H).
  repeat split.
  - now apply for_each_appends.
  - rewrite for_each_errors by assumption. apply only_rule_flat_map.
    intros x. apply H.
  - rewrite for_each_passes by assumption. apply only_rule_flat_map.
    intros x. apply H.
Qed.

Lemma check_of_compose (r : string) (f g : ValidationResult -> ValidationResult) :
  check_of r f -> check_of r g -> check_of r (fun res => g (f res)).
Proof.
  intros (Hf & Hfe & Hfp) (Hg & Hge & Hgp). repeat split.
  - now apply appends_compose.
  - rewrite (Hg (f new_result)). cbn [app_res errors]. now apply only_rule_app.
  - rewrite (Hg (f new_result)). cbn [app_res passes]. now apply only_rule_app.
Qed.

Ltac check_cases :=
  repeat match goal with
         | |- check_of _ (fun res => res) => apply check_of_id
         | |- check_of _ (error _ _ _) => apply check_of_error
         | |- check_of _ (passed _ _ _) => apply check_of_passed
         | |- check_of _ (fun res => error _ _ _ res) => apply check_of_error
         | |- check_of _ (fun res => passed _ _ _ res) => apply check_of_passed
         | |- check_of _ (fun res => match ?x with _ => _ end) => destruct x
         | |- check_of _ (fun res => if ?x then _ else _) => destruct x
         end.

Lemma check_F3_of (root fc : node) (layout : option node) :
  check_of "F3" (check_F3 root fc layout).
Proof. unfold check_F3. check_cases. Qed.

Lemma check_F4_of (all_folders folders : list node) :
  check_of "F4" (check_F4 all_folders folders).
Proof. unfold check_F4. check_cases. Qed.

Lemma check_F5_of (folders : list node) : check_of "F5" (check_F5 folders).
Proof.
  apply check_of_for_each. intros x. unfold check_F5_folder. check_cases.
Qed.

Lemma check_F1_of (calcs : list node) (fields : list str) :
  check_of "F1" (check_F1 calcs fields).
Proof.
  apply check_of_for_each. intros x. unfold check_F1_calc. check_cases.
Qed.

Lemma check_F6_of (folders : list node) (calc_names : list (option str)) :
  check_of "F6" (check_F6 folders calc_names).
Proof.
  apply check_of_for_each. intros x. apply check_of_for_each. intros y.
  unfold check_F6_item. check_cases.
Qed.

Lemma check_F7_of (layout : option node) : check_of "F7" (check_F7 layout).
Proof. unfold check_F7. check_cases. Qed.

Lemma check_F8_of (folders : list node) : check_of "F8" (check_F8 folders).
Proof.
  apply check_of_for_each. intros x. unfold check_F8_folder. check_cases.
Qed.

Lemma check_F9_of (folders : list node) : check_of "F9" (check_F9 folders).
Proof. unfold check_F9. check_cases. Qed.

Lemma check_F10_of (folders : list node) : check_of "F10" (check_F10 folders).
Proof.
  apply check_of_for_each. intros x. unfold check_F10_folder. check_cases.
Qed.

Lemma check_duplicates_of (msg : str) (items seen : list str) :
  check_of "F11" (check_duplicates msg items seen).
Proof.
  revert seen. induction items as [|x items IH]; intros seen; cbn [check_duplicates].
  - apply check_of_id.
  - apply (check_of_compose "F11"
             (fun res => if mem x seen then error (lit "F11") x msg res else res)
             (check_duplicates msg items (x :: seen))); [|apply IH].
    check_cases.
Qed.

Lemma check_F11_of (folders : list node) : check_of "F11" (check_F11 folders).
Proof.
  unfold check_F11.
  apply (check_of_compose "F11"
           (check_duplicates (lit "duplicate folder name") (folder_names_of folders) [])
           (check_duplicates (lit "duplicate emoji used in multiple folders")
                             (folder_emojis_of folders) []));
    apply check_duplicates_of.
Qed.

Lemma folder_check_of (root : node) (calcs : list node) (fc : node) (k : folder_rule) :
  check_of (rule_name k) (folder_check root calcs fc k).
Proof.
  destruct k; cbn [folder_check rule_name];
    auto using check_F3_of, check_F4_of, check_F5_of, check_F1_of, check_F6_of,
      check_F7_of, check_F8_of, check_F9_of, check_F10_of, check_F11_of.
Qed.

Lemma validate_folders_found (root : node) (calcs : list node) (fc : node)
    (res : ValidationResult) :
  find_desc root "folders-common" = Some fc ->
  validate_folders root calcs res
  = for_each (folder_check root calcs fc) evaluation_order
             (passed (lit "F2") (lit "XML") (lit "<folders-common> exists") res).
Proof. intros H. unfold validate_folders. rewrite H. reflexivity. Qed.

Lemma validate_folders_errors (root : node) (calcs : list node) (fc : node)
    (res : ValidationResult) :
  find_desc root "folders-common" = Some fc ->
  errors (validate_folders root calcs res)
  = errors res
    ++ flat_map (fun k => errors (folder_check root calcs fc k new_result))
                evaluation_order.
Proof.
  intros H. rewrite (validate_folders_found _ _ _ _ H).
  assert (Ha : forall k, appends (folder_check root calcs fc k))
    by (intros k; apply folder_check_of).
  rewrite (for_each_appends _ evaluation_order Ha).
  cbn [app_res errors passed]. now rewrite for_each_errors.
Qed.

Lemma validate_folders_passes (root : node) (calcs : list node) (fc : node)
    (res : ValidationResult) :
  find_desc root "folders-common" = Some fc ->
  passes (validate_folders root calcs res)
  = passes res ++ [F2_pass]
    ++ flat_map (fun k => passes (folder_check root calcs fc k new_result))
                evaluation_order.
Proof.
  intros H. rewrite (validate_folders_found _ _ _ _ H).
  assert (Ha : forall k, appends (folder_check root calcs fc k))
    by (intros k; apply folder_check_of).
  rewrite (for_each_appends _ evaluation_order Ha).
  cbn [app_res passes passed]. rewrite for_each_passes by assumption.
  now rewrite <- app_assoc.
Qed.

Lemma of_rule_tagged (r r' : string) (l : list Entry) :
  only_rule r l ->
  of_rule r' l = if str_eqb (lit r) (lit r') then l else [].
Proof.
  induction 1 as [|e l He Hl IH].
  - now destruct (str_eqb _ _).
  - unfold of_rule in *. cbn [filter]. rewrite He, IH.
    now destruct (str_eqb (lit r) (lit r')).
Qed.

(** Among the entries of the checks run in order, those of one rule are the
    entries of that rule's check. *)
Lemma of_rule_in_order (E : folder_rule -> list Entry) (k : folder_rule) :
  (forall k', only_rule (rule_name k') (E k')) ->
  of_rule (rule_name k) (flat_map E evaluation_order) = E k.
Proof.
  intros H. unfold evaluation_order. cbn [flat_map].
  rewrite !of_rule_app.
  rewrite (of_rule_tagged _ _ _ (H F3)), (of_rule_tagged _ _ _ (H F4)),
    (of_rule_tagged _ _ _ (H F5)), (of_rule_tagged _ _ _ (H F1)),
    (of_rule_tagged _ _ _ (H F6)), (of_rule_tagged _ _ _ (H F7)),
    (of_rule_tagged _ _ _ (H F8)), (of_rule_tagged _ _ _ (H F9)),
    (of_rule_tagged _ _ _ (H F10)), (of_rule_tagged _ _ _ (H F11)).
  destruct k; cbn; now rewrite ?app_nil_r.
Qed.

Lemma folder_rules_behind_F2 (root : node) (calcs : list node)
    (res : ValidationResult) :
  (find_desc root "folders-common" = None ->
   validate_folders root calcs res = mkResult (errors res ++ [F2_failure]) (passes res))
  /\
  (forall fc, find_desc root "folders-common" = Some fc ->
   forall k,
     of_rule (rule_name k) (errors (validate_folders root calcs res))
     = of_rule (rule_name k) (errors res)
       ++ errors (folder_check root calcs fc k new_result)
     /\
     of_rule (rule_name k) (passes (validate_folders root calcs res))
     = of_rule (rule_name k) (passes res)
       ++ passes (folder_check root calcs fc k new_result)).
Proof.
  split.
  - intros H. unfold validate_folders. rewrite H. reflexivity.
  - intros fc H k. split.
    + rewrite (validate_folders_errors _ _ _ _ H), of_rule_app. f_equal.
      apply (of_rule_in_order
               (fun k => errors (folder_check root calcs fc k new_result))).
      intros k'. apply folder_check_of.
    + rewrite (validate_folders_passes _ _ _ _ H), !of_rule_app. f_equal.
      replace (of_rule (rule_name k) [F2_pass]) with (@nil Entry)
        by now destruct k.
      apply (of_rule_in_order
               (fun k => passes (folder_check root calcs fc k new_result))).
      intros k'. apply folder_check_of.
Qed.

(** C5: without the containment element the folder rule set records one F2
    failure and nothing else; with it, the entries of each of F3-F11 are
    those of that rule's own check, whatever the other rules recorded. *)
Theorem F2_gates_the_folder_rules (root : node) (calcs : list node)
    (res : ValidationResult) :
  (find_desc root "folders-common" = None ->
   validate_folders root calcs res = mkResult (errors res ++ [F2_failure]) (passes res))
  /\
  (forall fc, find_desc root "folders-common" = Some fc ->
   forall k,
     of_rule (rule_name k) (errors (validate_folders root calcs res))
     = of_rule (rule_name k) (errors res)
       ++ errors (folder_check root calcs fc k new_result)
     /\
     of_rule (rule_name k) (passes (validate_folders root calcs res))
     = of_rule (rule_name k) (passes res)
       ++ passes (folder_check root calcs fc k new_result)).
Proof. exact (folder_rules_behind_F2 root calcs res). Qed.

(** ** F11: duplicates *)

Lemma mem_In (x : str) (l : list str) : mem x l = true <-> In x l.
Proof.
  unfold mem. rewrite existsb_exists. split.
  - intros (y & Hy & E). apply str_eqb_eq in E. now subst.
  - intros H. exists x. split; [assumption|apply str_eqb_refl].
Qed.

Lemma mem_not_In (x : str) (l : list str) : ~ In x l -> mem x l = false.
Proof.
  intros H. destruct (mem x l) eqn:E; [|reflexivity].
  now apply mem_In in E.
Qed.

Lemma NoDup_app_parts {A : Type} (l1 l2 : list A) :
  NoDup (l1 ++ l2) ->
  NoDup l1 /\ NoDup l2 /\ forall x, In x l1 -> ~ In x l2.
Proof.
  induction l1 as [|a l1 IH]; cbn [app]; intros H.
  - repeat split; [constructor|assumption|intros x []].
  - inversion H as [|? ? Ha Hl]; subst. destruct (IH Hl) as (H1 & H2 & H3).
    repeat split; try assumption.
    + constructor; [|assumption]. intros K. apply Ha, in_or_app. now left.
    + intros x [<-|Hx] K; [apply Ha, in_or_app; now right|now apply (H3 x)].
Qed.

Lemma check_duplicates_fresh (msg : str) (items seen : list str)
    (res : ValidationResult) :
  NoDup items -> (forall x, In x items -> ~ In x seen) ->
  check_duplicates msg items seen res = res.
Proof.
  intros Hn. revert seen res.
  induction Hn as [|x items Hx Hn IH]; intros seen res Hs; [reflexivity|].
  cbn [check_duplicates]. rewrite (mem_not_In x seen) by (apply Hs; now left).
  apply IH. intros y Hy [<-|K]; [contradiction|].
  apply (Hs y); [now right|assumption].
Qed.

Lemma check_duplicates_app (msg : str) (l1 l2 seen : list str)
    (res : ValidationResult) :
  NoDup l1 -> (forall x, In x l1 -> ~ In x seen) ->
  check_duplicates msg (l1 ++ l2) seen res
  = check_duplicates msg l2 (rev l1 ++ seen) res.
Proof.
  intros Hn. revert seen res.
  induction Hn as [|x l1 Hx Hn IH]; intros seen res Hs; [reflexivity|].
  cbn [check_duplicates app rev]. rewrite (mem_not_In x seen) by (apply Hs; now left).
  rewrite IH, <- app_assoc; [reflexivity|].
  intros y Hy [<-|K]; [contradiction|]. apply (Hs y); [now right|assumption].
Qed.

(** One item twice, the others once: the loop records one entry, at the
    second occurrence. *)
Lemma check_duplicates_pair (msg : str) (l1 l2 l3 : list str) (n : str)
    (res : ValidationResult) :
  NoDup (l1 ++ n :: l2 ++ l3) ->
  check_duplicates msg (l1 ++ n :: l2 ++ n :: l3) [] res
  = error (lit "F11") n msg res.
Proof.
  intros H.
  destruct (NoDup_app_parts _ _ H) as (H1 & Hr & H1r).
  inversion Hr as [|? ? Hn Hr']; subst.
  destruct (NoDup_app_parts _ _ Hr') as (H2 & H3 & H23).
  rewrite check_duplicates_app by (try assumption; intros x _ []).
  rewrite app_nil_r. cbn [check_duplicates].
  rewrite mem_not_In.
  2:{ rewrite <- in_rev. intros K. apply (H1r n K). now left. }
  rewrite check_duplicates_app; try assumption.
  2:{ intros x Hx [<-|K].
      - apply Hn, in_or_app. now left.
      - apply in_rev in K. apply (H1r x K). right. apply in_or_app. now left. }
  cbn [check_duplicates]. rewrite (proj2 (mem_In n _)).
  2:{ apply in_or_app. right. now left. }
  apply check_duplicates_fresh; [assumption|].
  intros x Hx [<-|K].
  - apply Hn, in_or_app. now right.
  - apply in_app_or in K. destruct K as [K|[<-|K]].
    + apply in_rev in K. now apply (H23 x K).
    + apply Hn, in_or_app. now right.
    + apply in_rev in K. apply (H1r x K). right. apply in_or_app. now right.
Qed.

Lemma check_F11_errors (folders : list node) :
  errors (check_F11 folders new_result)
  = errors (check_duplicates (lit "duplicate folder name")
                             (folder_names_of folders) [] new_result)
    ++ errors (check_duplicates (lit "duplicate emoji used in multiple folders")
                                (folder_emojis_of folders) [] new_result).
Proof.
  unfold check_F11.
  now rewrite (proj1 (check_duplicates_of _ (folder_emojis_of folders) [])).
Qed.

(** C7: when one folder name is carried by exactly two folders (the others
    are distinct), F11 records exactly one duplicate-name failure; when in
    addition one marker is carried by exactly two folders, F11 records one
    duplicate-marker failure as well, after the duplicate-name failure. *)
Theorem F11_one_failure_per_duplicate (root : node) (calcs : list node)
    (res : ValidationResult) (fc : node) (l1 l2 l3 : list str) (n : str) :
  find_desc root "folders-common" = Some fc ->
  folder_names_of (findall fc "folder") = l1 ++ n :: l2 ++ n :: l3 ->
  NoDup (l1 ++ n :: l2 ++ l3) ->
  let r := validate_folders root calcs res in
  let markers := folder_emojis_of (findall fc "folder") in
  (NoDup markers ->
   of_rule "F11" (errors r) = of_rule "F11" (errors res) ++ [duplicate_name n])
  /\
  (forall e1 e2 e3 m,
     markers = e1 ++ m :: e2 ++ m :: e3 -> NoDup (e1 ++ m :: e2 ++ e3) ->
     of_rule "F11" (errors r)
     = of_rule "F11" (errors res) ++ [duplicate_name n; duplicate_marker m]).
Proof.
  intros Hfc Hnames Hnodup r markers.
  assert (E : of_rule "F11" (errors r)
              = of_rule "F11" (errors res)
                ++ duplicate_name n
                   :: errors (check_duplicates
                                (lit "duplicate emoji used in multiple folders")
                                markers [] new_result)).
  { subst r.
    pose proof (proj1 (proj2 (folder_rules_behind_F2 root calcs res) fc Hfc F11))
      as K.
    cbn [rule_name] in K. rewrite K. f_equal. cbn [folder_check]. rewrite check_F11_errors, Hnames.
    now rewrite check_duplicates_pair. }
  split.
  - intros Hm. rewrite E, check_duplicates_fresh; [reflexivity|assumption|].
    intros x _ [].
  - intros e1 e2 e3 m Hm Hmn. rewrite E, Hm, check_duplicates_pair by assumption.
    reflexivity.
Qed.

(** ** The folder rules on the sample documents *)

Lemma F2_gates_the_folder_rules_witness :
  validate_folders (doc sample_without_folders)
                   (calculations_of (doc sample_without_folders)) new_result
  = mkResult [F2_failure] []
  /\
  forall k,
    let calcs := calculations_of (doc untidy_workbook) in
    let fc := ([0; 0; 7]%nat, untidy_folders_common) in
    of_rule (rule_name k) (errors (validate_folders (doc untidy_workbook) calcs new_result))
    = errors (folder_check (doc untidy_workbook) calcs fc k new_result)
    /\
    of_rule (rule_name k) (passes (validate_folders (doc untidy_workbook) calcs new_result))
    = passes (folder_check (doc untidy_workbook) calcs fc k new_result).
Proof.
  split.
  - exact (proj1 (F2_gates_the_folder_rules (doc sample_without_folders)
                    (calculations_of (doc sample_without_folders)) new_result)
                 eq_refl).
  - exact (proj2 (F2_gates_the_folder_rules (doc untidy_workbook)
                    (calculations_of (doc untidy_workbook)) new_result)
                 ([0; 0; 7]%nat, untidy_folders_common) eq_refl).
Defined.

(** In the untidy workbook every rule from F3 to F11 records a failure in
    the same run. *)
Example untidy_workbook_fails_every_rule :
  map rule (errors (validate_folders (doc untidy_workbook)
                                     (calculations_of (doc untidy_workbook)) new_result))
  = map lit ["F3"; "F4"; "F5"; "F1"; "F6"; "F7"; "F8"; "F8"; "F9";
             "F10"; "F10"; "F11"]%string.
Proof. vm_compute. reflexivity. Qed.

Lemma F11_one_failure_per_duplicate_witness :
  let r := validate_folders (doc twin_workbook) (calculations_of (doc twin_workbook))
                            new_result in
  of_rule "F11" (errors r) = [duplicate_name metrics_name; duplicate_marker [0x1F4CA]].
Proof.
  refine (proj2 (F11_one_failure_per_duplicate (doc twin_workbook)
                   (calculations_of (doc twin_workbook)) new_result
                   ([0; 0; 3]%nat, twin_folders_common)
                   [] [] [dates_name] metrics_name _ _ _)
                [] [] [[0x1F4C5]] [0x1F4CA] _ _).
  - reflexivity.
  - reflexivity.
  - repeat constructor; cbn; intuition discriminate.
  - reflexivity.
  - repeat constructor; cbn; intuition discriminate.
Defined.

(** ** F8 against the entity form of the marker *)

Lemma hex_run (digits rest : str) (c : N) :
  Forall (fun d => is_hex d = true) digits -> is_hex c = false ->
  takewhile is_hex (digits ++ c :: rest) = digits
  /\ dropwhile is_hex (digits ++ c :: rest) = c :: rest.
Proof.
  intros H Hc. induction H as [|d digits Hd H IH]; cbn [app takewhile dropwhile].
  - now rewrite Hc.
  - rewrite Hd. destruct IH as [-> ->]. now split.
Qed.

Lemma emoji_pattern_match_entity (digits rest : str) :
  digits <> [] -> Forall (fun d => is_hex d = true) digits ->
  emoji_pattern_match (lit "&#x" ++ digits ++ lit ";" ++ rest)
  = Some (lit "&#x" ++ digits ++ lit ";").
Proof.
  intros Hne Hd.
  change (lit "&#x" ++ digits ++ lit ";" ++ rest)
    with (38 :: 35 :: 120 :: (digits ++ 59 :: rest)).
  unfold emoji_pattern_match.
  change ((126720 <=? 38) && (38 <=? 129535)) with false. cbv iota.
  change (startswith (lit "&#x") (38 :: 35 :: 120 :: (digits ++ 59 :: rest))) with true.
  cbv iota. cbn [skipn].
  destruct (hex_run digits rest 59 Hd eq_refl) as [-> ->].
  destruct digits as [|d digits]; [contradiction|reflexivity].
Qed.

(** C10: a folder of the containment element whose name begins with a
    hexadecimal character reference [&#x...;] and does not contain [&amp;]
    is accepted by F10 and gets an F8 failure. *)
Theorem entity_marker_fails_F8 (root : node) (calcs : list node)
    (res : ValidationResult) (fc folder : node) (digits rest : str) :
  find_desc root "folders-common" = Some fc ->
  In folder (findall fc "folder") ->
  get_default (snd folder) "name" [] = lit "&#x" ++ digits ++ lit ";" ++ rest ->
  digits <> [] ->
  Forall (fun d => is_hex d = true) digits ->
  contains (lit "&amp;") (get_default (snd folder) "name" []) = false ->
  emoji_pattern_match (get_default (snd folder) "name" [])
  = Some (lit "&#x" ++ digits ++ lit ";")
  /\ errors (check_F10_folder folder new_result) = []
  /\ In (F8_failure (get_default (snd folder) "name" []))
        (errors (validate_folders root calcs res)).
Proof.
  intros Hfc Hin Hname Hne Hd Hamp.
  assert (Hm : emoji_pattern_match (get_default (snd folder) "name" [])
               = Some (lit "&#x" ++ digits ++ lit ";"))
    by (rewrite Hname; now apply emoji_pattern_match_entity).
  split; [assumption|]. split.
  - unfold check_F10_folder. now rewrite Hm.
  - rewrite (validate_folders_errors _ _ _ _ Hfc). apply in_or_app. right.
    apply in_flat_map. exists F8. split; [unfold evaluation_order; cbn; tauto|].
    cbn [folder_check]. unfold check_F8.
    rewrite for_each_errors by (intros x; apply (check_F8_of [x])).
    apply in_flat_map. exists folder. split; [assumption|].
    unfold check_F8_folder. rewrite Hamp.
    replace (contains (lit "&") (get_default (snd folder) "name" [])) with true
      by (rewrite Hname; reflexivity).
    now left.
Qed.

Lemma entity_marker_fails_F8_witness :
  emoji_pattern_match entity_name = Some (lit "&#x1F4CA;")
  /\ errors (check_F10_folder
               ([0; 0; 1; 0]%nat,
                el "folder" [attr "name" entity_name]
                   [el "folder-item" [attr "name" (sample_name 1)] []])
               new_result) = []
  /\ In (F8_failure entity_name)
        (errors (validate_folders (doc entity_workbook)
                                  (calculations_of (doc entity_workbook)) new_result)).
Proof.
  refine (entity_marker_fails_F8 (doc entity_workbook)
            (calculations_of (doc entity_workbook)) new_result
            ([0; 0; 1]%nat, entity_folders_common)
            ([0; 0; 1; 0]%nat,
             el "folder" [attr "name" entity_name]
                [el "folder-item" [attr "name" (sample_name 1)] []])
            (lit "1F4CA") (lit " Metrics") _ _ _ _ _ _).
  - reflexivity.
  - simpl. left. reflexivity.
  - reflexivity.
  - discriminate.
  - repeat constructor.
  - reflexivity.
Defined.

(** ** Caption rules *)

Section CaptionProperties.

Variable re_search : str -> list re_flag -> str -> option str.

Lemma check_C1_of (caption : option str) (d : str) : check_of "C1" (check_C1 caption d).
Proof. unfold check_C1. check_cases. Qed.

Lemma check_C2_of (caption : option str) (d : str) : check_of "C2" (check_C2 caption d).
Proof. unfold check_C2. check_cases. Qed.

Lemma check_C3_of (caption : option str) (d : str) : check_of "C3" (check_C3 caption d).
Proof. unfold check_C3. check_cases. Qed.

Lemma check_C4_of (caption : option str) (d : str) :
  check_of "C4" (check_C4 re_search caption d).
Proof.
  unfold check_C4. destruct caption as [cap|]; [|apply check_of_id].
  destruct (nonempty cap); [|apply check_of_id].
  apply check_of_for_each. intros a. unfold check_C4_acronym. check_cases.
Qed.

Lemma check_C5_of (caption : option str) (d : str) :
  check_of "C5" (check_C5 re_search caption d).
Proof. unfold check_C5. check_cases. Qed.

(** The C1 entries of [validate_caption] are those of the C1 block. *)
Lemma validate_caption_C1 (caption name : option str) (res : ValidationResult) :
  of_rule "C1" (errors (validate_caption re_search caption name res))
  = of_rule "C1" (errors res)
    ++ errors (check_C1 caption (fmt (or_else caption name)) new_result).
Proof.
  unfold validate_caption. set (d := fmt (or_else caption name)).
  destruct (check_C1_of caption d) as (A1 & E1 & _).
  destruct (check_C2_of caption d) as (A2 & E2 & _).
  destruct (check_C3_of caption d) as (A3 & E3 & _).
  destruct (check_C4_of caption d) as (A4 & E4 & _).
  destruct (check_C5_of caption d) as (A5 & E5 & _).
  rewrite A5, A4, A3, A2, A1. cbn [app_res errors]. rewrite !of_rule_app.
  rewrite (of_rule_tagged _ "C1" _ E1), (of_rule_tagged _ "C1" _ E2),
    (of_rule_tagged _ "C1" _ E3), (of_rule_tagged _ "C1" _ E4),
    (of_rule_tagged _ "C1" _ E5).
  cbn. now rewrite !app_nil_r.
Qed.

(** A caption that differs from its title-cased form in letter case only is
    never reported by the C1 block. *)
Lemma check_C1_skips_case_differences (cap d : str) :
  lower cap = lower (to_title_case cap) ->
  errors (check_C1 (Some cap) d new_result) = [].
Proof.
  intros H. unfold check_C1. destruct (nonempty cap); [|reflexivity].
  rewrite <- H, str_eqb_refl. cbn [negb]. now rewrite andb_false_r.
Qed.

End CaptionProperties.

(** C2, the script at a caption that is not in title case: the title-cased
    form of [total sales] is [Total Sales], no acronym is involved, and the
    script records no C1 entry for it. *)
Theorem C1_misses_lowercase_caption
    (re_search : str -> list re_flag -> str -> option str) :
  let caption := lit "total sales" in
  to_title_case caption = lit "Total Sales"
  /\ caption <> to_title_case caption
  /\ of_rule "C1"
       (errors (validate_caption re_search (Some caption)
                                 (Some (lit "[Calculation_1]")) new_result)) = [].
Proof.
  intros caption. split; [reflexivity|]. split; [vm_compute; discriminate|].
  rewrite validate_caption_C1. cbn [errors new_result of_rule filter app].
  apply check_C1_skips_case_differences. reflexivity.
Qed.

(** ** Safety rules *)

(** C8 (as amended): S3 passes when the tested path contains the marker
    [_cleaned]; when it does not and a non-empty original path equal to the
    tested path is supplied, S3 records a failure. *)
Theorem S3_cleaned_marker (path_exists : str -> bool) (twb_path : str)
    (backup_path original_path : option str) (res : ValidationResult) :
  let r := validate_safety path_exists twb_path backup_path original_path res in
  (contains (lit "_cleaned") twb_path = true ->
   of_rule "S3" (passes r) = of_rule "S3" (passes res) ++ [S3_pass]
   /\ of_rule "S3" (errors r) = of_rule "S3" (errors res))
  /\
  (contains (lit "_cleaned") twb_path = false ->
   original_path = Some twb_path -> twb_path <> [] ->
   of_rule "S3" (errors r) = of_rule "S3" (errors res) ++ [S3_failure]
   /\ of_rule "S3" (passes r) = of_rule "S3" (passes res)).
Proof.
  intros r. subst r. unfold validate_safety.
  set (r2 := match backup_path with
             | Some bp => _
             | None => res
             end).
  assert (H2 : of_rule "S3" (errors r2) = of_rule "S3" (errors res)
               /\ of_rule "S3" (passes r2) = of_rule "S3" (passes res)).
  { subst r2. destruct backup_path as [bp|]; [|now split].
    destruct (nonempty bp); [|now split].
    destruct (path_exists bp); cbn [error passed errors passes];
      rewrite of_rule_app; cbn; rewrite app_nil_r; now split. }
  destruct H2 as [He Hp]. split.
  - intros ->. cbn [passed errors passes]. rewrite of_rule_app, Hp. now split.
  - intros -> -> Hne. destruct twb_path as [|c t]; [contradiction|].
    cbn [nonempty andb]. rewrite str_eqb_refl.
    cbn [error errors passes]. rewrite of_rule_app, He. now split.
Qed.

Lemma S3_cleaned_marker_witness :
  (of_rule "S3" (passes (validate_safety (fun _ => true) (lit "Sales_cleaned.twb")
                           (Some (lit "Sales.twb.bak")) (Some (lit "Sales.twb"))
                           new_result)) = [S3_pass])
  /\
  (of_rule "S3" (errors (validate_safety (fun _ => true) (lit "Sales.twb")
                           (Some (lit "Sales.twb.bak")) (Some (lit "Sales.twb"))
                           new_result)) = [S3_failure]).
Proof.
  split.
  - exact (proj1 (proj1 (S3_cleaned_marker (fun _ => true) (lit "Sales_cleaned.twb")
                           (Some (lit "Sales.twb.bak")) (Some (lit "Sales.twb"))
                           new_result) eq_refl)).
  - refine (proj1 (proj2 (S3_cleaned_marker (fun _ => true) (lit "Sales.twb")
                            (Some (lit "Sales.twb.bak")) (Some (lit "Sales.twb"))
                            new_result) eq_refl eq_refl _)).
    discriminate.
Defined.

(** C8 as stated fails for the marker [-cleaned]: a path that contains it
    gets no S3 pass, and an S3 failure when it is also the original path. *)
Lemma S3_ignores_hyphen_marker :
  let twb_path := lit "Sales-cleaned.twb" in
  let r := validate_safety (fun _ => true) twb_path None (Some twb_path) new_result in
  contains (lit "-cleaned") twb_path = true
  /\ of_rule "S3" (passes r) = []
  /\ of_rule "S3" (errors r) = [S3_failure].
Proof. repeat split. Qed.

(** ** The exit status *)

Lemma has_errors_false (res : ValidationResult) :
  has_errors res = false <-> errors res = [].
Proof.
  unfold has_errors. destruct (errors res); cbn; split; congruence.
Qed.

Section ExitStatus.

Variable re_search : str -> list re_flag -> str -> option str.
Variable re_match : str -> list re_flag -> str -> bool.
Variable re_finditer : str -> list re_flag -> str -> list (str * str).
Variable path_exists : str -> bool.
Variable read_text : str -> str + str.
Variable fromstring : str -> Element + parse_failure.

Let run_workbook := validate_workbook re_search re_match re_finditer path_exists
                                      read_text fromstring.
Let run_main := main re_search re_match re_finditer path_exists read_text fromstring.

Lemma main_with_path (prog twb_path : str) (args : list str) :
  run_main (prog :: twb_path :: args)
  = match run_workbook twb_path (fst (parse_args args None None))
                       (snd (parse_args args None None)) with
    | Returned result => if has_errors result then 1 else 0
    | Raised _ => 1
    end.
Proof.
  unfold run_main, main. now destruct (parse_args args None None).
Qed.

(** A file that does not parse: one X1 failure and nothing else. *)
Lemma validate_workbook_parse_error (twb_path content e : str)
    (backup_path original_path : option str) :
  read_text twb_path = inl content ->
  fromstring content = inr (ParseError e) ->
  run_workbook twb_path backup_path original_path
  = Returned (mkResult [mkEntry (lit "X1") (lit "XML") (lit "parse error: " ++ e)] []).
Proof.
  intros Hr Hp. unfold run_workbook, validate_workbook, validate_xml.
  now rewrite Hr, Hp.
Qed.

(** The exit status of the script: it is 0 or 1; it is 0 exactly when the
    run returned a result without failure entries; it is 1 without the path
    argument; and a file that does not parse gives a result with a single X1
    failure and no other entry, and exit status 1. *)
Lemma exit_status_reports_failures (argv : list str) :
  (run_main argv = 0 \/ run_main argv = 1)
  /\
  (run_main argv = 0 <->
   exists prog twb_path args result,
     argv = prog :: twb_path :: args
     /\ run_workbook twb_path (fst (parse_args args None None))
                     (snd (parse_args args None None)) = Returned result
     /\ errors result = [])
  /\
  ((List.length argv < 2)%nat -> run_main argv = 1)
  /\
  (forall prog twb_path args content e,
     argv = prog :: twb_path :: args ->
     read_text twb_path = inl content ->
     fromstring content = inr (ParseError e) ->
     run_workbook twb_path (fst (parse_args args None None))
                  (snd (parse_args args None None))
     = Returned (mkResult [mkEntry (lit "X1") (lit "XML") (lit "parse error: " ++ e)] [])
     /\ run_main argv = 1).
Proof.
  destruct argv as [|prog [|twb_path args]].
  1,2: (split; [now right|]; split;
        [split; [discriminate|intros (? & ? & ? & ? & [=] & _)]|];
        split; [reflexivity|intros ? ? ? ? ? [=]]).
  rewrite main_with_path.
  destruct (run_workbook twb_path _ _) as [result|exn] eqn:E.
  - destruct (has_errors result) eqn:Herr.
    + split; [now right|]. split.
      * split; [discriminate|]. intros (? & ? & ? & r & [= <- <- <-] & Hrun & Hnil).
        rewrite E in Hrun. injection Hrun as <-.
        apply has_errors_false in Hnil. congruence.
      * split; [cbn; lia|]. intros ? ? ? content e [= <- <- <-] Hr Hp.
        split; [now apply (validate_workbook_parse_error _ content)|reflexivity].
    + split; [now left|]. split.
      * split; [|reflexivity]. intros _. exists prog, twb_path, args, result.
        repeat split; [assumption|now apply has_errors_false].
      * split; [cbn; lia|]. intros ? ? ? content e [= <- <- <-] Hr Hp.
        rewrite (validate_workbook_parse_error _ _ _ _ _ Hr Hp) in E.
        injection E as <-. cbn in Herr. discriminate.
  - split; [now right|]. split.
    + split; [discriminate|]. intros (? & ? & ? & r & [= <- <- <-] & Hrun & _).
      rewrite E in Hrun. discriminate.
    + split; [cbn; lia|]. intros ? ? ? content e [= <- <- <-] Hr Hp.
      rewrite (validate_workbook_parse_error _ _ _ _ _ Hr Hp) in E. discriminate.
Qed.

End ExitStatus.

Lemma exit_status_reports_failures_witness :
  main never_search never_match no_matches any_path_exists
       (reads (lit "<workbook/>")) (parses_to (sample_workbook 6))
       [lit "validate_cleanup.py"; lit "Sales_cleaned.twb"] = 0
  /\
  main never_search never_match no_matches any_path_exists
       (reads (lit "<workbook/>")) (parses_to (sample_workbook 6))
       [lit "validate_cleanup.py"] = 1
  /\
  main never_search never_match no_matches any_path_exists
       (reads (lit "<workbook>")) (does_not_parse (lit "no element found: line 1, column 10"))
       [lit "validate_cleanup.py"; lit "Sales_cleaned.twb"] = 1.
Proof.
  split; [|split].
  - apply (proj2 (proj1 (proj2 (exit_status_reports_failures
                    never_search never_match no_matches any_path_exists
                    (reads (lit "<workbook/>")) (parses_to (sample_workbook 6))
                    [lit "validate_cleanup.py"; lit "Sales_cleaned.twb"])))).
    eexists _, _, _, _. split; [reflexivity|]. split; vm_compute; reflexivity.
  - apply (proj1 (proj2 (proj2 (exit_status_reports_failures
                    never_search never_match no_matches any_path_exists
                    (reads (lit "<workbook/>")) (parses_to (sample_workbook 6))
                    [lit "validate_cleanup.py"])))).
    cbn. lia.
  - refine (proj2 (proj2 (proj2 (proj2 (exit_status_reports_failures
                    never_search never_match no_matches any_path_exists
                    (reads (lit "<workbook>"))
                    (does_not_parse (lit "no element found: line 1, column 10"))
                    [lit "validate_cleanup.py"; lit "Sales_cleaned.twb"])))
                  _ _ _ (lit "<workbook>") _ eq_refl eq_refl eq_refl)).
Defined.

(** ** A tidy folder structure *)

Lemma same_node_eq (a b : node) : same_node a b = true <-> fst a = fst b.
Proof.
  unfold same_node, path_eqb.
  destruct (list_eq_dec Nat.eq_dec (fst a) (fst b)); split; congruence.
Qed.

Lemma node_in_number_from (x : node) (q : path) (k : nat) (cs : list Element) :
  node_in x (number_from q k cs) = true ->
  exists i, fst x = q ++ [i] /\ (k <= i < k + List.length cs)%nat.
Proof.
  revert k. induction cs as [|c cs IH]; intros k; cbn; [discriminate|].
  rewrite orb_true_iff. intros [H|H].
  - apply same_node_eq in H. exists k. split; [assumption|lia].
  - destruct (IH (S k) H) as (i & Hi & Hb). exists i. split; [assumption|lia].
Qed.

Lemma node_index_number_from (x : node) (q : path) (k i : nat) (cs : list Element) :
  fst x = q ++ [i] -> (k <= i < k + List.length cs)%nat ->
  node_index x (number_from q k cs) = (i - k)%nat.
Proof.
  intros Hx. revert k. induction cs as [|c cs IH]; intros k Hb; cbn in *; [lia|].
  destruct (same_node x (q ++ [k], c)) eqn:E.
  - apply same_node_eq in E. cbn in E. rewrite Hx in E.
    apply app_inj_tail in E. destruct E as [_ ->]. lia.
  - assert (i <> k).
    { intros ->. rewrite (proj2 (same_node_eq x (q ++ [k], c))) in E;
        [discriminate|assumption]. }
    rewrite IH by lia. lia.
Qed.

Lemma check_F3_in_order (root fc lay : node) :
  sibling_before fc lay ->
  errors (check_F3 root fc (Some lay) new_result) = [].
Proof.
  intros (p & i & j & Hi & Hj & Hlt). unfold check_F3.
  destruct (List.find _ (iter root)) as [parent|] eqn:E; [|reflexivity].
  apply find_some in E. destruct E as [_ E]. apply andb_true_iff in E.
  destruct E as [E1 E2]. rewrite E1, E2.
  unfold kids in *.
  destruct (node_in_number_from _ _ _ _ E1) as (i' & Hi' & Bi).
  destruct (node_in_number_from _ _ _ _ E2) as (j' & Hj' & Bj).
  rewrite (node_index_number_from _ _ _ _ _ Hi' Bi).
  rewrite (node_index_number_from _ _ _ _ _ Hj' Bj).
  rewrite Hi in Hi'. rewrite Hj in Hj'.
  apply app_inj_tail in Hi', Hj'. destruct Hi' as [_ <-]. destruct Hj' as [_ <-].
  replace (Z.of_nat (j - 0) <? Z.of_nat (i - 0))%Z with false; [reflexivity|].
  symmetry. apply Z.ltb_ge. lia.
Qed.

Lemma check_F4_all_inside (all_folders folders : list node) :
  (forall f, In f all_folders -> exists g, In g folders /\ fst g = fst f) ->
  errors (check_F4 all_folders folders new_result) = [].
Proof.
  intros H. unfold check_F4.
  replace (filter (fun f => negb (node_in f folders)) all_folders) with (@nil node);
    [reflexivity|].
  symmetry. induction all_folders as [|f l IH]; [reflexivity|].
  cbn [filter]. destruct (H f (or_introl eq_refl)) as (g & Hg & E).
  replace (node_in f folders) with true.
  - cbn [negb]. apply IH. intros f' Hf'. apply H. now right.
  - symmetry. apply existsb_exists. exists g. split; [assumption|].
    now apply same_node_eq.
Qed.

Lemma flat_map_nil {A B : Type} (f : A -> list B) (l : list A) :
  Forall (fun x => f x = []) l -> flat_map f l = [].
Proof.
  induction 1 as [|x l Hx Hl IH]; [reflexivity|].
  cbn [flat_map]. now rewrite Hx, IH.
Qed.

Lemma check_F5_no_role (folders : list node) :
  Forall (fun f => truthy (get (snd f) "role") = false) folders ->
  errors (check_F5 folders new_result) = [].
Proof.
  intros H. unfold check_F5.
  rewrite for_each_errors by (intros x; apply (check_F5_of [x])).
  apply flat_map_nil. revert H. apply Forall_impl. intros f Hf.
  unfold check_F5_folder. now rewrite Hf.
Qed.

Lemma check_F1_covered (calcs : list node) (fields : list str) :
  Forall (covered fields) calcs ->
  errors (check_F1 calcs fields new_result) = [].
Proof.
  intros H. unfold check_F1.
  rewrite for_each_errors by (intros x; apply (check_F1_of [x])).
  apply flat_map_nil. revert H. apply Forall_impl. intros c Hc.
  unfold check_F1_calc, covered in *.
  destruct (get (snd c) "name") as [n|]; [|reflexivity].
  destruct Hc as [Hc|Hc]; apply mem_In in Hc; rewrite Hc; cbn [negb];
    now rewrite ?andb_false_r.
Qed.

Lemma in_calc_names_In (x : str) (calc_names : list (option str)) :
  In (Some x) calc_names -> in_calc_names x calc_names = true.
Proof.
  intros H. apply existsb_exists. exists (Some x). split; [assumption|].
  apply str_eqb_refl.
Qed.

Lemma check_F6_resolved (folders : list node) (calc_names : list (option str)) :
  Forall (fun f => Forall (resolves calc_names) (findall f "folder-item")) folders ->
  errors (check_F6 folders calc_names new_result) = [].
Proof.
  intros H. unfold check_F6.
  assert (Ha : forall y, appends (check_F6_item calc_names y)).
  { intros y. unfold check_F6_item. destruct (_ && _);
      [apply appends_error|exact appends_id]. }
  rewrite for_each_errors by (intros x; now apply for_each_appends).
  apply flat_map_nil. revert H. apply Forall_impl. intros f Hf.
  rewrite for_each_errors by assumption.
  apply flat_map_nil. revert Hf. apply Forall_impl. intros it Hit.
  unfold check_F6_item, resolves in *.
  destruct Hit as [Hit|Hit]; apply in_calc_names_In in Hit; rewrite Hit;
    cbn [negb]; now rewrite ?andb_false_r.
Qed.

Lemma check_F7_shown (lay : node) :
  get (snd lay) "show-structure" = Some (lit "true") ->
  errors (check_F7 (Some lay) new_result) = [].
Proof. intros H. unfold check_F7. now rewrite H. Qed.

Lemma check_F8_escaped (folders : list node) :
  Forall (fun f => contains (lit "&") (folder_name_of f) = true ->
                   contains (lit "&amp;") (folder_name_of f) = true) folders ->
  errors (check_F8 folders new_result) = [].
Proof.
  intros H. unfold check_F8.
  rewrite for_each_errors by (intros x; apply (check_F8_of [x])).
  apply flat_map_nil. revert H. apply Forall_impl. intros f Hf.
  unfold check_F8_folder, folder_name_of in *.
  destruct (contains (lit "&") _); [|reflexivity].
  now rewrite (Hf eq_refl).
Qed.

Lemma check_F9_errors (folders : list node) :
  errors (check_F9 folders new_result)
  = if (MAX_FOLDERS <? List.length folders)%nat
    then [F9_failure (List.length folders)] else [].
Proof. unfold check_F9. now destruct (_ <? _)%nat. Qed.

Lemma check_F10_marked (folders : list node) :
  Forall (fun f => emoji_pattern_match (folder_name_of f) <> None) folders ->
  errors (check_F10 folders new_result) = [].
Proof.
  intros H. unfold check_F10.
  rewrite for_each_errors by (intros x; apply (check_F10_of [x])).
  apply flat_map_nil. revert H. apply Forall_impl. intros f Hf.
  unfold check_F10_folder, folder_name_of in *.
  now destruct (emoji_pattern_match _).
Qed.

(** Folders with pairwise distinct markers have pairwise distinct names. *)
Lemma distinct_markers_distinct_names (folders : list node) :
  Forall (fun f => emoji_pattern_match (folder_name_of f) <> None) folders ->
  NoDup (folder_emojis_of folders) ->
  NoDup (folder_names_of folders).
Proof.
  induction 1 as [|f folders Hf H IH]; [constructor|].
  unfold folder_emojis_of, folder_names_of in *. cbn [flat_map map].
  unfold folder_name_of in Hf.
  destruct (emoji_pattern_match (get_default (snd f) "name" [])) as [g|] eqn:E;
    [|contradiction].
  cbn [app]. intros Hn. inversion Hn as [|? ? Hg Hn']; subst.
  constructor; [|now apply IH].
  intros K. apply Hg. apply in_map_iff in K. destruct K as (f' & Hname & Hf').
  apply in_flat_map. exists f'. split; [assumption|].
  rewrite Hname, E. now left.
Qed.

Lemma check_F11_distinct (folders : list node) :
  Forall (fun f => emoji_pattern_match (folder_name_of f) <> None) folders ->
  NoDup (folder_emojis_of folders) ->
  errors (check_F11 folders new_result) = [].
Proof.
  intros Hm Hn. rewrite check_F11_errors.
  rewrite !check_duplicates_fresh; try reflexivity; try assumption;
    try (intros x _ []).
  now apply distinct_markers_distinct_names.
Qed.

(** C3 (as amended): in a document whose folders all sit in the containment
    element, carry no role attribute, have names with pairwise distinct
    markers and no unescaped ampersand, whose folder items cover every
    calculated field (exact or bracketed name) and all resolve to one, and
    whose layout element follows the containment element with show-structure
    true, no folder rule fails as long as there are at most [MAX_FOLDERS] = 6
    folders; with more folders F9, and only F9, fails, with exactly one
    failure entry. *)
Theorem tidy_folders_fail_only_F9 (root : node) (calcs : list node)
    (res : ValidationResult) (fc lay : node) :
  let folders := findall fc "folder" in
  find_desc root "folders-common" = Some fc ->
  find_desc root "layout" = Some lay ->
  sibling_before fc lay ->
  get (snd lay) "show-structure" = Some (lit "true") ->
  (forall f, In f (findall_desc root "folder") ->
             exists g, In g folders /\ fst g = fst f) ->
  Forall (fun f => truthy (get (snd f) "role") = false) folders ->
  Forall (covered (fields_in_folders_of folders)) calcs ->
  Forall (fun f => Forall (resolves (map (fun c => get (snd c) "name") calcs))
                          (findall f "folder-item")) folders ->
  Forall (fun f => contains (lit "&") (folder_name_of f) = true ->
                   contains (lit "&amp;") (folder_name_of f) = true) folders ->
  Forall (fun f => emoji_pattern_match (folder_name_of f) <> None) folders ->
  NoDup (folder_emojis_of folders) ->
  ((List.length folders <= MAX_FOLDERS)%nat ->
   errors (validate_folders root calcs res) = errors res)
  /\
  ((MAX_FOLDERS < List.length folders)%nat ->
   errors (validate_folders root calcs res)
   = errors res ++ [F9_failure (List.length folders)]).
Proof.
  intros folders Hfc Hlay Hpos Hshow Hin Hrole Hcov Hres Hamp Hmark Hdist.
  unfold folders in *. clear folders.
  assert (E : errors (validate_folders root calcs res)
              = errors res
                ++ (if (MAX_FOLDERS <? List.length (findall fc "folder"))%nat
                    then [F9_failure (List.length (findall fc "folder"))] else [])).
  { rewrite (validate_folders_errors _ _ _ _ Hfc). f_equal.
    unfold evaluation_order. cbn [flat_map folder_check]. rewrite Hlay.
    rewrite (check_F3_in_order _ _ _ Hpos), (check_F4_all_inside _ _ Hin),
      (check_F5_no_role _ Hrole), (check_F1_covered _ _ Hcov),
      (check_F6_resolved _ _ Hres), (check_F7_shown _ Hshow),
      (check_F8_escaped _ Hamp), check_F9_errors, (check_F10_marked _ Hmark),
      (check_F11_distinct _ Hmark Hdist).
    cbn [app]. now rewrite app_nil_r. }
  split; intros Hlen; rewrite E.
  - replace (MAX_FOLDERS <? List.length (findall fc "folder"))%nat with false;
      [now rewrite app_nil_r|].
    symmetry. apply Nat.ltb_ge. assumption.
  - replace (MAX_FOLDERS <? List.length (findall fc "folder"))%nat with true;
      [reflexivity|].
    symmetry. apply Nat.ltb_lt. assumption.
Qed.

Ltac each_item :=
  apply Forall_forall; intros ? ?;
  repeat match goal with
         | H : In _ _ |- _ => vm_compute in H
         | H : _ \/ _ |- _ => destruct H as [H|H]
         | H : False |- _ => contradiction
         | H : _ = _ |- _ => subst
         end.

Lemma sample_workbook_tidy (n : nat) :
  In n [6; 7; 8]%nat ->
  let root := doc (sample_workbook n) in
  let fc := ([0; 0; n]%nat, sample_folders_common n) in
  let lay := ([0; 0; S n]%nat, sample_layout) in
  let calcs := calculations_of root in
  let folders := findall fc "folder" in
  find_desc root "folders-common" = Some fc
  /\ find_desc root "layout" = Some lay
  /\ sibling_before fc lay
  /\ get (snd lay) "show-structure" = Some (lit "true")
  /\ (forall f, In f (findall_desc root "folder") ->
                exists g, In g folders /\ fst g = fst f)
  /\ Forall (fun f => truthy (get (snd f) "role") = false) folders
  /\ Forall (covered (fields_in_folders_of folders)) calcs
  /\ Forall (fun f => Forall (resolves (map (fun c => get (snd c) "name") calcs))
                             (findall f "folder-item")) folders
  /\ Forall (fun f => contains (lit "&") (folder_name_of f) = true ->
                      contains (lit "&amp;") (folder_name_of f) = true) folders
  /\ Forall (fun f => emoji_pattern_match (folder_name_of f) <> None) folders
  /\ NoDup (folder_emojis_of folders).
Proof.
  intros [<-|[<-|[<-|[]]]]; cbv zeta.
  all: split; [reflexivity|]; split; [reflexivity|].
  all: split; [exists [0; 0]%nat; eexists _, _; repeat split; cbn; lia|].
  all: split; [reflexivity|].
  all: split; [intros f Hf; exists f; split; [exact Hf|reflexivity]|].
  all: split; [each_item; reflexivity|].
  all: split; [each_item; vm_compute; tauto|].
  all: split; [each_item; each_item; vm_compute; tauto|].
  all: split; [each_item; vm_compute; discriminate|].
  all: split; [each_item; vm_compute; discriminate|].
  all: vm_compute; repeat constructor; cbn; intuition discriminate.
Qed.

Lemma tidy_folders_fail_only_F9_witness :
  errors (validate_folders (doc (sample_workbook 6))
                           (calculations_of (doc (sample_workbook 6))) new_result)
  = []
  /\
  errors (validate_folders (doc (sample_workbook 7))
                           (calculations_of (doc (sample_workbook 7))) new_result)
  = [F9_failure 7].
Proof.
  split.
  - destruct (sample_workbook_tidy 6 (or_introl eq_refl))
      as (H1 & H2 & H3 & H4 & H5 & H6 & H7 & H8 & H9 & H10 & H11).
    apply (proj1 (tidy_folders_fail_only_F9 _ _ new_result _ _
                    H1 H2 H3 H4 H5 H6 H7 H8 H9 H10 H11)).
    vm_compute. lia.
  - destruct (sample_workbook_tidy 7 (or_intror (or_introl eq_refl)))
      as (H1 & H2 & H3 & H4 & H5 & H6 & H7 & H8 & H9 & H10 & H11).
    apply (proj2 (tidy_folders_fail_only_F9 _ _ new_result _ _
                    H1 H2 H3 H4 H5 H6 H7 H8 H9 H10 H11)).
    vm_compute. lia.
Defined.

(** C3 as stated fails: with eight folders, each with its own marker and
    holding one of the eight calculated fields, and the layout element after
    the containment element with show-structure true, F9 fails (the maximum
    is six); it is the only failure. *)
Lemma eight_folders_fail_F9 :
  let root := doc (sample_workbook 8) in
  let fc := ([0; 0; 8]%nat, sample_folders_common 8) in
  let lay := ([0; 0; 9]%nat, sample_layout) in
  let calcs := calculations_of root in
  find_desc root "folders-common" = Some fc
  /\ find_desc root "layout" = Some lay
  /\ sibling_before fc lay
  /\ get (snd lay) "show-structure" = Some (lit "true")
  /\ List.length (findall fc "folder") = 8%nat
  /\ NoDup (folder_emojis_of (findall fc "folder"))
  /\ Forall (fun f => emoji_pattern_match (folder_name_of f) <> None) (findall fc "folder")
  /\ Forall (covered (fields_in_folders_of (findall fc "folder"))) calcs
  /\ errors (validate_folders root calcs new_result) = [F9_failure 8].
Proof.
  destruct (sample_workbook_tidy 8 (or_intror (or_intror (or_introl eq_refl))))
    as (H1 & H2 & H3 & H4 & H5 & H6 & H7 & H8 & H9 & H10 & H11).
  cbv zeta. repeat split; try assumption; vm_compute; reflexivity.
Qed.

(** * Further properties of the script *)

(** ** The text normalizer beyond idempotence *)

Lemma split_ws_nil (s : str) :
  split_ws s = [] <-> Forall (fun c => isspace c = true) s.
Proof.
  induction s as [|c s IH]; [split; constructor|].
  cbn [split_ws]. destruct (isspace c) eqn:Ec.
  - rewrite IH. split; intros H; [now constructor|now inversion H].
  - split.
    + destruct s as [|d s']; [discriminate|].
      destruct (isspace d); [discriminate|].
      destruct (split_ws (d :: s')); discriminate.
    + intros H. inversion H; subst. congruence.
Qed.

Lemma upper_cp_nonempty (c : N) : upper_cp c <> [].
Proof.
  unfold upper_cp. destruct (is_ascii_lower c); [discriminate|].
  destruct (c =? 329); discriminate.
Qed.

Lemma title_word_not_nil (w : str) : w <> [] -> title_word w <> [].
Proof.
  destruct w as [|c r]; [contradiction|]. intros _. unfold title_word.
  assert (H : forall t, upper_cp c ++ t <> []).
  { intros t K. apply app_eq_nil in K. now apply (upper_cp_nonempty c). }
  destruct (mem _ ACRONYMS); [apply H|]. unfold capitalize, title_cp. apply H.
Qed.

Lemma join_nil (ws : list str) :
  Forall (fun w => w <> []) ws -> join (lit " ") ws = [] -> ws = [].
Proof.
  intros H. destruct H as [|w ws Hw H]; [reflexivity|].
  cbn [join]. destruct ws as [|w2 ws'].
  - intros ->. contradiction.
  - intros K. apply app_eq_nil in K. destruct K as [-> _]. contradiction.
Qed.

(** X1: [to_title_case] gives the empty text exactly for an input made of
    whitespace and underscores only (the empty input among them). *)
Theorem to_title_case_empty_iff (x : str) :
  to_title_case x = [] <-> Forall (fun c => isspace c = true \/ c = 95) x.
Proof.
  unfold to_title_case. rewrite replace_underscore.
  assert (E : Forall (fun c => isspace c = true) (map underscore_to_space x)
              <-> Forall (fun c => isspace c = true \/ c = 95) x).
  { rewrite Forall_map. split; apply Forall_impl; intros c;
      unfold underscore_to_space; destruct (N.eqb_spec c 95).
    - now right.
    - now left.
    - reflexivity.
    - intros [H|H]; [assumption|contradiction]. }
  rewrite <- E, <- split_ws_nil. split.
  - intros H. apply join_nil in H.
    + now apply map_eq_nil in H.
    + apply Forall_map.
      eapply Forall_impl; [|apply split_ws_wordy].
      intros w [Hne _]. now apply title_word_not_nil.
  - now intros ->.
Qed.

(** X2: on ASCII input the result is in normal form: it holds no underscore,
    and its words are separated by single spaces with nothing before the
    first or after the last (splitting it and joining the words with one
    space gives it back). *)
Theorem to_title_case_normal_form (x : str) :
  is_ascii x ->
  ~ In 95 (to_title_case x)
  /\ join (lit " ") (split_ws (to_title_case x)) = to_title_case x.
Proof.
  intros Hx. unfold to_title_case.
  pose proof (title_words_plain _ (split_words_plain x Hx)) as HW.
  set (W := map title_word (split_ws (replace (lit "_") (lit " ") x))) in *.
  split.
  - intros Hin. apply join_chars in Hin. destruct Hin as [Hin|(w & Hw & Hc)];
      [discriminate|].
    rewrite Forall_forall in HW. destruct (HW w Hw) as [_ Hp].
    rewrite Forall_forall in Hp. destruct (Hp 95 Hc) as (_ & Hneq & _).
    now apply Hneq.
  - rewrite split_ws_join; [reflexivity|].
    revert HW. apply Forall_impl. now intros w [H _].
Qed.

Lemma to_title_case_normal_form_witness :
  ~ In 95 (to_title_case (lit "  total__sales   ytd "))
  /\ join (lit " ") (split_ws (to_title_case (lit "  total__sales   ytd ")))
     = to_title_case (lit "  total__sales   ytd ").
Proof.
  apply to_title_case_normal_form. repeat constructor.
Defined.

(** X3: on ASCII input every word of the result is either an acronym of the
    set, in upper case, or a word that is not one, capitalized. *)
Theorem to_title_case_words (x w : str) :
  is_ascii x ->
  In w (split_ws (to_title_case x)) ->
  (mem (upper w) ACRONYMS = true /\ w = upper w)
  \/ (mem (upper w) ACRONYMS = false /\ w = capitalize w).
Proof.
  intros Hx Hw. unfold to_title_case in Hw.
  pose proof (title_words_plain _ (split_words_plain x Hx)) as HW.
  rewrite split_ws_join in Hw
    by (revert HW; apply Forall_impl; now intros w' [H _]).
  rewrite Forall_forall in HW. destruct (HW w Hw) as [_ Hp].
  apply in_map_iff in Hw. destruct Hw as (w0 & Hw0 & Hin0).
  pose proof (split_words_plain x Hx) as HS. rewrite Forall_forall in HS.
  destruct (HS w0 Hin0) as [_ Hp0].
  pose proof (title_word_idempotent w0 Hp0) as Hid. rewrite Hw0 in Hid.
  unfold title_word in Hid.
  destruct (mem (upper w) ACRONYMS); [left|right]; split; congruence.
Qed.

Lemma to_title_case_words_witness :
  (mem (upper (lit "YTD")) ACRONYMS = true /\ lit "YTD" = upper (lit "YTD"))
  \/ (mem (upper (lit "YTD")) ACRONYMS = false /\ lit "YTD" = capitalize (lit "YTD")).
Proof.
  apply (to_title_case_words (lit "sales_ytd")).
  - repeat constructor.
  - vm_compute. right. left. reflexivity.
Defined.

Lemma lo_ascii (c : N) : c < 128 -> lo c < 128.
Proof. intros H. casing. Qed.

Lemma lo_space (c : N) : c < 128 -> isspace (lo c) = isspace c.
Proof.
  intros H. unfold lo, is_ascii_upper.
  destruct (N.leb_spec 65 c); destruct (N.leb_spec c 90); cbn [andb]; try reflexivity.
  rewrite !letters_not_space by lia. reflexivity.
Qed.

Lemma lo_underscore (c : N) : underscore_to_space (lo c) = lo (underscore_to_space c).
Proof.
  unfold underscore_to_space.
  destruct (N.eqb_spec c 95) as [->|Hc]; [reflexivity|].
  destruct (N.eqb_spec (lo c) 95) as [E|E]; [|reflexivity].
  exfalso. revert E. casing.
Qed.

Lemma split_ws_map (f : N -> N) (s : str) :
  Forall (fun c => isspace (f c) = isspace c) s ->
  split_ws (map f s) = map (map f) (split_ws s).
Proof.
  induction 1 as [|c s Hc Hs IH]; [reflexivity|].
  cbn [map split_ws]. rewrite Hc. destruct (isspace c); [assumption|].
  destruct s as [|d s']; [reflexivity|].
  inversion Hs as [|? ? Hd _]; subst.
  change (map f (d :: s')) with (f d :: map f s') in *. cbv beta iota.
  rewrite Hd. destruct (isspace d).
  - cbn [map]. now rewrite <- IH.
  - rewrite IH. now destruct (split_ws (d :: s')).
Qed.

Lemma title_word_lo (w : str) : is_ascii w -> title_word (map lo w) = title_word w.
Proof.
  intros H.
  assert (Hlo : is_ascii (map lo w)).
  { apply Forall_map. revert H. apply Forall_impl. exact lo_ascii. }
  rewrite (title_word_ascii _ Hlo), (title_word_ascii _ H).
  rewrite map_map, (map_ext _ up up_lo).
  destruct (mem (map up w) ACRONYMS); [reflexivity|].
  destruct w as [|c r]; [reflexivity|]. cbn [map].
  now rewrite up_lo, map_map, (map_ext _ lo lo_lo).
Qed.

Lemma to_title_case_lower (x : str) :
  is_ascii x -> to_title_case (lower x) = to_title_case x.
Proof.
  intros Hx. unfold to_title_case. rewrite lower_lo, !replace_underscore.
  replace (map underscore_to_space (map lo x))
    with (map lo (map underscore_to_space x))
    by (rewrite !map_map; apply map_ext; intros c; now rewrite lo_underscore).
  assert (Hs : is_ascii (map underscore_to_space x)).
  { apply Forall_map. revert Hx. apply Forall_impl. intros c Hc.
    unfold underscore_to_space. destruct (c =? 95); lia. }
  rewrite split_ws_map
    by (revert Hs; apply Forall_impl; exact lo_space).
  rewrite map_map. f_equal. apply map_ext_in. intros w Hw.
  apply title_word_lo. apply Forall_forall. intros c Hc.
  unfold is_ascii in Hs. rewrite Forall_forall in Hs.
  apply Hs. exact (split_ws_chars _ _ _ Hw Hc).
Qed.

(** X4: on ASCII input the result does not depend on the letter case of
    the input: two texts that are equal once lowered have the same
    title-cased form. *)
Theorem to_title_case_ignores_case (x y : str) :
  is_ascii x -> is_ascii y -> lower x = lower y ->
  to_title_case x = to_title_case y.
Proof.
  intros Hx Hy E.
  rewrite <- (to_title_case_lower x Hx), <- (to_title_case_lower y Hy).
  now rewrite E.
Qed.

Lemma to_title_case_ignores_case_witness :
  to_title_case (lit "Total sales YTD") = to_title_case (lit "tOTAL SALES ytd").
Proof.
  apply to_title_case_ignores_case; [repeat constructor|repeat constructor|reflexivity].
Defined.

(** ** The caption rules beyond C1 *)

Section CaptionRules.

Variable re_search : str -> list re_flag -> str -> option str.

(** The failures of [validate_caption], rule by rule. *)
Lemma validate_caption_errors (caption name : option str) (res : ValidationResult) :
  let d := fmt (or_else caption name) in
  errors (validate_caption re_search caption name res)
  = errors res
    ++ errors (check_C1 caption d new_result)
    ++ errors (check_C2 caption d new_result)
    ++ errors (check_C3 caption d new_result)
    ++ errors (check_C4 re_search caption d new_result)
    ++ errors (check_C5 re_search caption d new_result).
Proof.
  intros d. unfold validate_caption. fold d.
  rewrite (proj1 (check_C5_of re_search caption d)),
    (proj1 (check_C4_of re_search caption d)),
    (proj1 (check_C3_of caption d)), (proj1 (check_C2_of caption d)),
    (proj1 (check_C1_of caption d)).
  cbn [app_res errors]. now rewrite <- !app_assoc.
Qed.

Lemma validate_caption_of_rule (caption name : option str) (k : string) :
  let d := fmt (or_else caption name) in
  of_rule k (errors (validate_caption re_search caption name new_result))
  = (if str_eqb (lit "C1") (lit k) then errors (check_C1 caption d new_result) else [])
    ++ (if str_eqb (lit "C2") (lit k) then errors (check_C2 caption d new_result) else [])
    ++ (if str_eqb (lit "C3") (lit k) then errors (check_C3 caption d new_result) else [])
    ++ (if str_eqb (lit "C4") (lit k)
        then errors (check_C4 re_search caption d new_result) else [])
    ++ (if str_eqb (lit "C5") (lit k)
        then errors (check_C5 re_search caption d new_result) else []).
Proof.
  intros d. rewrite validate_caption_errors. fold d. cbn [errors new_result app].
  rewrite !of_rule_app.
  rewrite (of_rule_tagged "C1" k _ (proj1 (proj2 (check_C1_of caption d)))),
    (of_rule_tagged "C2" k _ (proj1 (proj2 (check_C2_of caption d)))),
    (of_rule_tagged "C3" k _ (proj1 (proj2 (check_C3_of caption d)))),
    (of_rule_tagged "C4" k _ (proj1 (proj2 (check_C4_of re_search caption d)))),
    (of_rule_tagged "C5" k _ (proj1 (proj2 (check_C5_of re_search caption d)))).
  reflexivity.
Qed.

(** X5: without a caption (absent or empty) the caption rules record
    nothing, whatever the name. *)
Theorem validate_caption_without_caption (caption name : option str)
    (res : ValidationResult) :
  truthy caption = false ->
  validate_caption re_search caption name res = res.
Proof.
  intros H. unfold validate_caption, check_C1, check_C2, check_C3, check_C4, check_C5.
  destruct caption as [cap|]; [|reflexivity].
  cbn [truthy] in H. now rewrite H.
Qed.

Lemma for_each_keeps_passes {A : Type}
    (body : A -> ValidationResult -> ValidationResult) (l : list A) :
  (forall x res, passes (body x res) = passes res) ->
  forall res, passes (for_each body l res) = passes res.
Proof.
  intros H. induction l as [|x l IH]; intros res; [reflexivity|].
  rewrite for_each_cons, IH. apply H.
Qed.

(** The passes are untouched by the five caption checks. *)
Lemma validate_caption_keeps_passes (caption name : option str)
    (res : ValidationResult) :
  passes (validate_caption re_search caption name res) = passes res.
Proof.
  unfold validate_caption. set (d := fmt (or_else caption name)).
  assert (H1 : forall r, passes (check_C1 caption d r) = passes r).
  { intros r. unfold check_C1. destruct caption as [cap|]; [|reflexivity].
    destruct (nonempty cap); [|reflexivity].
    destruct (_ && _); [|reflexivity].
    destruct (str_eqb _ _); [|reflexivity].
    now destruct (negb _). }
  assert (H2 : forall r, passes (check_C2 caption d r) = passes r).
  { intros r. unfold check_C2. destruct caption as [cap|]; [|reflexivity].
    now destruct (_ && _). }
  assert (H3 : forall r, passes (check_C3 caption d r) = passes r).
  { intros r. unfold check_C3. destruct caption as [cap|]; [|reflexivity].
    now destruct (_ && _). }
  assert (H4 : forall r, passes (check_C4 re_search caption d r) = passes r).
  { intros r. unfold check_C4. destruct caption as [cap|]; [|reflexivity].
    destruct (nonempty cap); [|reflexivity].
    apply for_each_keeps_passes. intros a r'. unfold check_C4_acronym.
    destruct (re_search _ _ _); [|reflexivity]. now destruct (negb _). }
  assert (H5 : forall r, passes (check_C5 re_search caption d r) = passes r).
  { intros r. unfold check_C5. destruct caption as [cap|]; [|reflexivity].
    destruct (nonempty cap); [|reflexivity].
    now destruct (re_search _ _ _). }
  now rewrite H5, H4, H3, H2, H1.
Qed.

(** X6: the caption rules never record a pass entry. *)
Theorem validate_caption_records_no_pass (caption name : option str)
    (res : ValidationResult) :
  passes (validate_caption re_search caption name res) = passes res.
Proof. exact (validate_caption_keeps_passes caption name res). Qed.

Lemma c_prefix_has_underscore (cap : str) :
  startswith (lit "c_") (lower cap) = true -> contains (lit "_") cap = true.
Proof.
  rewrite lower_lo. destruct cap as [|c0 [|c1 rest]]; cbn [map]; try discriminate.
  - cbn. now rewrite andb_false_r.
  - change (startswith (lit "c_") (lo c0 :: lo c1 :: map lo rest))
      with ((99 =? lo c0) && ((95 =? lo c1) && true)).
    rewrite andb_true_r, andb_true_iff, !N.eqb_eq. intros [_ H].
    assert (c1 = 95) as -> by (revert H; casing).
    cbn. now rewrite orb_true_r.
Qed.

(** X7: C3 never fires alone: a caption that gets the C3 failure (deprecated
    [c_] prefix) gets the C2 failure (underscore) too. *)
Theorem C3_failure_brings_C2_failure (caption name : option str) :
  let r := validate_caption re_search caption name new_result in
  of_rule "C3" (errors r) <> [] ->
  of_rule "C2" (errors r)
  = [mkEntry (lit "C2") (fmt (or_else caption name)) (lit "contains underscore")].
Proof.
  intros r. subst r. rewrite !validate_caption_of_rule. cbn [lit].
  change (str_eqb (lit "C1") (lit "C3")) with false.
  change (str_eqb (lit "C2") (lit "C3")) with false.
  change (str_eqb (lit "C3") (lit "C3")) with true.
  change (str_eqb (lit "C4") (lit "C3")) with false.
  change (str_eqb (lit "C5") (lit "C3")) with false.
  change (str_eqb (lit "C1") (lit "C2")) with false.
  change (str_eqb (lit "C2") (lit "C2")) with true.
  change (str_eqb (lit "C3") (lit "C2")) with false.
  change (str_eqb (lit "C4") (lit "C2")) with false.
  change (str_eqb (lit "C5") (lit "C2")) with false.
  cbn [app]. rewrite !app_nil_r.
  unfold check_C3, check_C2. destruct caption as [cap|]; [|now intros H].
  destruct (nonempty cap); [|now intros H]. cbn [andb].
  destruct (startswith (lit "c_") (lower cap)) eqn:E; [|now intros H].
  intros _. now rewrite (c_prefix_has_underscore cap E).
Qed.

End CaptionRules.

Lemma C3_failure_brings_C2_failure_witness :
  of_rule "C2" (errors (validate_caption never_search (Some (lit "c_Total_Sales"))
                                         (Some (lit "[Calculation_1]")) new_result))
  = [mkEntry (lit "C2") (lit "c_Total_Sales") (lit "contains underscore")].
Proof.
  apply (C3_failure_brings_C2_failure never_search (Some (lit "c_Total_Sales"))
           (Some (lit "[Calculation_1]"))).
  vm_compute. discriminate.
Defined.

Lemma validate_caption_without_caption_witness :
  validate_caption never_search (Some []) (Some (lit "[Calculation_1]")) new_result
  = new_result.
Proof.
  apply validate_caption_without_caption. reflexivity.
Defined.

(** ** The comment rules beyond M1 and M4 *)

Section CommentRules.

Variable re_search : str -> list re_flag -> str -> option str.
Variable re_match : str -> list re_flag -> str -> bool.

(** The lazy-pattern loop records one failure when a pattern matches and
    nothing otherwise. *)
Lemma check_M3_lazy_cases (ps : list str) (cl ct d : str) (res : ValidationResult) :
  (snd (check_M3_lazy re_match ps cl ct d res) = false
   /\ fst (check_M3_lazy re_match ps cl ct d res) = res)
  \/ (snd (check_M3_lazy re_match ps cl ct d res) = true
      /\ exists m, fst (check_M3_lazy re_match ps cl ct d res)
                   = error (lit "M3") d m res).
Proof.
  induction ps as [|p ps IH]; cbn [check_M3_lazy]; [now left|].
  destruct (re_match p [IGNORECASE] cl); [|exact IH].
  right. split; [reflexivity|]. eexists. reflexivity.
Qed.

Lemma check_M3_at_most_one (fs : str) (caption : option str) (d : str) :
  (List.length (errors (check_M3 re_match fs caption d new_result)) <= 1)%nat.
Proof.
  unfold check_M3. destruct (_ <? _)%nat; [cbn; lia|].
  match goal with
  | |- context [check_M3_lazy re_match ?ps ?cl ?ct d new_result] =>
      destruct (check_M3_lazy_cases ps cl ct d new_result) as [[Hs Hf]|[Hs [m Hf]]];
      destruct (check_M3_lazy re_match ps cl ct d new_result) as [r lazy]
  end; cbn [fst snd] in *; subst.
  - destruct caption as [cap|]; [|cbn; lia].
    destruct (negb false && nonempty cap); [|cbn; lia].
    destruct (str_eqb _ _); cbn; lia.
  - destruct caption as [cap|]; cbn; lia.
Qed.

Lemma check_M3_keeps_passes (fs : str) (caption : option str) (d : str)
    (res : ValidationResult) :
  passes (check_M3 re_match fs caption d res) = passes res.
Proof.
  unfold check_M3. destruct (_ <? _)%nat; [reflexivity|].
  match goal with
  | |- context [check_M3_lazy re_match ?ps ?cl ?ct d res] =>
      destruct (check_M3_lazy_cases ps cl ct d res) as [[Hs Hf]|[Hs [m Hf]]];
      destruct (check_M3_lazy re_match ps cl ct d res) as [r lazy]
  end; cbn [fst snd] in *; subst.
  - destruct caption as [cap|]; [|reflexivity].
    destruct (negb false && nonempty cap); [|reflexivity].
    now destruct (str_eqb _ _).
  - now destruct caption.
Qed.

Lemma check_M4_keeps_passes (raw : option str) (d : str) (res : ValidationResult) :
  passes (check_M4 raw d res) = passes res.
Proof.
  unfold check_M4. destruct raw as [r|]; [|reflexivity].
  destruct (nonempty r); [|reflexivity]. now destruct (_ && _).
Qed.

Lemma check_M5_keeps_passes (raw : option str) (d : str) (res : ValidationResult) :
  passes (check_M5 re_search raw d res) = passes res.
Proof.
  unfold check_M5. destruct raw as [r|]; [|reflexivity].
  destruct (nonempty r); [|reflexivity]. now destruct (re_search _ _ _).
Qed.

(** The passes of [validate_comment] once M1 has passed. *)
Lemma validate_comment_reached_passes
    (formula caption name raw_formula calc_class : option str)
    (f : str) (res : ValidationResult) :
  is_bin_class calc_class = false ->
  formula = Some f ->
  startswith (lit "//") (strip f) = true ->
  passes (validate_comment re_search re_match formula caption name res
                           raw_formula calc_class)
  = passes res
    ++ [mkEntry (lit "M1") (fmt (or_else caption name)) (lit "has comment");
        mkEntry (lit "M2") (fmt (or_else caption name)) (lit "starts with //")].
Proof.
  intros Hb -> Hs. unfold validate_comment. rewrite Hb.
  destruct f as [|c f]; [discriminate|]. cbn [nonempty].
  destruct (strip (c :: f)) as [|c' f'] eqn:E; [discriminate|].
  cbn [nonempty negb]. rewrite Hs. cbn [negb].
  rewrite check_M5_keeps_passes, check_M4_keeps_passes, check_M3_keeps_passes.
  cbn. now rewrite <- app_assoc.
Qed.

(** The four ways through [validate_comment]. *)
Lemma validate_comment_cases
    (formula caption name raw_formula calc_class : option str)
    (res : ValidationResult) :
  let r := validate_comment re_search re_match formula caption name res
                            raw_formula calc_class in
  let d := fmt (or_else caption name) in
  (exists m, r = passed (lit "M1") d m res
             /\ (is_bin_class calc_class = true \/ formula = None
                 \/ exists f, formula = Some f /\ strip f = []))
  \/ (exists f, r = error (lit "M1") d (lit "missing comment") res
                /\ is_bin_class calc_class = false /\ formula = Some f
                /\ strip f <> [] /\ startswith (lit "//") (strip f) = false)
  \/ (exists f, is_bin_class calc_class = false /\ formula = Some f
                /\ startswith (lit "//") (strip f) = true).
Proof.
  intros r d. subst r. unfold validate_comment. fold d.
  destruct (is_bin_class calc_class) eqn:Hb.
  { left. eexists. split; [reflexivity|now left]. }
  destruct formula as [f|].
  2:{ left. eexists. split; [reflexivity|right; now left]. }
  destruct f as [|c f].
  { left. eexists. split; [reflexivity|]. right. right. now exists []. }
  cbn [nonempty]. destruct (strip (c :: f)) as [|c' f'] eqn:E.
  { left. eexists. split; [reflexivity|]. right. right. now exists (c :: f). }
  cbn [nonempty negb andb].
  destruct (startswith (lit "//") (c' :: f')) eqn:Hs; cbn [negb].
  - right. right. exists (c :: f). rewrite E. now repeat split.
  - right. left. exists (c :: f). rewrite E. repeat split; try assumption.
    discriminate.
Qed.

(** The M1 entries of one call: one more than before. *)
Lemma validate_comment_M1_count
    (formula caption name raw_formula calc_class : option str)
    (res : ValidationResult) :
  let r := validate_comment re_search re_match formula caption name res
                            raw_formula calc_class in
  (List.length (of_rule "M1" (errors r)) + List.length (of_rule "M1" (passes r))
   = List.length (of_rule "M1" (errors res)) + List.length (of_rule "M1" (passes res))
     + 1)%nat.
Proof.
  intros r.
  destruct (validate_comment_cases formula caption name raw_formula calc_class res)
    as [(m & E & _)|[(f & E & _)|(f & Hb & Hf & Hs)]]; fold r in E || idtac.
  - rewrite E. cbn [passed errors passes]. rewrite of_rule_app, length_app.
    cbn. lia.
  - rewrite E. cbn [error errors passes]. rewrite of_rule_app, length_app.
    cbn. lia.
  - subst r.
    rewrite (validate_comment_reached re_search re_match _ caption name
               raw_formula calc_class f res Hb Hf Hs).
    rewrite (validate_comment_reached_passes _ caption name
               raw_formula calc_class f res Hb Hf Hs).
    rewrite !of_rule_app, !length_app.
    rewrite (of_rule_other "M3" "M1" _ (check_M3_errors re_match _ _ _) eq_refl).
    rewrite (of_rule_other "M5" "M1" _ (check_M5_errors re_search _ _) eq_refl).
    rewrite check_M4_errors.
    replace (of_rule "M1" match raw_formula with
                          | Some r0 =>
                              if contains [10] r0 && negb (contains (lit "&#13;") r0)
                              then [M4_entry (fmt (or_else caption name))] else []
                          | None => []
                          end) with (@nil Entry).
    + cbn. lia.
    + destruct raw_formula as [r0|]; [|reflexivity]. now destruct (_ && _).
Qed.

(** X8: every call of [validate_comment] records exactly one M1 entry, a
    pass or a failure, whatever the field and the regular-expression
    engine. *)
Theorem one_M1_verdict_per_field
    (formula caption name raw_formula calc_class : option str)
    (res : ValidationResult) :
  let r := validate_comment re_search re_match formula caption name res
                            raw_formula calc_class in
  (List.length (of_rule "M1" (errors r)) + List.length (of_rule "M1" (passes r))
   = List.length (of_rule "M1" (errors res)) + List.length (of_rule "M1" (passes res))
     + 1)%nat.
Proof.
  exact (validate_comment_M1_count formula caption name raw_formula calc_class res).
Qed.

(** X9: a field gets at most one M3 failure, whichever of the three M3
    tests (length, lazy pattern, restated caption) apply. *)
Theorem at_most_one_M3_failure
    (formula caption name raw_formula calc_class : option str)
    (res : ValidationResult) :
  let r := validate_comment re_search re_match formula caption name res
                            raw_formula calc_class in
  (List.length (of_rule "M3" (errors r))
   <= List.length (of_rule "M3" (errors res)) + 1)%nat.
Proof.
  intros r.
  destruct (validate_comment_cases formula caption name raw_formula calc_class res)
    as [(m & E & _)|[(f & E & _)|(f & Hb & Hf & Hs)]]; fold r in E || idtac.
  - rewrite E. cbn [passed errors]. lia.
  - rewrite E. cbn [error errors]. rewrite of_rule_app. cbn. rewrite app_nil_r. lia.
  - subst r.
    rewrite (validate_comment_reached re_search re_match _ caption name
               raw_formula calc_class f res Hb Hf Hs).
    rewrite !of_rule_app, !length_app.
    rewrite (of_rule_same "M3" _ (check_M3_errors re_match _ _ _)).
    rewrite (of_rule_other "M5" "M3" _ (check_M5_errors re_search _ _) eq_refl).
    rewrite check_M4_errors.
    replace (of_rule "M3" match raw_formula with
                          | Some r0 =>
                              if contains [10] r0 && negb (contains (lit "&#13;") r0)
                              then [M4_entry (fmt (or_else caption name))] else []
                          | None => []
                          end) with (@nil Entry).
    + pose proof (check_M3_at_most_one (strip f) caption (fmt (or_else caption name))).
      cbn [List.length]. lia.
    + destruct raw_formula as [r0|]; [|reflexivity]. now destruct (_ && _).
Qed.

(** X10: a field with nothing to comment (a bin class, no formula attribute,
    or a formula that is blank once trimmed) gets one M1 pass and no failure,
    whatever its raw text. *)
Theorem nothing_to_comment_passes_M1
    (formula caption name raw_formula calc_class : option str)
    (res : ValidationResult) :
  is_bin_class calc_class = true \/ formula = None
  \/ (exists f, formula = Some f /\ strip f = []) ->
  let r := validate_comment re_search re_match formula caption name res
                            raw_formula calc_class in
  errors r = errors res
  /\ exists m, passes r = passes res ++ [mkEntry (lit "M1") (fmt (or_else caption name)) m].
Proof.
  intros H r.
  destruct (validate_comment_cases formula caption name raw_formula calc_class res)
    as [(m & E & _)|[(f & _ & Hb & Hf & Hne & _)|(f & Hb & Hf & Hs)]].
  - fold r in E. rewrite E. split; [reflexivity|]. now exists m.
  - exfalso. destruct H as [H|[H|(f' & Hf' & Hs')]]; [congruence|congruence|].
    rewrite Hf in Hf'. injection Hf' as <-. contradiction.
  - exfalso. destruct H as [H|[H|(f' & Hf' & Hs')]]; [congruence|congruence|].
    rewrite Hf in Hf'. injection Hf' as <-. rewrite Hs' in Hs. discriminate.
Qed.

End CommentRules.

Lemma nothing_to_comment_passes_M1_witness :
  let r := validate_comment never_search never_match (Some (lit "   ")) None
             (Some (lit "[Calculation_1]")) new_result
             (Some ([10] ++ lit "& x")) None in
  errors r = []
  /\ exists m, passes r = [mkEntry (lit "M1") (lit "[Calculation_1]") m].
Proof.
  apply (nothing_to_comment_passes_M1 never_search never_match
           (Some (lit "   ")) None (Some (lit "[Calculation_1]"))
           (Some ([10] ++ lit "& x")) None new_result).
  right. right. exists (lit "   "). split; reflexivity.
Defined.

(** X11: without raw text for the field (absent from the index, or empty)
    neither M4 nor M5 records anything, whatever the parsed formula and the
    regular-expression engine. *)
Theorem raw_checks_need_raw_text
    (re_search : str -> list re_flag -> str -> option str)
    (re_match : str -> list re_flag -> str -> bool)
    (formula caption name raw_formula calc_class : option str)
    (res : ValidationResult) :
  truthy raw_formula = false ->
  let r := validate_comment re_search re_match formula caption name res
                            raw_formula calc_class in
  of_rule "M4" (errors r) = of_rule "M4" (errors res)
  /\ of_rule "M5" (errors r) = of_rule "M5" (errors res).
Proof.
  intros Hraw r.
  assert (E4 : errors (check_M4 raw_formula (fmt (or_else caption name)) new_result) = []).
  { unfold check_M4. destruct raw_formula as [raw|]; [|reflexivity].
    cbn [truthy] in Hraw. now rewrite Hraw. }
  assert (E5 : errors (check_M5 re_search raw_formula (fmt (or_else caption name))
                                new_result) = []).
  { unfold check_M5. destruct raw_formula as [raw|]; [|reflexivity].
    cbn [truthy] in Hraw. now rewrite Hraw. }
  destruct (validate_comment_cases re_search re_match formula caption name
              raw_formula calc_class res)
    as [(m & E & _)|[(f & E & _)|(f & Hb & Hf & Hs)]]; fold r in E || idtac.
  - rewrite E. now split.
  - rewrite E. cbn [error errors]. rewrite !of_rule_app. cbn.
    now rewrite !app_nil_r.
  - subst r.
    rewrite (validate_comment_reached re_search re_match _ caption name
               raw_formula calc_class f res Hb Hf Hs).
    rewrite E4, E5, !app_nil_r, !of_rule_app.
    rewrite (of_rule_other "M3" "M4" _ (check_M3_errors re_match _ _ _) eq_refl).
    rewrite (of_rule_other "M3" "M5" _ (check_M3_errors re_match _ _ _) eq_refl).
    now rewrite !app_nil_r.
Qed.

Lemma raw_checks_need_raw_text_witness :
  let r := validate_comment never_search never_match
             (Some (lit "// Margin kept after returns & refunds")) (Some (lit "Net Margin"))
             (Some (lit "[Calculation_1]")) new_result None None in
  of_rule "M4" (errors r) = [] /\ of_rule "M5" (errors r) = [].
Proof.
  apply (raw_checks_need_raw_text never_search never_match
           (Some (lit "// Margin kept after returns & refunds")) (Some (lit "Net Margin"))
           (Some (lit "[Calculation_1]")) None None new_result).
  reflexivity.
Defined.

(** ** The folder rules one by one *)

(** X12: when the containment element exists, F9 records exactly one entry:
    a failure when it holds more than [MAX_FOLDERS] = 6 folders, a pass
    otherwise; nothing else in the document plays a part. *)
Theorem F9_verdict (root : node) (calcs : list node) (res : ValidationResult)
    (fc : node) :
  find_desc root "folders-common" = Some fc ->
  let n := List.length (findall fc "folder") in
  let r := validate_folders root calcs res in
  of_rule "F9" (errors r)
  = of_rule "F9" (errors res) ++ (if (6 <? n)%nat then [F9_failure n] else [])
  /\
  of_rule "F9" (passes r)
  = of_rule "F9" (passes res) ++ (if (6 <? n)%nat then [] else [F9_pass n]).
Proof.
  intros Hfc n r.
  destruct (proj2 (folder_rules_behind_F2 root calcs res) fc Hfc F9) as [He Hp].
  cbn [rule_name folder_check] in He, Hp. fold r in He, Hp.
  rewrite He, Hp. unfold check_F9. fold n.
  change (MAX_FOLDERS <? n)%nat with (6 <? n)%nat.
  now destruct (6 <? n)%nat.
Qed.

Lemma F9_verdict_witness :
  let r := validate_folders (doc untidy_workbook)
                            (calculations_of (doc untidy_workbook)) new_result in
  of_rule "F9" (errors r) = [F9_failure 7] /\ of_rule "F9" (passes r) = [].
Proof.
  exact (F9_verdict (doc untidy_workbook) (calculations_of (doc untidy_workbook))
           new_result ([0; 0; 7]%nat, untidy_folders_common) eq_refl).
Defined.

(** X13: in a document without a layout element, F3 and F7 record nothing,
    neither a pass nor a failure. *)
Theorem no_layout_no_F3_F7 (root : node) (calcs : list node)
    (res : ValidationResult) (fc : node) (k : folder_rule) :
  find_desc root "folders-common" = Some fc ->
  find_desc root "layout" = None ->
  k = F3 \/ k = F7 ->
  let r := validate_folders root calcs res in
  of_rule (rule_name k) (errors r) = of_rule (rule_name k) (errors res)
  /\ of_rule (rule_name k) (passes r) = of_rule (rule_name k) (passes res).
Proof.
  intros Hfc Hlay Hk r.
  destruct (proj2 (folder_rules_behind_F2 root calcs res) fc Hfc k) as [He Hp].
  fold r in He, Hp. rewrite He, Hp.
  destruct Hk as [-> | ->]; cbn [folder_check]; rewrite Hlay; cbn;
    now rewrite !app_nil_r.
Qed.

Lemma no_layout_no_F3_F7_witness :
  let r := validate_folders (doc sample_without_layout)
                            (calculations_of (doc sample_without_layout)) new_result in
  of_rule "F7" (errors r) = [] /\ of_rule "F7" (passes r) = [].
Proof.
  exact (no_layout_no_F3_F7 (doc sample_without_layout)
           (calculations_of (doc sample_without_layout)) new_result
           ([0; 0; 1]%nat, sample_folders_common 1) F7 eq_refl eq_refl
           (or_intror eq_refl)).
Defined.

(** ** Positions in the tree *)

Lemma Element_children_ind (P : Element -> Prop) :
  (forall t a cs, Forall P cs -> P (Elem t a cs)) -> forall e, P e.
Proof.
  intros H. fix IH 1. intros [t a cs]. apply H.
  induction cs as [|c cs IHcs]; constructor; [apply IH|exact IHcs].
Qed.

Lemma iter_at_unfold (p : path) (t : str) (a : list (str * str)) (cs : list Element) :
  iter_at p (Elem t a cs)
  = (p, Elem t a cs)
    :: flat_map (fun n => iter_at (fst n) (snd n)) (number_from p 0 cs).
Proof.
  cbn [iter_at]. f_equal. generalize 0%nat.
  induction cs as [|c cs IH]; intros i; [reflexivity|].
  cbn [number_from flat_map fst snd]. now rewrite IH.
Qed.

Lemma number_from_In (p : path) (k : nat) (cs : list Element) (n : node) :
  In n (number_from p k cs) ->
  exists i, fst n = p ++ [(k + i)%nat] /\ nth_error cs i = Some (snd n).
Proof.
  revert k. induction cs as [|c cs IH]; intros k; cbn [number_from]; [intros []|].
  intros [<-|H].
  - exists 0%nat. cbn. now rewrite Nat.add_0_r.
  - destruct (IH (S k) H) as (i & Hi & Hn). exists (S i). split; [|assumption].
    rewrite Hi. do 2 f_equal. lia.
Qed.

(** Every element that [iter] yields sits at its path below the root. *)
Lemma iter_at_elem_at (e : Element) :
  forall p n, In n (iter_at p e) ->
  exists rel, fst n = p ++ rel /\ elem_at e rel = Some (snd n).
Proof.
  induction e as [t a cs IH] using Element_children_ind.
  intros p n. rewrite iter_at_unfold. intros [<-|H].
  - exists []. cbn. now rewrite app_nil_r.
  - apply in_flat_map in H. destruct H as (c & Hc & Hn).
    destruct (number_from_In _ _ _ _ Hc) as (i & Hi & Hnth). cbn in Hi.
    rewrite Forall_forall in IH.
    destruct (IH (snd c) (nth_error_In _ _ Hnth) (fst c) n Hn) as (rel & Hrel & He).
    exists (i :: rel). split.
    + rewrite Hrel, Hi, <- app_assoc. reflexivity.
    + cbn [elem_at children_of]. now rewrite Hnth.
Qed.

(** Every element after the first that [iter] yields is a child of an element
    that [iter] yields. *)
Lemma iter_at_parent (e : Element) :
  forall p n, In n (tl (iter_at p e)) ->
  exists parent, In parent (iter_at p e) /\ In n (kids parent).
Proof.
  induction e as [t a cs IH] using Element_children_ind.
  intros p n. rewrite iter_at_unfold. cbn [tl]. intros H.
  apply in_flat_map in H. destruct H as (c & Hc & Hn).
  destruct (number_from_In _ _ _ _ Hc) as (i & Hi & Hnth).
  rewrite Forall_forall in IH.
  pose proof (IH (snd c) (nth_error_In _ _ Hnth) (fst c) n) as IHc.
  destruct (snd c) as [t' a' cs'] eqn:Ec.
  rewrite iter_at_unfold in Hn. destruct Hn as [<-|Hn].
  - exists (p, Elem t a cs). split; [now left|].
    unfold kids. cbn [fst snd children_of]. rewrite <- Ec.
    now rewrite <- surjective_pairing.
  - rewrite iter_at_unfold in IHc. cbn [tl] in IHc.
    destruct (IHc Hn) as (parent & Hp & Hk).
    exists parent. split; [|assumption]. right.
    apply in_flat_map. exists c. split; [assumption|]. rewrite Ec.
    now rewrite iter_at_unfold.
Qed.

Lemma In_node_in (n : node) (l : list node) : In n l -> node_in n l = true.
Proof.
  intros H. apply existsb_exists. exists n. split; [assumption|].
  now apply same_node_eq.
Qed.

Lemma kids_path (parent n : node) :
  In n (kids parent) -> exists i, fst n = fst parent ++ [i].
Proof.
  intros H. destruct (number_from_In _ _ _ _ H) as (i & Hi & _). now exists i.
Qed.

(** Two siblings found in the document are children of one element that
    [iter] yields. *)
Lemma siblings_share_parent (root a b : node) (p : path) (i j : nat) :
  In a (tl (iter root)) -> In b (tl (iter root)) ->
  fst a = p ++ [i] -> fst b = p ++ [j] ->
  exists parent, In parent (iter root) /\ In a (kids parent) /\ In b (kids parent).
Proof.
  intros Ha Hb Hi Hj. unfold iter in *.
  destruct (iter_at_parent _ _ _ Ha) as (pa & Hpa & Hka).
  destruct (iter_at_parent _ _ _ Hb) as (pb & Hpb & Hkb).
  exists pa. repeat split; try assumption.
  destruct (kids_path _ _ Hka) as (i' & Hi').
  destruct (kids_path _ _ Hkb) as (j' & Hj').
  rewrite Hi in Hi'. rewrite Hj in Hj'.
  apply app_inj_tail in Hi', Hj'. destruct Hi' as [Hp1 _]. destruct Hj' as [Hp2 _].
  destruct (iter_at_elem_at _ _ _ Hpa) as (ra & Hra & Hea).
  destruct (iter_at_elem_at _ _ _ Hpb) as (rb & Hrb & Heb).
  assert (ra = rb).
  { apply (app_inv_head (fst root)). congruence. }
  subst rb. assert (pa = pb).
  { destruct pa as [qa ea], pb as [qb eb]. cbn in *. f_equal; congruence. }
  now subst pb.
Qed.

Lemma find_desc_In (root n : node) (t : string) :
  find_desc root t = Some n -> In n (tl (iter root)).
Proof.
  unfold find_desc, findall_desc. intros H.
  destruct (filter (has_tag t) (tl (iter root))) as [|x l] eqn:E; [discriminate|].
  injection H as ->.
  assert (K : In n (filter (has_tag t) (tl (iter root)))) by (rewrite E; now left).
  now apply filter_In in K.
Qed.

(** What F3 records for two siblings at positions [i] and [j]. *)
Lemma check_F3_siblings (root fc lay : node) (p : path) (i j : nat)
    (res : ValidationResult) :
  In fc (tl (iter root)) -> In lay (tl (iter root)) ->
  fst fc = p ++ [i] -> fst lay = p ++ [j] ->
  check_F3 root fc (Some lay) res
  = if (j <? i)%nat
    then error (lit "F3") (lit "XML") (lit "<folders-common> must appear before <layout>") res
    else passed (lit "F3") (lit "XML") (lit "<folders-common> is before <layout>") res.
Proof.
  intros Ha Hb Hi Hj.
  destruct (siblings_share_parent root fc lay p i j Ha Hb Hi Hj)
    as (par & Hpar & Hka & Hkb).
  unfold check_F3.
  destruct (List.find _ (iter root)) as [parent|] eqn:E.
  - apply find_some in E. destruct E as [_ E]. apply andb_true_iff in E.
    destruct E as [E1 E2]. rewrite E1, E2. unfold kids in *.
    destruct (node_in_number_from _ _ _ _ E1) as (i' & Hi' & Bi).
    destruct (node_in_number_from _ _ _ _ E2) as (j' & Hj' & Bj).
    rewrite (node_index_number_from _ _ _ _ _ Hi' Bi).
    rewrite (node_index_number_from _ _ _ _ _ Hj' Bj).
    rewrite Hi in Hi'. rewrite Hj in Hj'.
    apply app_inj_tail in Hi', Hj'. destruct Hi' as [_ <-]. destruct Hj' as [_ <-].
    rewrite !Nat.sub_0_r.
    replace (Z.of_nat j =? -1)%Z with false by (symmetry; apply Z.eqb_neq; lia).
    cbn [negb]. rewrite andb_true_r.
    destruct (Nat.ltb_spec j i);
      [replace (Z.of_nat j <? Z.of_nat i)%Z with true
         by (symmetry; apply Z.ltb_lt; lia)
      |replace (Z.of_nat j <? Z.of_nat i)%Z with false
         by (symmetry; apply Z.ltb_ge; lia)];
      reflexivity.
  - exfalso. pose proof (find_none _ _ E par Hpar) as K. cbn beta in K.
    rewrite (In_node_in _ _ Hka), (In_node_in _ _ Hkb) in K. discriminate.
Qed.

(** X14: when the containment element and the layout element are children
    of one element, at positions [i] and [j], F3 records exactly one entry:
    a failure when the layout element comes first ([j < i]), a pass
    otherwise. *)
Theorem F3_verdict_for_siblings (root : node) (calcs : list node)
    (res : ValidationResult) (fc lay : node) (p : path) (i j : nat) :
  find_desc root "folders-common" = Some fc ->
  find_desc root "layout" = Some lay ->
  fst fc = p ++ [i] -> fst lay = p ++ [j] ->
  let r := validate_folders root calcs res in
  of_rule "F3" (errors r)
  = of_rule "F3" (errors res) ++ (if (j <? i)%nat then [F3_failure] else [])
  /\
  of_rule "F3" (passes r)
  = of_rule "F3" (passes res) ++ (if (j <? i)%nat then [] else [F3_pass]).
Proof.
  intros Hfc Hlay Hi Hj r.
  destruct (proj2 (folder_rules_behind_F2 root calcs res) fc Hfc F3) as [He Hp].
  cbn [rule_name folder_check] in He, Hp. fold r in He, Hp.
  rewrite He, Hp, Hlay.
  rewrite (check_F3_siblings root fc lay p i j new_result
             (find_desc_In _ _ _ Hfc) (find_desc_In _ _ _ Hlay) Hi Hj).
  now destruct (j <? i)%nat.
Qed.

Lemma F3_verdict_for_siblings_witness :
  let r := validate_folders (doc untidy_workbook)
                            (calculations_of (doc untidy_workbook)) new_result in
  of_rule "F3" (errors r) = [F3_failure] /\ of_rule "F3" (passes r) = [].
Proof.
  exact (F3_verdict_for_siblings (doc untidy_workbook)
           (calculations_of (doc untidy_workbook)) new_result
           ([0; 0; 7]%nat, untidy_folders_common)
           ([0; 0; 6]%nat, el "layout" [attr "show-structure" (lit "false")] [])
           [0; 0]%nat 7%nat 6%nat eq_refl eq_refl eq_refl eq_refl).
Defined.

(** X15: when the containment element and the layout element have
    different parents, F3 records nothing, neither a pass nor a failure. *)
Theorem F3_silent_for_non_siblings (root : node) (calcs : list node)
    (res : ValidationResult) (fc lay : node) :
  find_desc root "folders-common" = Some fc ->
  find_desc root "layout" = Some lay ->
  removelast (fst fc) <> removelast (fst lay) ->
  let r := validate_folders root calcs res in
  of_rule "F3" (errors r) = of_rule "F3" (errors res)
  /\ of_rule "F3" (passes r) = of_rule "F3" (passes res).
Proof.
  intros Hfc Hlay Hne r.
  destruct (proj2 (folder_rules_behind_F2 root calcs res) fc Hfc F3) as [He Hp].
  cbn [rule_name folder_check] in He, Hp. fold r in He, Hp.
  rewrite He, Hp, Hlay.
  assert (E : check_F3 root fc (Some lay) new_result = new_result).
  { unfold check_F3.
    destruct (List.find _ (iter root)) as [parent|] eqn:E; [|reflexivity].
    exfalso. apply find_some in E. destruct E as [_ E]. apply andb_true_iff in E.
    destruct E as [E1 E2]. unfold kids in *.
    destruct (node_in_number_from _ _ _ _ E1) as (i' & Hi' & _).
    destruct (node_in_number_from _ _ _ _ E2) as (j' & Hj' & _).
    apply Hne. now rewrite Hi', Hj', !removelast_last. }
  rewrite E. cbn. now rewrite !app_nil_r.
Qed.

Lemma F3_silent_for_non_siblings_witness :
  let r := validate_folders (doc sample_layout_elsewhere)
                            (calculations_of (doc sample_layout_elsewhere)) new_result in
  of_rule "F3" (errors r) = [] /\ of_rule "F3" (passes r) = [].
Proof.
  refine (F3_silent_for_non_siblings (doc sample_layout_elsewhere)
            (calculations_of (doc sample_layout_elsewhere)) new_result
            ([0; 0; 1]%nat, sample_folders_common 1) ([1; 0]%nat, sample_layout)
            eq_refl eq_refl _).
  vm_compute. discriminate.
Defined.

Lemma check_duplicates_none (msg : str) (items seen : list str) :
  errors (check_duplicates msg items seen new_result) = []
  <-> NoDup items /\ forall x, In x items -> ~ In x seen.
Proof.
  split.
  - revert seen. induction items as [|x items IH]; intros seen H.
    + split; [constructor|intros x []].
    + cbn [check_duplicates] in H.
      rewrite (proj1 (check_duplicates_of msg items (x :: seen))) in H.
      cbn [app_res errors] in H. apply app_eq_nil in H. destruct H as [H1 H2].
      destruct (mem x seen) eqn:E; [discriminate|].
      destruct (IH _ H2) as [Hn Hs].
      assert (Hx : ~ In x seen).
      { intros K. apply mem_In in K. congruence. }
      split.
      * constructor; [|assumption]. intros K. apply (Hs x K). now left.
      * intros y [<-|Hy]; [assumption|]. intros K. apply (Hs y Hy). now right.
  - intros [Hn Hs]. now rewrite check_duplicates_fresh.
Qed.

(** X16: F11 records no failure exactly when the folder names are pairwise
    distinct and the markers found at the start of the names are pairwise
    distinct. *)
Theorem F11_passes_iff_distinct (root : node) (calcs : list node) (fc : node) :
  find_desc root "folders-common" = Some fc ->
  of_rule "F11" (errors (validate_folders root calcs new_result)) = []
  <-> NoDup (folder_names_of (findall fc "folder"))
      /\ NoDup (folder_emojis_of (findall fc "folder")).
Proof.
  intros Hfc.
  destruct (proj2 (folder_rules_behind_F2 root calcs new_result) fc Hfc F11) as [He _].
  cbn [rule_name folder_check] in He. rewrite He. cbn [errors new_result of_rule filter app].
  rewrite check_F11_errors. split.
  - intros H. apply app_eq_nil in H. destruct H as [H1 H2].
    apply check_duplicates_none in H1, H2. now split.
  - intros [H1 H2].
    rewrite (proj2 (check_duplicates_none _ _ []))
      by (split; [assumption|intros x _ []]).
    now rewrite (proj2 (check_duplicates_none _ _ []))
      by (split; [assumption|intros x _ []]).
Qed.

Lemma F11_passes_iff_distinct_witness :
  of_rule "F11" (errors (validate_folders (doc (sample_workbook 3))
                           (calculations_of (doc (sample_workbook 3))) new_result)) = [].
Proof.
  apply (proj2 (F11_passes_iff_distinct (doc (sample_workbook 3))
                  (calculations_of (doc (sample_workbook 3)))
                  ([0; 0; 3]%nat, sample_folders_common 3) eq_refl)).
  split; vm_compute; repeat constructor; cbn; intuition discriminate.
Defined.

(** ** Which rules a run can record *)

Lemma within_id (es ps : list string) : within es ps (fun res => res).
Proof. repeat split; [exact appends_id|constructor|constructor]. Qed.

Lemma within_weaken (es ps es' ps' : list string)
    (f : ValidationResult -> ValidationResult) :
  incl es es' -> incl ps ps' -> within es ps f -> within es' ps' f.
Proof.
  intros He Hp (Ha & H1 & H2). repeat split; [assumption| |].
  - revert H1. apply Forall_impl. intros e. apply incl_map. exact He.
  - revert H2. apply Forall_impl. intros e. apply incl_map. exact Hp.
Qed.

Lemma within_compose (es ps : list string)
    (f g : ValidationResult -> ValidationResult) :
  within es ps f -> within es ps g -> within es ps (fun res => g (f res)).
Proof.
  intros (Hf & Hfe & Hfp) (Hg & Hge & Hgp). repeat split.
  - now apply appends_compose.
  - rewrite (Hg (f new_result)). cbn [app_res errors]. apply Forall_app. now split.
  - rewrite (Hg (f new_result)). cbn [app_res passes]. apply Forall_app. now split.
Qed.

Lemma within_for_each {A : Type} (es ps : list string)
    (body : A -> ValidationResult -> ValidationResult) (l : list A) :
  (forall x, within es ps (body x)) -> within es ps (for_each body l).
Proof.
  intros H. induction l as [|x l IH]; [apply within_id|].
  exact (within_compose es ps (body x) (for_each body l) (H x) IH).
Qed.

Lemma within_check (r : string) (f : ValidationResult -> ValidationResult) :
  check_of r f -> within [r] [r] f.
Proof.
  intros (Ha & He & Hp). repeat split; [assumption| |].
  - revert He. apply Forall_impl. intros e ->. now left.
  - revert Hp. apply Forall_impl. intros e ->. now left.
Qed.

Lemma within_silent (es ps : list string) (f : ValidationResult -> ValidationResult) :
  within es ps f -> (forall res, passes (f res) = passes res) -> within es [] f.
Proof.
  intros (Ha & He & _) H. repeat split; [assumption|assumption|].
  rewrite H. constructor.
Qed.

Lemma within_silent_check (r : string) (f : ValidationResult -> ValidationResult) :
  check_of r f -> (forall res, passes (f res) = passes res) -> within [r] [] f.
Proof. intros H. apply within_silent with (ps := [r]). now apply within_check. Qed.

Lemma within_faultless_check (r : string) (f : ValidationResult -> ValidationResult) :
  check_of r f -> (forall res, errors (f res) = errors res) -> within [] [r] f.
Proof.
  intros (Ha & _ & Hp) H. repeat split; [assumption| |].
  - rewrite H. constructor.
  - revert Hp. apply Forall_impl. intros e ->. now left.
Qed.

(** Entries whose rules are among [rs] hold none of a rule outside [rs]. *)
Lemma of_rule_absent (k : string) (rs : list string) (l : list Entry) :
  Forall (fun e => In (rule e) (map lit rs)) l ->
  existsb (str_eqb (lit k)) (map lit rs) = false ->
  of_rule k l = [].
Proof.
  intros H Hk. induction H as [|e l He Hl IH]; [reflexivity|].
  unfold of_rule in *. cbn [filter]. rewrite IH.
  destruct (str_eqb (rule e) (lit k)) eqn:E; [|reflexivity].
  apply str_eqb_eq in E.
  assert (K : existsb (str_eqb (lit k)) (map lit rs) = true).
  { apply existsb_exists. exists (rule e). split; [assumption|].
    rewrite E. apply str_eqb_refl. }
  congruence.
Qed.

Ltac incl_lists :=
  intros ? ?; cbn in *;
  repeat match goal with
         | H : _ \/ _ |- _ => destruct H as [H|H]
         | H : False |- _ => contradiction
         end; subst; tauto.

Lemma within_ext (es ps : list string) (f g : ValidationResult -> ValidationResult) :
  (forall res, f res = g res) -> within es ps f -> within es ps g.
Proof.
  intros E (Ha & He & Hp). repeat split.
  - now apply (appends_ext f g).
  - now rewrite <- E.
  - now rewrite <- E.
Qed.

Lemma within_error (es ps : list string) (r : string) (f m : str) :
  In r es -> within es ps (error (lit r) f m).
Proof.
  intros H. repeat split; [apply appends_error| |constructor].
  repeat constructor. cbn. now apply in_map.
Qed.

Lemma within_passed (es ps : list string) (r : string) (f m : str) :
  In r ps -> within es ps (passed (lit r) f m).
Proof.
  intros H. repeat split; [apply appends_passed|constructor|].
  repeat constructor. cbn. now apply in_map.
Qed.

Lemma within_parts (r : string) (f : ValidationResult -> ValidationResult) :
  appends f -> only_rule r (errors (f new_result)) ->
  (forall res, passes (f res) = passes res) -> within [r] [] f.
Proof.
  intros Ha He Hp. repeat split; [assumption| |rewrite Hp; constructor].
  revert He. apply Forall_impl. intros e ->. now left.
Qed.

Lemma check_duplicates_keeps_passes (msg : str) (items seen : list str)
    (res : ValidationResult) :
  passes (check_duplicates msg items seen res) = passes res.
Proof.
  revert seen res. induction items as [|x items IH]; intros seen res; [reflexivity|].
  cbn [check_duplicates]. rewrite IH. now destruct (mem x seen).
Qed.

Lemma validate_caption_within (re_search : str -> list re_flag -> str -> option str)
    (caption name : option str) :
  within caption_rules [] (validate_caption re_search caption name).
Proof.
  apply within_silent with (ps := caption_rules);
    [|apply validate_caption_keeps_passes].
  unfold validate_caption. set (d := fmt (or_else caption name)).
  assert (W : forall r f, In r ["C1"; "C2"; "C3"; "C4"; "C5"]%string -> check_of r f ->
                within caption_rules caption_rules f).
  { intros r f Hr Hf. apply within_check in Hf. revert Hf.
    apply within_weaken; intros x [<-|[]]; exact Hr. }
  apply (within_compose _ _
           (fun res => check_C4 re_search caption d
                         (check_C3 caption d (check_C2 caption d (check_C1 caption d res))))
           (check_C5 re_search caption d));
    [|apply (W "C5"%string); [cbn; tauto|apply check_C5_of]].
  apply (within_compose _ _
           (fun res => check_C3 caption d (check_C2 caption d (check_C1 caption d res)))
           (check_C4 re_search caption d));
    [|apply (W "C4"%string); [cbn; tauto|apply check_C4_of]].
  apply (within_compose _ _
           (fun res => check_C2 caption d (check_C1 caption d res))
           (check_C3 caption d));
    [|apply (W "C3"%string); [cbn; tauto|apply check_C3_of]].
  apply (within_compose _ _ (check_C1 caption d) (check_C2 caption d)).
  - apply (W "C1"%string); [cbn; tauto|apply check_C1_of].
  - apply (W "C2"%string); [cbn; tauto|apply check_C2_of].
Qed.

Lemma validate_comment_within (re_search : str -> list re_flag -> str -> option str)
    (re_match : str -> list re_flag -> str -> bool)
    (formula caption name raw_formula calc_class : option str) :
  within comment_failing comment_passing
         (fun res => validate_comment re_search re_match formula caption name res
                                      raw_formula calc_class).
Proof.
  unfold validate_comment. set (d := fmt (or_else caption name)).
  destruct (is_bin_class calc_class); [apply within_passed; cbn; tauto|].
  destruct formula as [f|]; [|apply within_passed; cbn; tauto].
  destruct (negb (nonempty (if nonempty f then strip f else [])));
    [apply within_passed; cbn; tauto|].
  destruct (negb (startswith (lit "//") (if nonempty f then strip f else [])));
    [apply within_error; cbn; tauto|].
  set (fs := if nonempty f then strip f else []).
  assert (W : forall r g, In r ["M3"; "M4"; "M5"]%string -> within [r] [] g ->
                within comment_failing comment_passing g).
  { intros r g Hr. apply within_weaken; [|intros x []].
    intros x [<-|[]]. cbn in *. tauto. }
  apply (within_compose _ _
           (fun res => check_M4 raw_formula d
                         (check_M3 re_match fs caption d
                            (passed (lit "M2") d (lit "starts with //")
                               (passed (lit "M1") d (lit "has comment") res))))
           (check_M5 re_search raw_formula d)).
  2:{ apply (W "M5"%string); [cbn; tauto|].
      apply within_parts; [apply check_M5_appends|apply check_M5_errors|].
      apply check_M5_keeps_passes. }
  apply (within_compose _ _
           (fun res => check_M3 re_match fs caption d
                         (passed (lit "M2") d (lit "starts with //")
                            (passed (lit "M1") d (lit "has comment") res)))
           (check_M4 raw_formula d)).
  2:{ apply (W "M4"%string); [cbn; tauto|].
      apply within_parts; [apply check_M4_appends| |apply check_M4_keeps_passes].
      rewrite check_M4_errors. destruct raw_formula as [raw|]; [|constructor].
      destruct (_ && _); [apply only_rule_one|constructor]. }
  apply (within_compose _ _
           (fun res => passed (lit "M2") d (lit "starts with //")
                         (passed (lit "M1") d (lit "has comment") res))
           (check_M3 re_match fs caption d)).
  2:{ apply (W "M3"%string); [cbn; tauto|].
      apply within_parts; [apply check_M3_appends|apply check_M3_errors|].
      apply check_M3_keeps_passes. }
  apply (within_compose _ _ (passed (lit "M1") d (lit "has comment"))
           (passed (lit "M2") d (lit "starts with //")));
    apply within_passed; cbn; tauto.
Qed.

Lemma folder_check_within (root : node) (calcs : list node) (fc : node) (k : folder_rule) :
  within folder_failing folder_passing
         (folder_check root calcs fc k).
Proof.
  pose proof (folder_check_of root calcs fc k) as H.
  assert (S : (forall res, passes (folder_check root calcs fc k res) = passes res) ->
              within folder_failing folder_passing (folder_check root calcs fc k)).
  { intros Hp. apply (within_silent_check _ _ H) in Hp. revert Hp.
    apply within_weaken; [|intros x []].
    intros x [<-|[]]. destruct k; cbn; tauto. }
  assert (L : In (rule_name k) ["F3"; "F4"; "F7"; "F9"]%string ->
              within folder_failing folder_passing (folder_check root calcs fc k)).
  { intros Hk. apply within_check in H. revert H.
    apply within_weaken; intros x [<-|[]]; destruct k; cbn in *; tauto. }
  destruct k; try (apply L; cbn; tauto); apply S; intros res; cbn [folder_check].
  - apply for_each_keeps_passes. intros x r. unfold check_F5_folder.
    now destruct (truthy _).
  - apply for_each_keeps_passes. intros x r. unfold check_F1_calc.
    destruct (get (snd x) "name"); [|reflexivity].
    destruct (_ && _); [|reflexivity]. now destruct (_ && _).
  - apply for_each_keeps_passes. intros x r.
    apply for_each_keeps_passes. intros y r'. unfold check_F6_item.
    now destruct (_ && _).
  - apply for_each_keeps_passes. intros x r. unfold check_F8_folder.
    now destruct (_ && _).
  - apply for_each_keeps_passes. intros x r. unfold check_F10_folder.
    now destruct (emoji_pattern_match _).
  - unfold check_F11. now rewrite !check_duplicates_keeps_passes.
Qed.

Lemma validate_folders_within (root : node) (calcs : list node) :
  within folder_failing folder_passing
         (validate_folders root calcs).
Proof.
  destruct (find_desc root "folders-common") as [fc|] eqn:Hfc.
  - apply (within_ext _ _
             (fun res => for_each (folder_check root calcs fc) evaluation_order
                           (passed (lit "F2") (lit "XML") (lit "<folders-common> exists") res))).
    + intros res. symmetry. now apply validate_folders_found.
    + apply (within_compose _ _
               (passed (lit "F2") (lit "XML") (lit "<folders-common> exists"))
               (for_each (folder_check root calcs fc) evaluation_order)).
      * apply within_passed. cbn. tauto.
      * apply within_for_each. intros k. apply folder_check_within.
  - apply (within_ext _ _
             (error (lit "F2") (lit "XML") (lit "Missing <folders-common> element"))).
    + intros res. unfold validate_folders. now rewrite Hfc.
    + apply within_error. cbn. tauto.
Qed.

Lemma validate_safety_within (path_exists : str -> bool) (twb_path : str)
    (backup_path original_path : option str) :
  within safety_rules safety_rules
         (validate_safety path_exists twb_path backup_path original_path).
Proof.
  apply (within_compose _ _
           (fun res => match backup_path with
                       | Some bp =>
                           if nonempty bp then
                             if path_exists bp
                             then passed (lit "S2") (lit "backup") (lit "exists at " ++ bp) res
                             else error (lit "S2") (lit "backup") (lit "not found at " ++ bp) res
                           else res
                       | None => res
                       end)
           (fun res => if contains (lit "_cleaned") twb_path then
                         passed (lit "S3") (lit "output") (lit "is _cleaned copy") res
                       else
                         match original_path with
                         | Some op =>
                             if nonempty op && str_eqb twb_path op then
                               error (lit "S3") (lit "output")
                                     (lit "original file was modified instead of _cleaned copy")
                                     res
                             else res
                         | None => res
                         end)).
  - destruct backup_path as [bp|]; [|apply within_id].
    destruct (nonempty bp); [|apply within_id].
    destruct (path_exists bp); [apply within_passed|apply within_error]; cbn; tauto.
  - destruct (contains (lit "_cleaned") twb_path); [apply within_passed; cbn; tauto|].
    destruct original_path as [op|]; [|apply within_id].
    destruct (_ && _); [apply within_error; cbn; tauto|apply within_id].
Qed.

Lemma verdicts_appends (k : string) (f : ValidationResult -> ValidationResult)
    (res : ValidationResult) :
  appends f -> verdicts k (f res) = (verdicts k res + verdicts k (f new_result))%nat.
Proof.
  intros H. rewrite (H res). unfold verdicts. cbn [app_res errors passes].
  rewrite !of_rule_app, !length_app. lia.
Qed.

Lemma verdicts_outside (k : string) (es ps : list string)
    (f : ValidationResult -> ValidationResult) (res : ValidationResult) :
  within es ps f ->
  existsb (str_eqb (lit k)) (map lit es) = false ->
  existsb (str_eqb (lit k)) (map lit ps) = false ->
  verdicts k (f res) = verdicts k res.
Proof.
  intros (Ha & He & Hp) Hes Hps. rewrite (verdicts_appends k f res Ha).
  unfold verdicts at 2.
  rewrite (of_rule_absent k es _ He Hes), (of_rule_absent k ps _ Hp Hps).
  cbn. lia.
Qed.

Lemma verdicts_for_each {A : Type} (k : string)
    (body : A -> ValidationResult -> ValidationResult) (l : list A) (d : nat) :
  (forall x res, verdicts k (body x res) = (verdicts k res + d)%nat) ->
  forall res, verdicts k (for_each body l res)
              = (verdicts k res + d * List.length l)%nat.
Proof.
  intros H. induction l as [|x l IH]; intros res; [cbn; lia|].
  rewrite for_each_cons, IH, H. cbn [List.length]. lia.
Qed.

Section RunProperties.

Variable re_search : str -> list re_flag -> str -> option str.
Variable re_match : str -> list re_flag -> str -> bool.
Variable re_finditer : str -> list re_flag -> str -> list (str * str).
Variable path_exists : str -> bool.
Variable read_text : str -> str + str.
Variable fromstring : str -> Element + parse_failure.

Let run := validate_workbook re_search re_match re_finditer path_exists
                             read_text fromstring.
Let exit_status := main re_search re_match re_finditer path_exists read_text fromstring.
Let checks := checks_after_parse re_search re_match path_exists.

Lemma caption_loop_within (calcs : list node) :
  within caption_rules [] (caption_loop re_search calcs).
Proof.
  unfold caption_loop. apply within_for_each. intros col.
  apply validate_caption_within.
Qed.

Lemma comment_loop_within (raw_formulas : list (str * str)) (calcs : list node) :
  within comment_failing comment_passing
         (comment_loop re_search re_match raw_formulas calcs).
Proof.
  unfold comment_loop. apply within_for_each. intros col.
  unfold comment_of. apply validate_comment_within.
Qed.

Lemma checks_within (raw_formulas : list (str * str)) (root : node) (twb_path : str)
    (backup_path original_path : option str) :
  within failing_rules passing_rules
         (checks raw_formulas root twb_path backup_path original_path).
Proof.
  unfold checks, checks_after_parse.
  apply (within_compose _ _
           (fun res => validate_folders root (calculations_of root)
                         (comment_loop re_search re_match raw_formulas (calculations_of root)
                            (caption_loop re_search (calculations_of root) res)))
           (fun res => if truthy backup_path || truthy original_path
                       then validate_safety path_exists twb_path backup_path
                                            original_path res
                       else res)).
  2:{ destruct (_ || _); [|apply within_id].
      generalize (validate_safety_within path_exists twb_path backup_path original_path).
      apply within_weaken; incl_lists. }
  apply (within_compose _ _
           (fun res => comment_loop re_search re_match raw_formulas (calculations_of root)
                         (caption_loop re_search (calculations_of root) res))
           (validate_folders root (calculations_of root))).
  2:{ generalize (validate_folders_within root (calculations_of root)).
      apply within_weaken; incl_lists. }
  apply (within_compose _ _
           (caption_loop re_search (calculations_of root))
           (comment_loop re_search re_match raw_formulas (calculations_of root))).
  - generalize (caption_loop_within (calculations_of root)).
    apply within_weaken; incl_lists.
  - generalize (comment_loop_within raw_formulas (calculations_of root)).
    apply within_weaken; incl_lists.
Qed.

(** The run on a file that is read and parsed. *)
Lemma validate_workbook_parsed (twb_path content : str) (root : Element)
    (backup_path original_path : option str) :
  read_text twb_path = inl content ->
  fromstring content = inl root ->
  run twb_path backup_path original_path
  = Returned (checks (raw_formulas_of re_finditer content) ([], root) twb_path
                     backup_path original_path
                     (mkResult [] [X1_pass])).
Proof.
  intros Hr Hp. unfold run, validate_workbook, validate_xml. now rewrite Hr, Hp.
Qed.

(** The run on a file that cannot be read. *)
Lemma validate_workbook_unreadable (twb_path e : str)
    (backup_path original_path : option str) :
  read_text twb_path = inr e ->
  run twb_path backup_path original_path = Raised e.
Proof. intros Hr. unfold run, validate_workbook. now rewrite Hr. Qed.

(** X17: whatever the file, a run that returns records failures of the
    rules X1, C1-C5, M1, M3-M5, F1-F11, S2 and S3 only, and passes of the
    rules X1, M1, M2, F2, F3, F4, F7, F9, S2 and S3 only: no entry ever
    carries X2, S1 or M6, M2 never fails, and the caption rules never
    pass. *)
Theorem run_records_known_rules (twb_path : str)
    (backup_path original_path : option str) (result : ValidationResult) :
  run twb_path backup_path original_path = Returned result ->
  Forall (fun e => In (rule e) (map lit failing_rules)) (errors result)
  /\ Forall (fun e => In (rule e) (map lit passing_rules)) (passes result).
Proof.
  unfold run, validate_workbook, validate_xml.
  destruct (read_text twb_path) as [content|e]; [|discriminate].
  destruct (fromstring content) as [root|[e|e]].
  - intros [= <-].
    pose proof (within_compose failing_rules passing_rules
                  (passed (lit "X1") (lit "XML") (lit "valid XML"))
                  (checks (raw_formulas_of re_finditer content) ([], root) twb_path
                          backup_path original_path)
                  (within_passed failing_rules passing_rules "X1" _ _ (or_introl eq_refl))
                  (checks_within _ _ _ _ _)) as (_ & He & Hp).
    split; [exact He|exact Hp].
  - intros [= <-]. split; [|constructor]. repeat constructor.
  - intros [= <-]. split; [|constructor]. repeat constructor.
Qed.

(** X18: in a run on a file that is read and parsed, every calculated field
    gets exactly one M1 verdict: the M1 entries of the result, failures and
    passes together, are as many as the columns with a calculation child. *)
Theorem one_M1_verdict_per_calculation (twb_path content : str) (root : Element)
    (backup_path original_path : option str) :
  read_text twb_path = inl content ->
  fromstring content = inl root ->
  exists result,
    run twb_path backup_path original_path = Returned result
    /\ verdicts "M1" result = List.length (calculations_of ([], root)).
Proof.
  intros Hr Hp. eexists. split; [exact (validate_workbook_parsed _ _ _ _ _ Hr Hp)|].
  unfold checks, checks_after_parse.
  set (calcs := calculations_of ([], root)).
  set (raw := raw_formulas_of re_finditer content).
  assert (E : verdicts "M1"
                (validate_folders ([], root) calcs
                   (comment_loop re_search re_match raw calcs
                      (caption_loop re_search calcs (mkResult [] [X1_pass]))))
              = List.length calcs).
  { rewrite (verdicts_outside "M1" _ _ _ _ (validate_folders_within ([], root) calcs)
               eq_refl eq_refl).
    unfold comment_loop.
    rewrite (verdicts_for_each "M1" (comment_of re_search re_match raw) calcs 1).
    - rewrite (verdicts_outside "M1" _ _ _ _ (caption_loop_within calcs) eq_refl eq_refl).
      cbn. lia.
    - intros col res. unfold comment_of, verdicts.
      apply validate_comment_M1_count. }
  destruct (truthy backup_path || truthy original_path); [|exact E].
  now rewrite (verdicts_outside "M1" _ _ _ _
                 (validate_safety_within path_exists twb_path backup_path original_path)
                 eq_refl eq_refl).
Qed.

(** X19: a file that cannot be read makes the run raise at its first read,
    before any entry is recorded, and the process ends with status 1. *)
Theorem unreadable_file_raises (prog twb_path e : str) (args : list str) :
  read_text twb_path = inr e ->
  run twb_path (fst (parse_args args None None)) (snd (parse_args args None None))
  = Raised e
  /\ exit_status (prog :: twb_path :: args) = 1.
Proof.
  intros Hr. split; [now apply validate_workbook_unreadable|].
  unfold exit_status, main. destruct (parse_args args None None) as [b o].
  fold run. now rewrite (validate_workbook_unreadable _ e b o Hr).
Qed.

(** X20: a well-formed workbook without a [folders-common] element below
    its root always fails: the result holds the F2 failure and the exit
    status is 1, whatever the fields and the optional arguments. *)
Theorem no_containment_element_exits_1 (prog twb_path content : str)
    (root : Element) (args : list str) :
  read_text twb_path = inl content ->
  fromstring content = inl root ->
  find_desc ([], root) "folders-common" = None ->
  (exists result,
     run twb_path (fst (parse_args args None None)) (snd (parse_args args None None))
     = Returned result
     /\ In F2_failure (errors result))
  /\ exit_status (prog :: twb_path :: args) = 1.
Proof.
  intros Hr Hp Hfc.
  assert (H : exists result,
            run twb_path (fst (parse_args args None None))
                (snd (parse_args args None None)) = Returned result
            /\ In F2_failure (errors result)).
  { eexists. split; [exact (validate_workbook_parsed _ _ _ _ _ Hr Hp)|].
    unfold checks, checks_after_parse.
    match goal with
    | |- In _ (errors (if ?c then validate_safety _ _ ?b ?o ?r else _)) =>
        assert (K : In F2_failure (errors r));
        [|destruct c; [|exact K];
          rewrite (proj1 (validate_safety_within path_exists twb_path b o) r);
          cbn [app_res errors]; apply in_or_app; now left]
    end.
    unfold validate_folders. rewrite Hfc. cbn [error errors].
    apply in_or_app. right. now left. }
  split; [exact H|]. destruct H as (result & Hrun & Hin).
  unfold exit_status, main. destruct (parse_args args None None) as [b o].
  cbn [fst snd] in Hrun. fold run. rewrite Hrun.
  unfold has_errors. destruct (errors result); [contradiction|reflexivity].
Qed.

(** X21: when neither a backup path nor an original path is supplied, the
    safety rules are not run: the result holds no S2 and no S3 entry,
    whatever the tested path. *)
Theorem no_paths_no_safety_entries (twb_path : str) (backup_path original_path : option str)
    (result : ValidationResult) (k : string) :
  truthy backup_path = false -> truthy original_path = false ->
  k = "S2"%string \/ k = "S3"%string ->
  run twb_path backup_path original_path = Returned result ->
  verdicts k result = 0%nat.
Proof.
  intros Hb Ho Hk. unfold run, validate_workbook, validate_xml.
  destruct (read_text twb_path) as [content|e]; [|discriminate].
  destruct (fromstring content) as [root|[e|e]].
  - intros [= <-]. rewrite Hb, Ho. cbn [orb].
    set (calcs := calculations_of ([], root)).
    assert (Hk' : existsb (str_eqb (lit k)) (map lit folder_failing) = false
                  /\ existsb (str_eqb (lit k)) (map lit folder_passing) = false
                  /\ existsb (str_eqb (lit k)) (map lit comment_failing) = false
                  /\ existsb (str_eqb (lit k)) (map lit comment_passing) = false
                  /\ existsb (str_eqb (lit k)) (map lit caption_rules) = false)
      by (destruct Hk as [-> | ->]; repeat split).
    destruct Hk' as (K1 & K2 & K3 & K4 & K5).
    rewrite (verdicts_outside k _ _ _ _ (validate_folders_within ([], root) calcs) K1 K2).
    rewrite (verdicts_outside k _ _ _ _ (comment_loop_within _ calcs) K3 K4).
    rewrite (verdicts_outside k _ _ _ _ (caption_loop_within calcs) K5 eq_refl).
    now destruct Hk as [-> | ->].
  - intros [= <-]. now destruct Hk as [-> | ->].
  - intros [= <-]. now destruct Hk as [-> | ->].
Qed.

End RunProperties.

Lemma run_records_known_rules_witness :
  exists result,
    validate_workbook never_search never_match no_matches any_path_exists
      (reads (lit "<workbook/>")) (parses_to untidy_workbook)
      (lit "Sales.twb") None (Some (lit "Sales.twb")) = Returned result
    /\ Forall (fun e => In (rule e) (map lit failing_rules)) (errors result)
    /\ Forall (fun e => In (rule e) (map lit passing_rules)) (passes result).
Proof.
  eexists. split; [vm_compute; reflexivity|].
  apply (run_records_known_rules never_search never_match no_matches any_path_exists
           (reads (lit "<workbook/>")) (parses_to untidy_workbook)
           (lit "Sales.twb") None (Some (lit "Sales.twb"))).
  vm_compute. reflexivity.
Defined.

Lemma one_M1_verdict_per_calculation_witness :
  exists result,
    validate_workbook never_search never_match no_matches any_path_exists
      (reads (lit "<workbook/>")) (parses_to untidy_workbook)
      (lit "Sales.twb") None None = Returned result
    /\ verdicts "M1" result = List.length (calculations_of ([], untidy_workbook)).
Proof.
  exact (one_M1_verdict_per_calculation never_search never_match no_matches
           any_path_exists (reads (lit "<workbook/>")) (parses_to untidy_workbook)
           (lit "Sales.twb") (lit "<workbook/>") untidy_workbook None None
           eq_refl eq_refl).
Defined.

Lemma unreadable_file_raises_witness :
  main never_search never_match no_matches any_path_exists
       (cannot_read (lit "[Errno 2] No such file or directory: 'Sales.twb'"))
       (parses_to (sample_workbook 6))
       [lit "validate_cleanup.py"; lit "Sales.twb"] = 1.
Proof.
  exact (proj2 (unreadable_file_raises never_search never_match no_matches
                  any_path_exists
                  (cannot_read (lit "[Errno 2] No such file or directory: 'Sales.twb'"))
                  (parses_to (sample_workbook 6))
                  (lit "validate_cleanup.py") (lit "Sales.twb")
                  (lit "[Errno 2] No such file or directory: 'Sales.twb'") []
                  eq_refl)).
Defined.

Lemma no_containment_element_exits_1_witness :
  main never_search never_match no_matches any_path_exists
       (reads (lit "<workbook/>")) (parses_to sample_without_folders)
       [lit "validate_cleanup.py"; lit "Sales_cleaned.twb"] = 1.
Proof.
  exact (proj2 (no_containment_element_exits_1 never_search never_match no_matches
                  any_path_exists (reads (lit "<workbook/>"))
                  (parses_to sample_without_folders)
                  (lit "validate_cleanup.py") (lit "Sales_cleaned.twb")
                  (lit "<workbook/>") sample_without_folders [] eq_refl eq_refl eq_refl)).
Defined.

Lemma no_paths_no_safety_entries_witness :
  exists result,
    validate_workbook never_search never_match no_matches any_path_exists
      (reads (lit "<workbook/>")) (parses_to (sample_workbook 6))
      (lit "Sales_cleaned.twb") None None = Returned result
    /\ verdicts "S3" result = 0%nat.
Proof.
  eexists. split; [vm_compute; reflexivity|].
  apply (no_paths_no_safety_entries never_search never_match no_matches any_path_exists
           (reads (lit "<workbook/>")) (parses_to (sample_workbook 6))
           (lit "Sales_cleaned.twb") None None _ "S3" eq_refl eq_refl
           (or_intror eq_refl)).
  vm_compute. reflexivity.
Defined.

(** ** The safety rules and the arguments *)

(** X22: S2 records one entry when a non-empty backup path is supplied, a
    pass when the path exists and a failure when it does not, and nothing
    without a backup path. *)
Theorem S2_verdict (path_exists : str -> bool) (twb_path : str)
    (backup_path original_path : option str) (res : ValidationResult) :
  let r := validate_safety path_exists twb_path backup_path original_path res in
  of_rule "S2" (errors r)
  = of_rule "S2" (errors res)
    ++ (if truthy backup_path && negb (path_exists (fmt backup_path))
        then [S2_failure (fmt backup_path)] else [])
  /\
  of_rule "S2" (passes r)
  = of_rule "S2" (passes res)
    ++ (if truthy backup_path && path_exists (fmt backup_path)
        then [S2_pass (fmt backup_path)] else []).
Proof.
  intros r. subst r. unfold validate_safety.
  set (r2 := match backup_path with
             | Some bp => _
             | None => res
             end).
  assert (H2 : of_rule "S2" (errors r2)
               = of_rule "S2" (errors res)
                 ++ (if truthy backup_path && negb (path_exists (fmt backup_path))
                     then [S2_failure (fmt backup_path)] else [])
               /\ of_rule "S2" (passes r2)
                  = of_rule "S2" (passes res)
                    ++ (if truthy backup_path && path_exists (fmt backup_path)
                        then [S2_pass (fmt backup_path)] else [])).
  { subst r2. destruct backup_path as [bp|]; [|cbn; now rewrite !app_nil_r].
    cbn [truthy fmt]. destruct (nonempty bp); [|cbn; now rewrite !app_nil_r].
    destruct (path_exists bp); cbn [error passed errors passes andb negb];
      rewrite ?of_rule_app, ?app_nil_r; now split. }
  destruct H2 as [He Hp].
  destruct (contains (lit "_cleaned") twb_path).
  - cbn [passed errors passes]. rewrite of_rule_app, He, Hp. cbn.
    now rewrite app_nil_r.
  - destruct original_path as [op|]; [|now split].
    destruct (nonempty op && str_eqb twb_path op); [|now split].
    cbn [error errors passes]. rewrite of_rule_app, He, Hp. cbn.
    now rewrite app_nil_r.
Qed.

(** X23: for a tested path without the marker [_cleaned], S3 stays silent
    unless the original path is that very path: with no original path, or
    another one, it records neither a pass nor a failure. *)
Theorem S3_silent_otherwise (path_exists : str -> bool) (twb_path : str)
    (backup_path original_path : option str) (res : ValidationResult) :
  contains (lit "_cleaned") twb_path = false ->
  original_path <> Some twb_path ->
  let r := validate_safety path_exists twb_path backup_path original_path res in
  of_rule "S3" (errors r) = of_rule "S3" (errors res)
  /\ of_rule "S3" (passes r) = of_rule "S3" (passes res).
Proof.
  intros Hc Ho r. subst r. unfold validate_safety. rewrite Hc.
  set (r2 := match backup_path with
             | Some bp => _
             | None => res
             end).
  assert (H2 : of_rule "S3" (errors r2) = of_rule "S3" (errors res)
               /\ of_rule "S3" (passes r2) = of_rule "S3" (passes res)).
  { subst r2. destruct backup_path as [bp|]; [|now split].
    destruct (nonempty bp); [|now split].
    destruct (path_exists bp); cbn [error passed errors passes];
      rewrite of_rule_app; cbn; rewrite app_nil_r; now split. }
  destruct original_path as [op|]; [|exact H2].
  destruct (str_eqb twb_path op) eqn:E.
  - apply str_eqb_eq in E. subst op. now contradiction Ho.
  - now rewrite andb_false_r.
Qed.

Lemma S3_silent_otherwise_witness :
  let r := validate_safety any_path_exists (lit "Sales-final.twb") None
             (Some (lit "Sales.twb")) new_result in
  of_rule "S3" (errors r) = [] /\ of_rule "S3" (passes r) = [].
Proof.
  apply (S3_silent_otherwise any_path_exists (lit "Sales-final.twb") None
           (Some (lit "Sales.twb")) new_result); [reflexivity|discriminate].
Defined.

(** X24: arguments that are none of the two flags are skipped: without
    [--backup] and [--original] among them, the loop over the optional
    arguments leaves both paths as they were. *)
Theorem parse_args_without_flags (args : list str) (backup_path original_path : option str) :
  ~ In (lit "--backup") args -> ~ In (lit "--original") args ->
  parse_args args backup_path original_path = (backup_path, original_path).
Proof.
  revert backup_path original_path.
  induction args as [|a rest IH]; intros b o Hb Ho; [reflexivity|].
  cbn [parse_args]. destruct rest as [|v rest']; [reflexivity|].
  destruct (str_eqb a (lit "--backup")) eqn:E1.
  { apply str_eqb_eq in E1. subst a. exfalso. apply Hb. now left. }
  destruct (str_eqb a (lit "--original")) eqn:E2.
  { apply str_eqb_eq in E2. subst a. exfalso. apply Ho. now left. }
  apply IH; intros K; [apply Hb|apply Ho]; now right.
Qed.

Lemma parse_args_without_flags_witness :
  parse_args [lit "--verbose"; lit "backup"; lit "-o"] None None = (None, None).
Proof.
  apply parse_args_without_flags; vm_compute; intuition discriminate.
Defined.

(** ** The exit status on a file that cannot be read *)

(** C9, the script on a file that cannot be read: the first read of
    [validate_workbook] (line 381) is outside any handler, so the run raises
    and returns no result, no failure entry is recorded, and the exit status
    is 1; [validate_xml], which reads the same file inside its handler
    (lines 349-351), would have recorded the X1 failure. *)
Theorem unreadable_file_exits_1_without_entry
    (re_search : str -> list re_flag -> str -> option str)
    (re_match : str -> list re_flag -> str -> bool)
    (re_finditer : str -> list re_flag -> str -> list (str * str))
    (path_exists : str -> bool)
    (fromstring : str -> Element + parse_failure)
    (prog twb_path e : str) (args : list str) :
  validate_workbook re_search re_match re_finditer path_exists (cannot_read e)
                    fromstring twb_path (fst (parse_args args None None))
                    (snd (parse_args args None None))
  = Raised e
  /\ main re_search re_match re_finditer path_exists (cannot_read e) fromstring
          (prog :: twb_path :: args) = 1
  /\ validate_xml (cannot_read e) fromstring twb_path new_result
     = (None, mkResult [mkEntry (lit "X1") (lit "XML") (lit "error reading file: " ++ e)]
                       []).
Proof.
  assert (H : forall b o,
            validate_workbook re_search re_match re_finditer path_exists
              (cannot_read e) fromstring twb_path b o = Raised e)
    by (intros b o; now apply validate_workbook_unreadable).
  split; [apply H|]. split; [|reflexivity].
  unfold main. destruct (parse_args args None None) as [b o]. now rewrite H.
Qed.
